(** * Skill-exchange marketplace: browse filters, profile directory and
      request lifecycle.

    Shallow embedding of the page handlers of the Next.js application
    (browse page, public profile page, dashboard, profile creation and
    profile editing) together with the part of the PostgreSQL schema
    ([scripts/create-tables.sql]) that decides what their Supabase calls do:
    the row-level-security policies, the primary keys and the
    [UNIQUE(user_id)] constraint.

    Strings.  A JavaScript string is modelled by a Rocq [string]; each
    character stands for one UTF-16 code unit in the range U+0000..U+00FF
    (ISO 8859-1).  On that range [toLowerCase] maps code unit to code unit and
    [trim] removes the code units 9-13, 32 and 160. *)

From Stdlib Require Import List String Ascii ZArith Bool Lia.
From Stdlib Require Import Sorting.Permutation Sorting.Sorted.
Import ListNotations.

Local Open Scope string_scope.
Local Open Scope list_scope.

(* ------------------------------------------------------------------ *)
(** ** JavaScript strings *)

Module JSString.

(** [WhiteSpace] and [LineTerminator] code units below U+0100: TAB, LF, VT,
    FF, CR, SP and NBSP. *)
Definition isWhiteSpace (c : ascii) : bool :=
  let n := nat_of_ascii c in
  ((9 <=? n) && (n <=? 13) || (n =? 32) || (n =? 160))%nat.

Fixpoint trimStart (s : string) : string :=
  match s with
  | EmptyString => EmptyString
  | String c s' => if isWhiteSpace c then trimStart s' else s
  end.

Fixpoint trimEnd (s : string) : string :=
  match s with
  | EmptyString => EmptyString
  | String c s' =>
      match trimEnd s' with
      | EmptyString => if isWhiteSpace c then EmptyString else String c EmptyString
      | t => String c t
      end
  end.

(** [String.prototype.trim]. *)
Definition trim (s : string) : string := trimEnd (trimStart s).

(** Lower-case mapping of one code unit: A-Z and the Latin-1 capitals
    U+00C0..U+00DE (without the multiplication sign U+00D7) move up by 32. *)
Definition lowerChar (c : ascii) : ascii :=
  let n := nat_of_ascii c in
  if ((65 <=? n) && (n <=? 90)
      || (192 <=? n) && (n <=? 222) && negb (n =? 215))%nat
  then ascii_of_nat (n + 32) else c.

(** [String.prototype.toLowerCase]. *)
Fixpoint toLowerCase (s : string) : string :=
  match s with
  | EmptyString => EmptyString
  | String c s' => String (lowerChar c) (toLowerCase s')
  end.

(** [String.prototype.startsWith]: [t] is a prefix of [s]. *)
Fixpoint startsWith (s t : string) : bool :=
  match t, s with
  | EmptyString, _ => true
  | String _ _, EmptyString => false
  | String ct t', String cs s' => Ascii.eqb cs ct && startsWith s' t'
  end.

(** [String.prototype.includes]: [s.includes(t)]. *)
Fixpoint includes (s t : string) : bool :=
  startsWith s t ||
  match s with
  | EmptyString => false
  | String _ s' => includes s' t
  end.

(** Truthiness of a string value: only the empty string is falsy. *)
Definition truthy (s : string) : bool := negb (s =? "").

(** [s || fallback] on strings. *)
Definition orElse (s fallback : string) : string :=
  if truthy s then s else fallback.

End JSString.

(* ------------------------------------------------------------------ *)
(** ** JavaScript arrays *)

Module JSArray.

(** [Array.prototype.includes] on an array of strings (SameValueZero is
    string equality). *)
Definition includes (l : list string) (x : string) : bool :=
  existsb (fun y => y =? x) l.

(** [Array.prototype.some]. *)
Definition some {A} (f : A -> bool) (l : list A) : bool := existsb f l.

(** [arr?.some(f)] used as a condition: [undefined] is falsy. *)
Definition optSome {A} (f : A -> bool) (l : option (list A)) : bool :=
  match l with
  | None => false
  | Some l => some f l
  end.

(** [arr?.length || 0]. *)
Definition optLength {A} (l : option (list A)) : Z :=
  match l with
  | None => 0
  | Some l => Z.of_nat (List.length l)
  end.

(** [SortCompare]: a comparator result of NaN counts as +0. *)
Definition sortCompare {A} (comparefn : A -> A -> option Z) (a b : A) : Z :=
  match comparefn a b with
  | None => 0
  | Some v => v
  end.

(** [Array.prototype.sort] is a stable sort (ECMAScript 2019); it is
    modelled by the stable insertion sort below: [x] goes in front of the
    first element it does not compare greater than.  The model gives the
    order of the engine for a consistent comparator; for an inconsistent one
    (such as a difference of time values of which some are NaN) the
    standard leaves the order to the implementation, and only the elements
    of the result are determined. *)
Fixpoint insert {A} (comparefn : A -> A -> option Z) (x : A) (l : list A) : list A :=
  match l with
  | [] => [x]
  | y :: l' =>
      if (sortCompare comparefn x y <=? 0)%Z then x :: y :: l'
      else y :: insert comparefn x l'
  end.

Fixpoint sort {A} (comparefn : A -> A -> option Z) (l : list A) : list A :=
  match l with
  | [] => []
  | x :: l' => insert comparefn x (sort comparefn l')
  end.

End JSArray.

(* ------------------------------------------------------------------ *)
(** ** Data model *)

(** The principal supplied by the authentication provider. *)
Module User.
Record t := mk {
  id : string;
  email : string;
  user_metadata_name : option string
}.
End User.

(** A row of [profiles].  [skills_offered] and [skills_wanted] are optional
    because the pages read them through [?.]; the column is nullable. *)
Module Profile.
Record t := mk {
  id : string;
  user_id : string;
  name : string;
  email : string;
  location : option string;
  bio : option string;
  avatar_url : option string;
  skills_offered : option (list string);
  skills_wanted : option (list string);
  availability : string;
  is_public : bool;
  created_at : string;
  updated_at : string
}.
End Profile.

Inductive Status := pending | accepted | declined | completed.

(** A row of [skill_requests]. *)
Module SkillRequest.
Record t := mk {
  id : string;
  from_user_id : string;
  to_user_id : string;
  message : string;
  skill_offered : string;
  skill_wanted : string;
  status : Status;
  created_at : string;
  updated_at : string
}.
End SkillRequest.

Record Database := mkDatabase {
  profiles : list Profile.t;
  skill_requests : list SkillRequest.t
}.

(* ------------------------------------------------------------------ *)
(** ** The data store: PostgREST responses, policies and constraints *)

Module Postgrest.

Record Error := mkError { code : string; message : string }.

(** The [{ data, error }] pair every Supabase call resolves to. *)
Record Response (A : Type) := mkResponse {
  data : option A;
  error : option Error
}.
Arguments mkResponse {A} _ _.
Arguments data {A} _.
Arguments error {A} _.

Definition ok {A} (a : A) : Response A := mkResponse (Some a) None.
Definition done : Response unit := mkResponse None None.
Definition fail {A} (e : Error) : Response A := mkResponse None (Some e).

(** [.single()] on anything but exactly one row. *)
Definition PGRST116 : Error :=
  mkError "PGRST116" "JSON object requested, multiple (or no) rows returned".
(** unique_violation *)
Definition E23505 : Error :=
  mkError "23505" "duplicate key value violates unique constraint".
(** foreign_key_violation *)
Definition E23503 : Error :=
  mkError "23503" "insert or update on table violates foreign key constraint".
(** insufficient_privilege: a row-level-security check failed *)
Definition E42501 : Error :=
  mkError "42501" "new row violates row-level security policy".

Definition single {A} (rows : list A) : Response A :=
  match rows with
  | [r] => ok r
  | _ => fail PGRST116
  end.

End Postgrest.

(** Row-level-security policies of [create-tables.sql]; [uid] is [auth.uid()],
    [None] for an anonymous session. *)
Module Policy.

Definition uid_is (uid : option string) (x : string) : bool :=
  match uid with
  | Some u => u =? x
  | None => false
  end.

(** "Public profiles are viewable by everyone" OR
    "Users can view their own profile" *)
Definition profiles_select (uid : option string) (p : Profile.t) : bool :=
  Profile.is_public p || uid_is uid (Profile.user_id p).

(** "Users can insert their own profile" *)
Definition profiles_insert (uid : option string) (p : Profile.t) : bool :=
  uid_is uid (Profile.user_id p).

(** "Users can update their own profile" *)
Definition profiles_update (uid : option string) (p : Profile.t) : bool :=
  uid_is uid (Profile.user_id p).

(** "Users can view requests they sent or received" *)
Definition skill_requests_select (uid : option string) (r : SkillRequest.t) : bool :=
  uid_is uid (SkillRequest.from_user_id r) || uid_is uid (SkillRequest.to_user_id r).

(** "Users can insert requests they send" *)
Definition skill_requests_insert (uid : option string) (r : SkillRequest.t) : bool :=
  uid_is uid (SkillRequest.from_user_id r).

(** "Users can update requests they received" *)
Definition skill_requests_update (uid : option string) (r : SkillRequest.t) : bool :=
  uid_is uid (SkillRequest.to_user_id r).

End Policy.

(** Table operations as one session sees them.  [uuid] is the value
    [gen_random_uuid()] produces for the statement and [now] the value of
    [NOW()]. *)
Module Table.
Import Postgrest.

Definition set_profiles (db : Database) (ps : list Profile.t) : Database :=
  mkDatabase ps (skill_requests db).

Definition set_skill_requests (db : Database) (rs : list SkillRequest.t) : Database :=
  mkDatabase (profiles db) rs.

(** [from("profiles").select("*")] followed by the [.eq] filters [flt]. *)
Definition profiles_select (uid : option string) (flt : Profile.t -> bool)
    (db : Database) : list Profile.t :=
  filter flt (filter (Policy.profiles_select uid) (profiles db)).

Definition has_user_id (u : string) (ps : list Profile.t) : bool :=
  existsb (fun p => Profile.user_id p =? u) ps.

Definition has_profile_id (i : string) (ps : list Profile.t) : bool :=
  existsb (fun p => Profile.id p =? i) ps.

Definition has_request_id (i : string) (rs : list SkillRequest.t) : bool :=
  existsb (fun r => SkillRequest.id r =? i) rs.

(** Trigger [update_skill_requests_updated_at]. *)
Definition touch_request (now : string) (r : SkillRequest.t) : SkillRequest.t :=
  SkillRequest.mk (SkillRequest.id r) (SkillRequest.from_user_id r)
    (SkillRequest.to_user_id r) (SkillRequest.message r)
    (SkillRequest.skill_offered r) (SkillRequest.skill_wanted r)
    (SkillRequest.status r) (SkillRequest.created_at r) now.

(** Trigger [update_profiles_updated_at]. *)
Definition touch_profile (now : string) (p : Profile.t) : Profile.t :=
  Profile.mk (Profile.id p) (Profile.user_id p) (Profile.name p)
    (Profile.email p) (Profile.location p) (Profile.bio p)
    (Profile.avatar_url p) (Profile.skills_offered p)
    (Profile.skills_wanted p) (Profile.availability p)
    (Profile.is_public p) (Profile.created_at p) now.

(** The columns an insert into [skill_requests] supplies; [id],
    [created_at] and [updated_at] take their defaults. *)
Record RequestInsert := mkRequestInsert {
  ri_from_user_id : string;
  ri_to_user_id : string;
  ri_message : string;
  ri_skill_offered : string;
  ri_skill_wanted : string;
  ri_status : Status
}.

Definition new_request (uuid now : string) (v : RequestInsert) : SkillRequest.t :=
  SkillRequest.mk uuid (ri_from_user_id v) (ri_to_user_id v) (ri_message v)
    (ri_skill_offered v) (ri_skill_wanted v) (ri_status v) now now.

(** [from("skill_requests").insert(v)]: the insert policy, the primary key
    and the two foreign keys into [profiles(user_id)] are checked; a
    failure leaves the table as it was. *)
Definition skill_requests_insert (uid : option string) (uuid now : string)
    (v : RequestInsert) (db : Database) : Response unit * Database :=
  let r := new_request uuid now v in
  if negb (Policy.skill_requests_insert uid r) then (fail E42501, db)
  else if has_request_id uuid (skill_requests db) then (fail E23505, db)
  else if negb (has_user_id (ri_from_user_id v) (profiles db)
                && has_user_id (ri_to_user_id v) (profiles db))
  then (fail E23503, db)
  else (done, set_skill_requests db (skill_requests db ++ [r])).

(** [from("skill_requests").update(set).<filters flt>]: the rows the
    session may see and update and that pass the filter are rewritten, the
    trigger then refreshes [updated_at]; every other row stays as it is.
    A statement that matches no row is not an error. *)
Definition skill_requests_update (uid : option string) (now : string)
    (set : SkillRequest.t -> SkillRequest.t) (flt : SkillRequest.t -> bool)
    (db : Database) : Response unit * Database :=
  (done,
   set_skill_requests db
     (map (fun r =>
             if Policy.skill_requests_select uid r
                && Policy.skill_requests_update uid r && flt r
             then touch_request now (set r) else r)
          (skill_requests db))).

(** The columns the profile form submits. *)
Record ProfileUpsert := mkProfileUpsert {
  pu_user_id : string;
  pu_name : string;
  pu_email : string;
  pu_location : option string;
  pu_bio : option string;
  pu_skills_offered : list string;
  pu_skills_wanted : list string;
  pu_availability : string;
  pu_is_public : bool
}.

Definition new_profile (uuid now : string) (v : ProfileUpsert) : Profile.t :=
  Profile.mk uuid (pu_user_id v) (pu_name v) (pu_email v) (pu_location v)
    (pu_bio v) None (Some (pu_skills_offered v)) (Some (pu_skills_wanted v))
    (pu_availability v) (pu_is_public v) now now.

(** [DO UPDATE SET] of the submitted columns on the conflicting row. *)
Definition merge_profile (now : string) (v : ProfileUpsert) (p : Profile.t) : Profile.t :=
  Profile.mk (Profile.id p) (pu_user_id v) (pu_name v) (pu_email v)
    (pu_location v) (pu_bio v) (Profile.avatar_url p)
    (Some (pu_skills_offered v)) (Some (pu_skills_wanted v))
    (pu_availability v) (pu_is_public v) (Profile.created_at p) now.

(** [from("profiles").upsert(v)] without [onConflict]: an
    [INSERT ... ON CONFLICT (id) DO UPDATE], the primary key being the
    arbiter.  The form supplies no [id], so the candidate row carries
    [uuid].  [UNIQUE(user_id)] is not the arbiter: a second row for a
    [user_id] already present raises unique_violation. *)
Definition profiles_upsert (uid : option string) (uuid now : string)
    (v : ProfileUpsert) (db : Database) : Response unit * Database :=
  let p := new_profile uuid now v in
  if negb (Policy.profiles_insert uid p) then (fail E42501, db)
  else if has_profile_id uuid (profiles db) then
    (* conflict on the primary key: update that row in place *)
    if existsb (fun q => (Profile.id q =? uuid)
                         && negb (Policy.profiles_update uid q)) (profiles db)
    then (fail E42501, db)
    else if existsb (fun q => negb (Profile.id q =? uuid)
                              && (Profile.user_id q =? pu_user_id v)) (profiles db)
    then (fail E23505, db)
    else (done,
          set_profiles db
            (map (fun q => if Profile.id q =? uuid then merge_profile now v q else q)
                 (profiles db)))
  else if has_user_id (pu_user_id v) (profiles db) then (fail E23505, db)
  else (done, set_profiles db (profiles db ++ [p])).

(** The columns the profile editor saves. *)
Record ProfileUpdate := mkProfileUpdate {
  pd_name : string;
  pd_location : option string;
  pd_bio : option string;
  pd_skills_offered : list string;
  pd_skills_wanted : list string;
  pd_availability : string;
  pd_is_public : bool
}.

Definition apply_update (v : ProfileUpdate) (p : Profile.t) : Profile.t :=
  Profile.mk (Profile.id p) (Profile.user_id p) (pd_name v) (Profile.email p)
    (pd_location v) (pd_bio v) (Profile.avatar_url p)
    (Some (pd_skills_offered v)) (Some (pd_skills_wanted v))
    (pd_availability v) (pd_is_public v) (Profile.created_at p)
    (Profile.updated_at p).

(** [from("profiles").update(v).<filters flt>]. *)
Definition profiles_update (uid : option string) (now : string)
    (v : ProfileUpdate) (flt : Profile.t -> bool)
    (db : Database) : Response unit * Database :=
  (done,
   set_profiles db
     (map (fun p =>
             if Policy.profiles_select uid p
                && Policy.profiles_update uid p && flt p
             then touch_profile now (apply_update v p) else p)
          (profiles db))).

End Table.

(* ------------------------------------------------------------------ *)
(** ** Browse page: [applyFilters] *)

Module Browse.
Import JSString.

Section Runtime.

(** [String.prototype.localeCompare] and [new Date(s).getTime()] belong to
    the JavaScript runtime; [Date_getTime] is [None] where the time value
    is NaN (invalid date). *)
Variable localeCompare : string -> string -> Z.
Variable Date_getTime : string -> option Z.

Definition matchesSearch (searchTerm : string) (profile : Profile.t) : bool :=
  (searchTerm =? "")
  || JSArray.optSome
       (fun skill => includes (toLowerCase skill) (toLowerCase searchTerm))
       (Profile.skills_offered profile)
  || JSArray.optSome
       (fun skill => includes (toLowerCase skill) (toLowerCase searchTerm))
       (Profile.skills_wanted profile)
  || includes (toLowerCase (Profile.name profile)) (toLowerCase searchTerm).

Definition matchesLocation (locationFilter : string) (profile : Profile.t) : bool :=
  (locationFilter =? "")
  || match Profile.location profile with
     | None => false
     | Some location =>
         truthy location
         && includes (toLowerCase location) (toLowerCase locationFilter)
     end.

Definition matchesAvailability (availabilityFilter : string) (profile : Profile.t) : bool :=
  (availabilityFilter =? "all")
  || (toLowerCase (Profile.availability profile) =? toLowerCase availabilityFilter).

(** Subtraction of two time values; NaN is absorbing. *)
Definition timeDiff (x y : option Z) : option Z :=
  match x, y with
  | Some tx, Some ty => Some (tx - ty)%Z
  | _, _ => None
  end.

(** The comparator handed to [filtered.sort]. *)
Definition compareFn (sortBy : string) (a b : Profile.t) : option Z :=
  if sortBy =? "newest" then
    timeDiff (Date_getTime (Profile.created_at b)) (Date_getTime (Profile.created_at a))
  else if sortBy =? "oldest" then
    timeDiff (Date_getTime (Profile.created_at a)) (Date_getTime (Profile.created_at b))
  else if sortBy =? "name" then
    Some (localeCompare (Profile.name a) (Profile.name b))
  else if sortBy =? "skills" then
    Some (JSArray.optLength (Profile.skills_offered b)
          - JSArray.optLength (Profile.skills_offered a))%Z
  else Some 0%Z.

(** The value [applyFilters] hands to [setFilteredProfiles]. *)
Definition applyFilters (searchTerm locationFilter availabilityFilter sortBy : string)
    (profiles : list Profile.t) : list Profile.t :=
  let filtered :=
    filter (fun profile =>
              matchesSearch searchTerm profile
              && matchesLocation locationFilter profile
              && matchesAvailability availabilityFilter profile)
           profiles in
  JSArray.sort (compareFn sortBy) filtered.

End Runtime.

End Browse.

(* ------------------------------------------------------------------ *)
(** ** Public profile page: [fetchProfiles] and [handleSendRequest] *)

Module ProfileView.
Import JSString Postgrest.

(** The [useState] cells of the page. *)
Record State := mkState {
  profile : option Profile.t;
  currentUserProfile : option Profile.t;
  requestMessage : string;
  selectedSkillOffered : string;
  selectedSkillWanted : string;
  isRequestDialogOpen : bool;
  loading : bool;
  sending : bool;
  error : string;
  success : string
}.

Definition initial : State :=
  mkState None None "" "" "" false true false "" "".

Definition setProfile v s :=
  mkState v (currentUserProfile s) (requestMessage s) (selectedSkillOffered s)
    (selectedSkillWanted s) (isRequestDialogOpen s) (loading s) (sending s)
    (error s) (success s).
Definition setCurrentUserProfile v s :=
  mkState (profile s) v (requestMessage s) (selectedSkillOffered s)
    (selectedSkillWanted s) (isRequestDialogOpen s) (loading s) (sending s)
    (error s) (success s).
Definition setRequestMessage v s :=
  mkState (profile s) (currentUserProfile s) v (selectedSkillOffered s)
    (selectedSkillWanted s) (isRequestDialogOpen s) (loading s) (sending s)
    (error s) (success s).
Definition setSelectedSkillOffered v s :=
  mkState (profile s) (currentUserProfile s) (requestMessage s) v
    (selectedSkillWanted s) (isRequestDialogOpen s) (loading s) (sending s)
    (error s) (success s).
Definition setSelectedSkillWanted v s :=
  mkState (profile s) (currentUserProfile s) (requestMessage s)
    (selectedSkillOffered s) v (isRequestDialogOpen s) (loading s) (sending s)
    (error s) (success s).
Definition setIsRequestDialogOpen v s :=
  mkState (profile s) (currentUserProfile s) (requestMessage s)
    (selectedSkillOffered s) (selectedSkillWanted s) v (loading s) (sending s)
    (error s) (success s).
Definition setLoading v s :=
  mkState (profile s) (currentUserProfile s) (requestMessage s)
    (selectedSkillOffered s) (selectedSkillWanted s) (isRequestDialogOpen s)
    v (sending s) (error s) (success s).
Definition setSending v s :=
  mkState (profile s) (currentUserProfile s) (requestMessage s)
    (selectedSkillOffered s) (selectedSkillWanted s) (isRequestDialogOpen s)
    (loading s) v (error s) (success s).
Definition setError v s :=
  mkState (profile s) (currentUserProfile s) (requestMessage s)
    (selectedSkillOffered s) (selectedSkillWanted s) (isRequestDialogOpen s)
    (loading s) (sending s) v (success s).
Definition setSuccess v s :=
  mkState (profile s) (currentUserProfile s) (requestMessage s)
    (selectedSkillOffered s) (selectedSkillWanted s) (isRequestDialogOpen s)
    (loading s) (sending s) (error s) v.

Definition auth_uid (user : option User.t) : option string :=
  option_map User.id user.

(** [fetchProfiles], started with the route parameter [id]: the viewed
    profile is read with [.eq("id", id).eq("is_public", true).single()];
    an error there is thrown past the second query. *)
Definition fetchProfiles (user : option User.t) (id : string)
    (db : Database) (s : State) : State :=
  let s := setError "" (setLoading true s) in
  let viewed :=
    single (Table.profiles_select (auth_uid user)
              (fun p => (Profile.id p =? id) && Bool.eqb (Profile.is_public p) true)
              db) in
  let s :=
    match Postgrest.error viewed with
    | Some viewedProfileError =>
        setError (orElse (message viewedProfileError)
                    "Profile not found or an error occurred.") s
    | None =>
        let s := setProfile (data viewed) s in
        match user with
        | Some u =>
            let current :=
              single (Table.profiles_select (auth_uid user)
                        (fun p => Profile.user_id p =? User.id u) db) in
            let s :=
              match Postgrest.error current with
              | Some currentProfileError =>
                  if negb (code currentProfileError =? "PGRST116")
                  then setError (orElse (message currentProfileError)
                                   "Failed to load your profile data.") s
                  else s
              | None => s
              end in
            setCurrentUserProfile (data current) s
        | None => s
        end
    end in
  setLoading false s.

(** What one run of a handler leaves behind: the page state, the data
    store and the route pushed to the router, if any. *)
Record Outcome := mkOutcome {
  state : State;
  store : Database;
  pushed : option string
}.

(** [handleSendRequest]; [uuid] and [now] are the defaults the data store
    fills in for [id] and the two timestamps. *)
Definition handleSendRequest (user : option User.t) (uuid now : string)
    (db : Database) (s : State) : Outcome :=
  match user, profile s, currentUserProfile s with
  | Some u, Some viewed, Some _ =>
      if negb (truthy (trim (requestMessage s)))
         || negb (truthy (selectedSkillOffered s))
         || negb (truthy (selectedSkillWanted s))
      then mkOutcome (setError "Please fill in all fields" s) db None
      else
        let s := setError "" (setSending true s) in
        let '(resp, db') :=
          Table.skill_requests_insert (auth_uid user) uuid now
            (Table.mkRequestInsert (User.id u) (Profile.user_id viewed)
               (trim (requestMessage s)) (selectedSkillOffered s)
               (selectedSkillWanted s) pending)
            db in
        let s :=
          match Postgrest.error resp with
          | Some e => setError (orElse (message e) "Failed to send request") s
          | None =>
              setSelectedSkillWanted ""
                (setSelectedSkillOffered ""
                   (setRequestMessage ""
                      (setIsRequestDialogOpen false
                         (setSuccess "Request sent successfully!" s))))
          end in
        mkOutcome (setSending false s) db' None
  | _, _, _ => mkOutcome s db (Some "/auth/login")
  end.

End ProfileView.

(* ------------------------------------------------------------------ *)
(** ** Dashboard: [handleRequestAction] *)

Module Dashboard.
Import JSString Postgrest.

(** The [action] parameter has type ["accepted" | "declined"]. *)
Inductive Action := action_accepted | action_declined.

Definition status_of (a : Action) : Status :=
  match a with
  | action_accepted => accepted
  | action_declined => declined
  end.

(** The object passed to [.update]: [status] and [updated_at]. *)
Definition set_status (st : Status) (updated_at : string)
    (r : SkillRequest.t) : SkillRequest.t :=
  SkillRequest.mk (SkillRequest.id r) (SkillRequest.from_user_id r)
    (SkillRequest.to_user_id r) (SkillRequest.message r)
    (SkillRequest.skill_offered r) (SkillRequest.skill_wanted r)
    st (SkillRequest.created_at r) updated_at.

(** What a run of the handler leaves behind: the [error] cell, the data
    store, and whether [fetchUserData] was started to refresh the lists. *)
Record Outcome := mkOutcome {
  error : string;
  store : Database;
  refreshed : bool
}.

(** [handleRequestAction]; [toISOString] is the client clock
    ([new Date().toISOString()]), [now] the data store's [NOW()].  [error0]
    is the [error] cell before the call. *)
Definition handleRequestAction (user : option User.t) (toISOString now : string)
    (requestId : string) (action : Action) (db : Database) (error0 : string) : Outcome :=
  let '(resp, db') :=
    Table.skill_requests_update (option_map User.id user) now
      (set_status (status_of action) toISOString)
      (fun r => SkillRequest.id r =? requestId) db in
  match Postgrest.error resp with
  | Some e =>
      mkOutcome (orElse (message e) "An error occurred while updating the request")
        db' false
  | None => mkOutcome error0 db' true
  end.

End Dashboard.

(* ------------------------------------------------------------------ *)
(** ** Profile forms: creation page and editor *)

Inductive SkillType := offered | wanted.

(** The [formData] cell both profile forms keep. *)
Module FormData.
Record t := mk {
  name : string;
  location : string;
  bio : string;
  skills_offered : list string;
  skills_wanted : list string;
  availability : string;
  is_public : bool
}.

(** [formData[field]] *)
Definition get (type : SkillType) (f : t) : list string :=
  match type with
  | offered => skills_offered f
  | wanted => skills_wanted f
  end.

(** [{ ...prev, [field]: v }] *)
Definition set (type : SkillType) (v : list string) (f : t) : t :=
  match type with
  | offered =>
      mk (name f) (location f) (bio f) v (skills_wanted f) (availability f) (is_public f)
  | wanted =>
      mk (name f) (location f) (bio f) (skills_offered f) v (availability f) (is_public f)
  end.

(** [s || null] *)
Definition orNull (s : string) : option string :=
  if JSString.truthy s then Some s else None.
End FormData.

Module CreateProfile.
Import JSString Postgrest.

Record State := mkState {
  loading : bool;
  error : string;
  skillInput : string;
  wantedSkillInput : string;
  formData : FormData.t
}.

Definition setLoading v s :=
  mkState v (error s) (skillInput s) (wantedSkillInput s) (formData s).
Definition setError v s :=
  mkState (loading s) v (skillInput s) (wantedSkillInput s) (formData s).
Definition setSkillInput v s :=
  mkState (loading s) (error s) v (wantedSkillInput s) (formData s).
Definition setWantedSkillInput v s :=
  mkState (loading s) (error s) (skillInput s) v (formData s).
Definition setFormData v s :=
  mkState (loading s) (error s) (skillInput s) (wantedSkillInput s) v.

Record Outcome := mkOutcome {
  state : State;
  store : Database;
  pushed : option string
}.

(** [checkExistingProfile], run when the page mounts for [user]. *)
Definition checkExistingProfile (user : User.t) (db : Database) (s : State) : Outcome :=
  let s := setLoading true s in
  let resp :=
    single (Table.profiles_select (Some (User.id user))
              (fun p => Profile.user_id p =? User.id user) db) in
  match data resp with
  | Some _ => mkOutcome (setLoading false s) db (Some "/dashboard")
  | None =>
      let s :=
        match Postgrest.error resp with
        | Some e =>
            if negb (code e =? "PGRST116")
            then setError (orElse (message e) "Failed to check existing profile.") s
            else s
        | None => s
        end in
      mkOutcome (setLoading false s) db None
  end.

Definition addSkill (skill : string) (type : SkillType) (s : State) : State :=
  if negb (truthy (trim skill)) then s
  else
    let s :=
      if negb (JSArray.includes (FormData.get type (formData s)) (trim skill))
      then setFormData
             (FormData.set type (FormData.get type (formData s) ++ [trim skill])
                (formData s)) s
      else s in
    match type with
    | offered => setSkillInput "" s
    | wanted => setWantedSkillInput "" s
    end.

Definition removeSkill (skill : string) (type : SkillType) (s : State) : State :=
  setFormData
    (FormData.set type
       (filter (fun x => negb (x =? skill)) (FormData.get type (formData s)))
       (formData s)) s.

(** [handleSubmit]: the form is sent with [upsert]. *)
Definition handleSubmit (user : option User.t) (uuid now : string)
    (db : Database) (s : State) : Outcome :=
  match user with
  | None => mkOutcome s db None
  | Some u =>
      let s := setError "" (setLoading true s) in
      let f := formData s in
      let '(resp, db') :=
        Table.profiles_upsert (Some (User.id u)) uuid now
          (Table.mkProfileUpsert (User.id u) (FormData.name f) (User.email u)
             (FormData.orNull (FormData.location f)) (FormData.orNull (FormData.bio f))
             (FormData.skills_offered f) (FormData.skills_wanted f)
             (FormData.availability f) (FormData.is_public f))
          db in
      match Postgrest.error resp with
      | Some e =>
          mkOutcome
            (setLoading false
               (setError
                  (orElse (message e)
                     "An error occurred while creating your profile. Please try again.") s))
            db' None
      | None => mkOutcome (setLoading false s) db' (Some "/dashboard")
      end
  end.

End CreateProfile.

Module EditProfile.
Import JSString Postgrest.

Record State := mkState {
  profile : option Profile.t;
  loading : bool;
  saving : bool;
  editing : bool;
  error : string;
  skillInput : string;
  wantedSkillInput : string;
  formData : FormData.t
}.

Definition setSkillInput v s :=
  mkState (profile s) (loading s) (saving s) (editing s) (error s) v
    (wantedSkillInput s) (formData s).
Definition setWantedSkillInput v s :=
  mkState (profile s) (loading s) (saving s) (editing s) (error s) (skillInput s)
    v (formData s).
Definition setFormData v s :=
  mkState (profile s) (loading s) (saving s) (editing s) (error s) (skillInput s)
    (wantedSkillInput s) v.

Definition addSkill (skill : string) (type : SkillType) (s : State) : State :=
  if negb (truthy (trim skill)) then s
  else
    let s :=
      if negb (JSArray.includes (FormData.get type (formData s)) (trim skill))
      then setFormData
             (FormData.set type (FormData.get type (formData s) ++ [trim skill])
                (formData s)) s
      else s in
    match type with
    | offered => setSkillInput "" s
    | wanted => setWantedSkillInput "" s
    end.

(** The write [handleSave] issues: [.update({...}).eq("user_id", user.id)]. *)
Definition handleSave_write (user : User.t) (now : string) (s : State)
    (db : Database) : Postgrest.Response unit * Database :=
  let f := formData s in
  Table.profiles_update (Some (User.id user)) now
    (Table.mkProfileUpdate (FormData.name f)
       (FormData.orNull (FormData.location f)) (FormData.orNull (FormData.bio f))
       (FormData.skills_offered f) (FormData.skills_wanted f)
       (FormData.availability f) (FormData.is_public f))
    (fun p => Profile.user_id p =? User.id user) db.

End EditProfile.

(* ------------------------------------------------------------------ *)
(** ** Vocabulary of the specification *)

Module Spec.
Import JSString.

(** Two strings are equal up to letter case. *)
Definition equalIgnoringCase (a b : string) : Prop :=
  toLowerCase a = toLowerCase b.

(** [t] occurs in [s]. *)
Definition isSubstring (t s : string) : Prop :=
  exists pre post, s = (pre ++ t ++ post)%string.

(** [t] is a case-insensitive substring of [s]: the lower-case form of [t]
    occurs in the lower-case form of [s].  Both strings are lowered as a
    whole, as [s.toLowerCase().includes(t.toLowerCase())] does; nothing is
    said about lowering a string piece by piece. *)
Definition ciSubstring (t s : string) : Prop :=
  isSubstring (toLowerCase t) (toLowerCase s).

(** The entries of a skill array; a missing array has none. *)
Definition entries (l : option (list string)) : list string :=
  match l with
  | None => []
  | Some l => l
  end.

(** Empty or made of white space only. *)
Definition blank (s : string) : Prop :=
  forall c, In c (list_ascii_of_string s) -> isWhiteSpace c = true.

(** One profile per principal ([UNIQUE(user_id)]). *)
Definition one_profile_per_user (db : Database) : Prop :=
  NoDup (map Profile.user_id (profiles db)).

(** The rows of [profiles] owned by [u]. *)
Definition profiles_of (u : string) (db : Database) : list Profile.t :=
  filter (fun p => Profile.user_id p =? u) (profiles db).

(** The profiles of the browse example: Alice offers React, Bob offers
    Cooking; the other columns hold the schema defaults. *)
Definition alice : Profile.t :=
  Profile.mk "p-alice" "u-alice" "Alice" "alice@example.org" None None None
    (Some ["React"]) (Some []) "flexible" true "2024-01-01T00:00:00Z"
    "2024-01-01T00:00:00Z".

Definition bob : Profile.t :=
  Profile.mk "p-bob" "u-bob" "Bob" "bob@example.org" None None None
    (Some ["Cooking"]) (Some []) "flexible" true "2024-01-02T00:00:00Z"
    "2024-01-02T00:00:00Z".

(** Orders of the four sort keys, and what the sort needs of the runtime. *)
Section Orders.
Variable localeCompare : string -> string -> Z.
Variable Date_getTime : string -> option Z.

(** [a] was created no later than [b]; both time values are numbers. *)
Definition createdNoLaterThan (a b : Profile.t) : Prop :=
  exists ta tb,
    Date_getTime (Profile.created_at a) = Some ta
    /\ Date_getTime (Profile.created_at b) = Some tb
    /\ (ta <= tb)%Z.

(** [a]'s name collates no later than [b]'s. *)
Definition nameNoLaterThan (a b : Profile.t) : Prop :=
  (localeCompare (Profile.name a) (Profile.name b) <= 0)%Z.

(** [a] offers at least as many skills as [b]. *)
Definition offersNoFewerThan (a b : Profile.t) : Prop :=
  List.length (entries (Profile.skills_offered b))
  <= List.length (entries (Profile.skills_offered a)).

(** A collation is consistent when it is total and transitive. *)
Definition consistentCollation : Prop :=
  (forall x y, (localeCompare x y <= 0)%Z \/ (localeCompare y x <= 0)%Z)
  /\ (forall x y z, (localeCompare x y <= 0)%Z -> (localeCompare y z <= 0)%Z ->
                    (localeCompare x z <= 0)%Z).

(** Every [created_at] parses to a time value. *)
Definition validDates (l : list Profile.t) : Prop :=
  Forall (fun p => Date_getTime (Profile.created_at p) <> None) l.
End Orders.

(** The conjunction of the three filter predicates. *)
Definition passes (searchTerm locationFilter availabilityFilter : string)
    (p : Profile.t) : bool :=
  Browse.matchesSearch searchTerm p
  && Browse.matchesLocation locationFilter p
  && Browse.matchesAvailability availabilityFilter p.

(** The profiles of the sort example: one skill, three skills. *)
Definition oneSkill : Profile.t :=
  Profile.mk "p-1" "u-1" "One" "one@example.org" None None None
    (Some ["a"]) (Some []) "flexible" true "2024-01-01T00:00:00Z"
    "2024-01-01T00:00:00Z".

Definition threeSkills : Profile.t :=
  Profile.mk "p-3" "u-3" "Three" "three@example.org" None None None
    (Some ["a"; "b"; "c"]) (Some []) "flexible" true "2024-01-02T00:00:00Z"
    "2024-01-02T00:00:00Z".

(** The other skill list of the form. *)
Definition other (type : SkillType) : SkillType :=
  match type with
  | offered => wanted
  | wanted => offered
  end.

(** What [addSkill] does to a page whose form is read by [formData]: blank
    input changes nothing; a label already listed leaves the list as it is;
    any other label is appended, trimmed, at the end; the other list is never
    touched; and a second call with the same input changes nothing more. *)
Definition addSkillSpec {State : Type} (formData : State -> FormData.t)
    (addSkill : string -> SkillType -> State -> State) : Prop :=
  forall (skill : string) (type : SkillType) (s : State),
    (blank skill -> addSkill skill type s = s)
    /\ (In (trim skill) (FormData.get type (formData s)) ->
        FormData.get type (formData (addSkill skill type s))
        = FormData.get type (formData s))
    /\ (~ blank skill -> ~ In (trim skill) (FormData.get type (formData s)) ->
        FormData.get type (formData (addSkill skill type s))
        = FormData.get type (formData s) ++ [trim skill])
    /\ FormData.get (other type) (formData (addSkill skill type s))
       = FormData.get (other type) (formData s)
    /\ addSkill skill type (addSkill skill type s) = addSkill skill type s.

(** A form that already lists one offered skill. *)
Definition sampleForm : FormData.t :=
  FormData.mk "Ann" "" "" ["Vue"] [] "flexible" true.

(** Primary key of [profiles]. *)
Definition profile_ids_unique (db : Database) : Prop :=
  NoDup (map Profile.id (profiles db)).

(** Sample principals and rows: Alice and Bob own the public profiles
    above, Carol owns a private one; Bob once asked Alice for React and was
    declined. *)
Definition userAlice : User.t := User.mk "u-alice" "alice@example.org" (Some "Alice").
Definition userBob : User.t := User.mk "u-bob" "bob@example.org" (Some "Bob").
Definition userCarol : User.t := User.mk "u-carol" "carol@example.org" None.

Definition carol : Profile.t :=
  Profile.mk "p-carol" "u-carol" "Carol" "carol@example.org" (Some "Paris") None None
    (Some ["Piano"]) (Some ["React"]) "weekends" false "2024-01-03T00:00:00Z"
    "2024-01-03T00:00:00Z".

Definition declinedRequest : SkillRequest.t :=
  SkillRequest.mk "r-1" "u-bob" "u-alice" "Shall we trade?" "Cooking" "React"
    declined "2024-02-01T00:00:00Z" "2024-02-02T00:00:00Z".

Definition sampleDb : Database :=
  mkDatabase [alice; bob; carol] [declinedRequest].

(** Bob is looking at Alice's profile with a filled-in request dialog. *)
Definition bobViewsAlice : ProfileView.State :=
  ProfileView.mkState (Some alice) (Some bob) " Shall we trade? " "Cooking" "React"
    true false false "" "".

(** The same dialog with a message of spaces only. *)
Definition bobViewsAliceBlank : ProfileView.State :=
  ProfileView.mkState (Some alice) (Some bob) "   " "Cooking" "React"
    true false false "" "".

(** The creation form as it mounts, before anything is typed. *)
Definition emptyForm : CreateProfile.State :=
  CreateProfile.mkState true "" "" ""
    (FormData.mk "" "" "" [] [] "flexible" true).

End Spec.

(* ------------------------------------------------------------------ *)
(** ** Queries with ordering and embedded rows *)

(** A request row with the profiles a query embeds in it
    (the [from_profile] and [to_profile] of the select lists). *)
Module JoinedRequest.
Record t := mk {
  request : SkillRequest.t;
  from_profile : option Profile.t;
  to_profile : option Profile.t
}.
End JoinedRequest.

Module Query.

(** [.order("created_at", { ascending: false })]: the rows by descending
    [created_at]; [timestamptz_cmp] compares two stored timestamps
    (negative, zero or positive).  The data store leaves the order of rows
    with equal timestamps open; here they come in table order. *)
Definition order_created_at_desc {A} (timestamptz_cmp : string -> string -> Z)
    (created_at : A -> string) (rows : list A) : list A :=
  JSArray.sort (fun a b => Some (timestamptz_cmp (created_at b) (created_at a))) rows.

(** [from("skill_requests").select(...)] followed by the [.eq] filters
    [flt]: the rows the session may read. *)
Definition skill_requests_select (uid : option string) (flt : SkillRequest.t -> bool)
    (db : Database) : list SkillRequest.t :=
  filter flt (filter (Policy.skill_requests_select uid) (skill_requests db)).

(** An embedded [profiles] row: the profile the key [user_id] points to,
    as far as the session may read it, else [null]. *)
Definition embed_profile (uid : option string) (user_id : string)
    (db : Database) : option Profile.t :=
  find (fun p => Profile.user_id p =? user_id)
    (filter (Policy.profiles_select uid) (profiles db)).

End Query.

(* ------------------------------------------------------------------ *)
(** ** Home page: [fetchProfiles] and [handleSearch] *)

Module Home.
Import JSString Postgrest.

Record State := mkState {
  searchTerm : string;
  profiles : list Profile.t;
  filteredProfiles : list Profile.t;
  loading : bool
}.

Definition setSearchTerm v s :=
  mkState v (profiles s) (filteredProfiles s) (loading s).
Definition setProfiles v s :=
  mkState (searchTerm s) v (filteredProfiles s) (loading s).
Definition setFilteredProfiles v s :=
  mkState (searchTerm s) (profiles s) v (loading s).
Definition setLoading v s :=
  mkState (searchTerm s) (profiles s) (filteredProfiles s) v.

(** [fetchProfiles]: [.eq("is_public", true).limit(8)]. *)
Definition fetchProfiles (user : option User.t) (db : Database) (s : State) : State :=
  let data :=
    firstn 8
      (Table.profiles_select (option_map User.id user)
         (fun p => Bool.eqb (Profile.is_public p) true) db) in
  setLoading false (setFilteredProfiles data (setProfiles data s)).

Definition handleSearch (term : string) (s : State) : State :=
  let s := setSearchTerm term s in
  if trim term =? "" then setFilteredProfiles (profiles s) s
  else
    setFilteredProfiles
      (filter (fun profile =>
                 JSArray.optSome
                   (fun skill => includes (toLowerCase skill) (toLowerCase term))
                   (Profile.skills_offered profile)
                 || JSArray.optSome
                      (fun skill => includes (toLowerCase skill) (toLowerCase term))
                      (Profile.skills_wanted profile)
                 || includes (toLowerCase (Profile.name profile)) (toLowerCase term))
              (profiles s))
      s.

End Home.

(* ------------------------------------------------------------------ *)
(** ** Browse page: the state cells, [fetchProfiles] and [clearFilters] *)

Module BrowsePage.

Record State := mkState {
  searchTerm : string;
  locationFilter : string;
  availabilityFilter : string;
  sortBy : string;
  profiles : list Profile.t;
  filteredProfiles : list Profile.t;
  loading : bool
}.

Definition initial : State := mkState "" "" "all" "newest" [] [] true.

Definition setProfiles v s :=
  mkState (searchTerm s) (locationFilter s) (availabilityFilter s) (sortBy s)
    v (filteredProfiles s) (loading s).
Definition setFilteredProfiles v s :=
  mkState (searchTerm s) (locationFilter s) (availabilityFilter s) (sortBy s)
    (profiles s) v (loading s).
Definition setLoading v s :=
  mkState (searchTerm s) (locationFilter s) (availabilityFilter s) (sortBy s)
    (profiles s) (filteredProfiles s) v.

Section Runtime.
Variable localeCompare : string -> string -> Z.
Variable Date_getTime : string -> option Z.
Variable timestamptz_cmp : string -> string -> Z.

(** [fetchProfiles]: the public profiles, newest first. *)
Definition fetchProfiles (user : option User.t) (db : Database) (s : State) : State :=
  let data :=
    Query.order_created_at_desc timestamptz_cmp Profile.created_at
      (Table.profiles_select (option_map User.id user)
         (fun p => Bool.eqb (Profile.is_public p) true) db) in
  setLoading false (setProfiles data s).

(** The effect that runs [applyFilters] whenever a filter, the sort key or
    the loaded profiles change. *)
Definition applyFilters (s : State) : State :=
  setFilteredProfiles
    (Browse.applyFilters localeCompare Date_getTime (searchTerm s)
       (locationFilter s) (availabilityFilter s) (sortBy s) (profiles s))
    s.

(** [clearFilters], followed by the effect its four updates trigger. *)
Definition clearFilters (s : State) : State :=
  applyFilters
    (mkState "" "" "all" "newest" (profiles s) (filteredProfiles s) (loading s)).

End Runtime.

End BrowsePage.

(* ------------------------------------------------------------------ *)
(** ** Dashboard: [fetchUserData] and the refresh after an action *)

Module DashboardLoad.
Import JSString Postgrest.

Record State := mkState {
  profile : option Profile.t;
  incomingRequests : list JoinedRequest.t;
  sentRequests : list JoinedRequest.t;
  loading : bool;
  error : string;
  activeTab : string
}.

Definition initial : State := mkState None [] [] true "" "profile".

Definition setProfile v s :=
  mkState v (incomingRequests s) (sentRequests s) (loading s) (error s) (activeTab s).
Definition setIncomingRequests v s :=
  mkState (profile s) v (sentRequests s) (loading s) (error s) (activeTab s).
Definition setSentRequests v s :=
  mkState (profile s) (incomingRequests s) v (loading s) (error s) (activeTab s).
Definition setLoading v s :=
  mkState (profile s) (incomingRequests s) (sentRequests s) v (error s) (activeTab s).
Definition setError v s :=
  mkState (profile s) (incomingRequests s) (sentRequests s) (loading s) v (activeTab s).

Record Outcome := mkOutcome {
  state : State;
  store : Database;
  pushed : option string
}.

(** [r.status === "pending"] *)
Definition isPending (r : JoinedRequest.t) : bool :=
  match SkillRequest.status (JoinedRequest.request r) with
  | pending => true
  | _ => false
  end.

(** The number in the badge of the Requests tab:
    [incomingRequests.filter((r) => r.status === "pending").length]. *)
Definition pendingCount (s : State) : nat :=
  List.length (filter isPending (incomingRequests s)).

(** "Total Requests": [incomingRequests.length + sentRequests.length]. *)
Definition totalRequests (s : State) : nat :=
  List.length (incomingRequests s) + List.length (sentRequests s).

Section Store.
Variable timestamptz_cmp : string -> string -> Z.

(** The two request queries of [fetchUserData] for the principal [u]. *)
Definition incoming (u : string) (db : Database) : list JoinedRequest.t :=
  map (fun r =>
         JoinedRequest.mk r
           (Query.embed_profile (Some u) (SkillRequest.from_user_id r) db) None)
      (Query.order_created_at_desc timestamptz_cmp SkillRequest.created_at
         (Query.skill_requests_select (Some u)
            (fun r => SkillRequest.to_user_id r =? u) db)).

Definition sent (u : string) (db : Database) : list JoinedRequest.t :=
  map (fun r =>
         JoinedRequest.mk r None
           (Query.embed_profile (Some u) (SkillRequest.to_user_id r) db))
      (Query.order_created_at_desc timestamptz_cmp SkillRequest.created_at
         (Query.skill_requests_select (Some u)
            (fun r => SkillRequest.from_user_id r =? u) db)).

(** [fetchUserData]: the route pushed, if any, and the page state. *)
Definition fetchUserData (user : option User.t) (db : Database) (s : State)
    : State * option string :=
  match user with
  | None => (s, None)
  | Some u =>
      let resp :=
        single (Table.profiles_select (Some (User.id u))
                  (fun p => Profile.user_id p =? User.id u) db) in
      match Postgrest.error resp with
      | Some profileError =>
          if code profileError =? "PGRST116"
          then (setLoading false s, Some "/profile/create")
          else
            (setLoading false
               (setError
                  (orElse (message profileError)
                     "An error occurred while fetching data") s),
             None)
      | None =>
          let s := setProfile (data resp) s in
          let s := setIncomingRequests (incoming (User.id u) db) s in
          let s := setSentRequests (sent (User.id u) db) s in
          (setLoading false s, None)
      end
  end.

(** [handleRequestAction] with the refresh it starts: the update, then
    [fetchUserData] on the updated store. *)
Definition handleRequestAction (user : option User.t) (toISOString now : string)
    (requestId : string) (action : Dashboard.Action) (db : Database)
    (s : State) : Outcome :=
  let out :=
    Dashboard.handleRequestAction user toISOString now requestId action db (error s) in
  if Dashboard.refreshed out then
    let '(s', route) := fetchUserData user (Dashboard.store out) s in
    mkOutcome s' (Dashboard.store out) route
  else mkOutcome (setError (Dashboard.error out) s) (Dashboard.store out) None.

End Store.

End DashboardLoad.

(* ------------------------------------------------------------------ *)
(** ** Dashboard, second page: [updateRequestStatus] *)

Module DashboardPage.
Import JSString Postgrest.

(** The object passed to [.update]: [{ status }]. *)
Definition set_status (st : Status) (r : SkillRequest.t) : SkillRequest.t :=
  SkillRequest.mk (SkillRequest.id r) (SkillRequest.from_user_id r)
    (SkillRequest.to_user_id r) (SkillRequest.message r)
    (SkillRequest.skill_offered r) (SkillRequest.skill_wanted r)
    st (SkillRequest.created_at r) (SkillRequest.updated_at r).

(** [updateRequestStatus]; [refreshed] tells that [fetchDashboardData] was
    started. *)
Definition updateRequestStatus (user : option User.t) (now : string)
    (requestId : string) (status : Dashboard.Action) (db : Database)
    (error0 : string) : Dashboard.Outcome :=
  let '(resp, db') :=
    Table.skill_requests_update (option_map User.id user) now
      (set_status (Dashboard.status_of status))
      (fun r => SkillRequest.id r =? requestId) db in
  match Postgrest.error resp with
  | Some e =>
      Dashboard.mkOutcome (orElse (message e) "Failed to update request") db' false
  | None => Dashboard.mkOutcome error0 db' true
  end.

End DashboardPage.

(* ------------------------------------------------------------------ *)
(** ** Public profile page, second page: [sendRequest] *)

Module ProfileViewPage.
Import JSString Postgrest.

(** The [requestData] cell. *)
Record RequestData := mkRequestData {
  message : string;
  skill_offered : string;
  skill_wanted : string
}.

Record State := mkState {
  profile : option Profile.t;
  userProfile : option Profile.t;
  loading : bool;
  sending : bool;
  error : string;
  success : string;
  dialogOpen : bool;
  requestData : RequestData
}.

Definition setSending v s :=
  mkState (profile s) (userProfile s) (loading s) v (error s) (success s)
    (dialogOpen s) (requestData s).
Definition setError v s :=
  mkState (profile s) (userProfile s) (loading s) (sending s) v (success s)
    (dialogOpen s) (requestData s).
Definition setSuccess v s :=
  mkState (profile s) (userProfile s) (loading s) (sending s) (error s) v
    (dialogOpen s) (requestData s).
Definition setDialogOpen v s :=
  mkState (profile s) (userProfile s) (loading s) (sending s) (error s)
    (success s) v (requestData s).
Definition setRequestData v s :=
  mkState (profile s) (userProfile s) (loading s) (sending s) (error s)
    (success s) (dialogOpen s) v.

Record Outcome := mkOutcome {
  state : State;
  store : Database;
  pushed : option string
}.

(** [sendRequest]: the message is stored as typed. *)
Definition sendRequest (user : option User.t) (uuid now : string)
    (db : Database) (s : State) : Outcome :=
  match user, profile s, userProfile s with
  | Some u, Some viewed, Some _ =>
      if negb (truthy (trim (message (requestData s))))
         || negb (truthy (skill_offered (requestData s)))
         || negb (truthy (skill_wanted (requestData s)))
      then mkOutcome (setError "Please fill in all fields" s) db None
      else
        let s := setError "" (setSending true s) in
        let '(resp, db') :=
          Table.skill_requests_insert (Some (User.id u)) uuid now
            (Table.mkRequestInsert (User.id u) (Profile.user_id viewed)
               (message (requestData s)) (skill_offered (requestData s))
               (skill_wanted (requestData s)) pending)
            db in
        let s :=
          match Postgrest.error resp with
          | Some e => setError (orElse (Postgrest.message e) "Failed to send request") s
          | None =>
              setRequestData (mkRequestData "" "" "")
                (setDialogOpen false (setSuccess "Request sent successfully!" s))
          end in
        mkOutcome (setSending false s) db' None
  | _, _, _ => mkOutcome s db (Some "/auth/login")
  end.

End ProfileViewPage.

(* ------------------------------------------------------------------ *)
(** ** Profile editor: [fetchProfile], [removeSkill] and [handleSave] *)

Module ProfileEditor.
Import JSString Postgrest.

Definition setProfile v (s : EditProfile.State) :=
  EditProfile.mkState v (EditProfile.loading s) (EditProfile.saving s)
    (EditProfile.editing s) (EditProfile.error s) (EditProfile.skillInput s)
    (EditProfile.wantedSkillInput s) (EditProfile.formData s).
Definition setLoading v (s : EditProfile.State) :=
  EditProfile.mkState (EditProfile.profile s) v (EditProfile.saving s)
    (EditProfile.editing s) (EditProfile.error s) (EditProfile.skillInput s)
    (EditProfile.wantedSkillInput s) (EditProfile.formData s).
Definition setSaving v (s : EditProfile.State) :=
  EditProfile.mkState (EditProfile.profile s) (EditProfile.loading s) v
    (EditProfile.editing s) (EditProfile.error s) (EditProfile.skillInput s)
    (EditProfile.wantedSkillInput s) (EditProfile.formData s).
Definition setEditing v (s : EditProfile.State) :=
  EditProfile.mkState (EditProfile.profile s) (EditProfile.loading s)
    (EditProfile.saving s) v (EditProfile.error s) (EditProfile.skillInput s)
    (EditProfile.wantedSkillInput s) (EditProfile.formData s).
Definition setError v (s : EditProfile.State) :=
  EditProfile.mkState (EditProfile.profile s) (EditProfile.loading s)
    (EditProfile.saving s) (EditProfile.editing s) v (EditProfile.skillInput s)
    (EditProfile.wantedSkillInput s) (EditProfile.formData s).

(** [s || ""] on a nullable column. *)
Definition orEmpty (s : option string) : string :=
  match s with
  | Some s => s
  | None => ""
  end.

(** [l || []] on a nullable array column. *)
Definition orNil (l : option (list string)) : list string :=
  match l with
  | Some l => l
  | None => []
  end.

(** The form [fetchProfile] fills from the loaded row. *)
Definition formOf (data : Profile.t) : FormData.t :=
  FormData.mk (Profile.name data) (orEmpty (Profile.location data))
    (orEmpty (Profile.bio data)) (orNil (Profile.skills_offered data))
    (orNil (Profile.skills_wanted data)) (Profile.availability data)
    (Profile.is_public data).

(** [fetchProfile]: the page state and the route pushed, if any. *)
Definition fetchProfile (user : option User.t) (db : Database)
    (s : EditProfile.State) : EditProfile.State * option string :=
  match user with
  | None => (s, None)
  | Some u =>
      let resp :=
        single (Table.profiles_select (Some (User.id u))
                  (fun p => Profile.user_id p =? User.id u) db) in
      match Postgrest.error resp, data resp with
      | Some e, _ =>
          if code e =? "PGRST116"
          then (setLoading false s, Some "/profile/create")
          else (setLoading false
                  (setError (orElse (message e) "Failed to load profile") s), None)
      | None, Some row =>
          (setLoading false
             (EditProfile.setFormData (formOf row) (setProfile (Some row) s)), None)
      | None, None =>
          (* no row and no error: reading [data.name] throws a TypeError,
             whose message the catch block shows *)
          (setLoading false
             (setError "Cannot read properties of null (reading 'name')"
                (setProfile None s)), None)
      end
  end.

Definition removeSkill (skill : string) (type : SkillType)
    (s : EditProfile.State) : EditProfile.State :=
  EditProfile.setFormData
    (FormData.set type
       (filter (fun x => negb (x =? skill))
          (FormData.get type (EditProfile.formData s)))
       (EditProfile.formData s)) s.

Record Outcome := mkOutcome {
  state : EditProfile.State;
  store : Database;
  pushed : option string
}.

(** [handleSave]: the update, then [fetchProfile] on the updated store. *)
Definition handleSave (user : option User.t) (now : string) (db : Database)
    (s : EditProfile.State) : Outcome :=
  match user, EditProfile.profile s with
  | Some u, Some _ =>
      let s := setError "" (setSaving true s) in
      let '(resp, db') := EditProfile.handleSave_write u now s db in
      match Postgrest.error resp with
      | Some e =>
          mkOutcome
            (setSaving false
               (setError (orElse (message e) "Failed to update profile") s))
            db' None
      | None =>
          let '(s', route) := fetchProfile user db' s in
          mkOutcome (setSaving false (setEditing false s')) db' route
      end
  | _, _ => mkOutcome s db None
  end.

End ProfileEditor.

(* ------------------------------------------------------------------ *)
(** ** Further vocabulary *)

Module SpecExtra.
Import JSString.

(** A skill list as the forms build it: every label is trimmed and not
    empty, and no label occurs twice. *)
Definition cleanLabels (l : list string) : Prop :=
  NoDup l /\ Forall (fun x => trim x = x /\ x <> "") l.

(** Primary key of [skill_requests]. *)
Definition request_ids_unique (db : Database) : Prop :=
  NoDup (map SkillRequest.id (skill_requests db)).

(** A store in which Bob's second request to Alice is still pending. *)
Definition pendingRequest : SkillRequest.t :=
  SkillRequest.mk "r-9" "u-bob" "u-alice" "Once more?" "Cooking" "React"
    pending "2024-02-03T00:00:00Z" "2024-02-03T00:00:00Z".

Definition pendingDb : Database :=
  mkDatabase [Spec.alice; Spec.bob; Spec.carol] [Spec.declinedRequest; pendingRequest].

End SpecExtra.

(* ------------------------------------------------------------------ *)
(** * Properties *)

(** ** Strings *)

Section StringFacts.
Import JSString Spec.

Lemma startsWith_spec (s t : string) :
  startsWith s t = true <-> exists post, s = (t ++ post)%string.
Proof.
  revert s. induction t as [|ct t IH]; intros s; simpl.
  - split; [intros _; now exists s | now destruct s].
  - destruct s as [|cs s]; simpl.
    + split; [discriminate | intros [post H]; discriminate].
    + rewrite andb_true_iff, Ascii.eqb_eq, IH. split.
      * intros [-> [post ->]]. now exists post.
      * intros [post H]. injection H as -> ->. split; [reflexivity | now exists post].
Qed.

Lemma includes_spec (s t : string) :
  includes s t = true <-> isSubstring t s.
Proof.
  unfold isSubstring. induction s as [|c s IH].
  - cbn [includes]. rewrite orb_false_r, startsWith_spec. split.
    + intros [post H]. now exists EmptyString, post.
    + intros [pre [post H]]. destruct pre; [now exists post | discriminate].
  - cbn [includes]. rewrite orb_true_iff, startsWith_spec, IH. split.
    + intros [[post H] | [pre [post H]]].
      * now exists EmptyString, post.
      * exists (String c pre), post. simpl. now rewrite H.
    + intros [pre [post H]]. destruct pre as [|c' pre]; simpl in H.
      * left. now exists post.
      * right. injection H as _ H. now exists pre, post.
Qed.

(** Of [toLowerCase] the filter theorems use two facts only: the lower-case
    form of the empty string is empty, and no other string has an empty
    lower-case form. *)
Lemma toLowerCase_empty (s : string) : toLowerCase s = "" -> s = "".
Proof. destruct s; [reflexivity | discriminate]. Qed.

(** The test every filter runs: [s.toLowerCase().includes(t.toLowerCase())]. *)
Lemma includes_toLowerCase (s t : string) :
  includes (toLowerCase s) (toLowerCase t) = true <-> ciSubstring t s.
Proof. unfold ciSubstring. apply includes_spec. Qed.

Lemma optSome_spec (f : string -> bool) (l : option (list string)) :
  JSArray.optSome f l = true <-> exists s, In s (entries l) /\ f s = true.
Proof.
  destruct l as [l|]; simpl.
  - apply existsb_exists.
  - split; [discriminate | intros [s [[] _]]].
Qed.

Lemma ciSubstring_nonempty (t s : string) :
  ciSubstring t s -> t <> "" -> s <> "".
Proof.
  intros [pre [post H]] Ht Hs. apply Ht. subst s.
  change (toLowerCase "") with "" in H.
  destruct pre; [|discriminate]. simpl in H.
  apply toLowerCase_empty. now destruct (toLowerCase t).
Qed.

End StringFacts.

(* ------------------------------------------------------------------ *)
(** ** Browse page: the three filter predicates *)

Section BrowseFilters.
Import JSString Spec Browse.

(** C6.  The search predicate of the browse page holds exactly when the
    term is empty, or is a case-insensitive substring of the profile name, of
    an entry of [skills_offered] or of an entry of [skills_wanted]; the
    comparison is the one of the code, between the lower-case forms of the
    two whole strings.  A term that reads "react" in any letter case matches
    Alice, who offers "React", and does not match Bob, who offers only
    "Cooking"; "LIC" finds Alice by name, "EAC" by her offered skill, and
    "rEa" finds Carol by the skill she wants. *)
Theorem search_predicate_iff (searchTerm react : string) (profile : Profile.t) :
  equalIgnoringCase react "react" ->
  (matchesSearch searchTerm profile = true <->
     searchTerm = ""
     \/ ciSubstring searchTerm (Profile.name profile)
     \/ (exists skill, In skill (entries (Profile.skills_offered profile))
                       /\ ciSubstring searchTerm skill)
     \/ (exists skill, In skill (entries (Profile.skills_wanted profile))
                       /\ ciSubstring searchTerm skill))
  /\ matchesSearch react alice = true
  /\ matchesSearch react bob = false
  /\ matchesSearch "REACT" alice = true
  /\ matchesSearch "LIC" alice = true
  /\ matchesSearch "EAC" alice = true
  /\ matchesSearch "rEa" carol = true
  /\ matchesSearch "REACT" bob = false.
Proof.
  intros Hreact. split; [|split; [|split; [|repeat split]]].
  - unfold matchesSearch.
    rewrite !orb_true_iff, String.eqb_eq, !optSome_spec, includes_toLowerCase.
    split.
    + intros [[[H | [s [Hin H]]] | [s [Hin H]]] | H]; auto.
      * right; right; left. exists s. now rewrite <- includes_toLowerCase.
      * right; right; right. exists s. now rewrite <- includes_toLowerCase.
    + intros [H | [H | [[s [Hin H]] | [s [Hin H]]]]]; auto.
      * left; left; right. exists s. now rewrite includes_toLowerCase.
      * left; right. exists s. now rewrite includes_toLowerCase.
  - unfold matchesSearch, equalIgnoringCase in *. rewrite Hreact.
    apply orb_true_iff. left. apply orb_true_iff. left.
    apply orb_true_iff. right. reflexivity.
  - unfold matchesSearch, equalIgnoringCase in *. rewrite Hreact.
    destruct react as [|c r]; [discriminate|]. reflexivity.
Qed.

Lemma search_predicate_iff_witness :
  equalIgnoringCase "ReAcT" "react"
  /\ (matchesSearch "ReAcT" alice = true <->
        "ReAcT" = ""
        \/ ciSubstring "ReAcT" (Profile.name alice)
        \/ (exists skill, In skill (entries (Profile.skills_offered alice))
                          /\ ciSubstring "ReAcT" skill)
        \/ (exists skill, In skill (entries (Profile.skills_wanted alice))
                          /\ ciSubstring "ReAcT" skill))
  /\ matchesSearch "ReAcT" alice = true
  /\ matchesSearch "ReAcT" bob = false
  /\ matchesSearch "REACT" alice = true
  /\ matchesSearch "LIC" alice = true
  /\ matchesSearch "EAC" alice = true
  /\ matchesSearch "rEa" carol = true
  /\ matchesSearch "REACT" bob = false.
Proof.
  split; [reflexivity | apply (search_predicate_iff "ReAcT" "ReAcT" alice); reflexivity].
Defined.

(** C8.  The location predicate holds exactly when the filter is empty, or
    the profile has a location of which the filter is a case-insensitive
    substring (the lower-case form of the filter occurs in the lower-case
    form of the location); a profile without location matches no non-empty
    filter.  Carol, located in "Paris", is found by "pArIs" and by "ARI" and
    not by "Rome". *)
Theorem location_predicate_iff (locationFilter nonEmpty : string)
    (profile nowhere : Profile.t) :
  Profile.location nowhere = None ->
  nonEmpty <> "" ->
  (matchesLocation locationFilter profile = true <->
     locationFilter = ""
     \/ exists location, Profile.location profile = Some location
                         /\ ciSubstring locationFilter location)
  /\ matchesLocation nonEmpty nowhere = false
  /\ matchesLocation "pArIs" carol = true
  /\ matchesLocation "ARI" carol = true
  /\ matchesLocation "Rome" carol = false.
Proof.
  intros Hnone Hne. unfold matchesLocation. split; [|split; [|repeat split]].
  - rewrite orb_true_iff, String.eqb_eq.
    destruct (Profile.location profile) as [location|].
    + rewrite andb_true_iff, includes_toLowerCase. split.
      * intros [H | [_ H]]; [now left | right; now exists location].
      * intros [H | [l [Hl H]]]; [now left |].
        injection Hl as <-.
        destruct (String.eqb_spec locationFilter "") as [He | He]; [now left | right].
        split; [|assumption].
        unfold truthy. apply negb_true_iff, String.eqb_neq.
        now apply (ciSubstring_nonempty locationFilter).
    + split.
      * intros [H | H]; [now left | discriminate].
      * intros [H | [l [Hl _]]]; [now left | discriminate].
  - rewrite Hnone, orb_false_r. now apply String.eqb_neq.
Qed.

Lemma location_predicate_iff_witness :
  Profile.location bob = None
  /\ "Paris" <> ""
  /\ (matchesLocation "pArIs" carol = true <->
        "pArIs" = ""
        \/ exists location, Profile.location carol = Some location
                            /\ ciSubstring "pArIs" location)
  /\ matchesLocation "Paris" bob = false
  /\ matchesLocation "pArIs" carol = true
  /\ matchesLocation "ARI" carol = true
  /\ matchesLocation "Rome" carol = false.
Proof.
  split; [reflexivity | split; [discriminate |]].
  apply (location_predicate_iff "pArIs" "Paris" carol bob); [reflexivity | discriminate].
Defined.

(** C9.  The availability predicate holds exactly when the filter is the
    sentinel "all", or the profile's availability equals the filter up to
    letter case: "FLEXIBLE" matches Bob's "flexible" and "WeekEnds" matches
    Carol's "weekends".  The comparison is on whole strings: "flex" is a
    substring of Bob's "flexible" and still does not match.  The sentinel is
    the literal "all": "ALL" is compared like any other value. *)
Theorem availability_predicate_iff (availabilityFilter : string) (profile : Profile.t) :
  (matchesAvailability availabilityFilter profile = true <->
     availabilityFilter = "all"
     \/ equalIgnoringCase (Profile.availability profile) availabilityFilter)
  /\ matchesAvailability "all" profile = true
  /\ includes (toLowerCase (Profile.availability bob)) (toLowerCase "flex") = true
  /\ matchesAvailability "flex" bob = false
  /\ matchesAvailability "FLEXIBLE" bob = true
  /\ matchesAvailability "WeekEnds" carol = true
  /\ matchesAvailability "weekends" bob = false
  /\ matchesAvailability "ALL" bob = false.
Proof.
  unfold matchesAvailability, equalIgnoringCase. repeat split.
  - rewrite orb_true_iff, !String.eqb_eq. tauto.
  - rewrite orb_true_iff, !String.eqb_eq. tauto.
Qed.

End BrowseFilters.

(* ------------------------------------------------------------------ *)
(** ** [Array.prototype.sort] *)

Section SortFacts.
Import JSArray.
Context {A : Type}.
Variable comparefn : A -> A -> option Z.

Lemma insert_perm (x : A) (l : list A) :
  Permutation (insert comparefn x l) (x :: l).
Proof.
  induction l as [|y l IH]; simpl; [reflexivity|].
  destruct (sortCompare comparefn x y <=? 0)%Z; [reflexivity|].
  rewrite IH. apply perm_swap.
Qed.

Lemma sort_perm (l : list A) : Permutation (sort comparefn l) l.
Proof.
  induction l as [|x l IH]; simpl; [reflexivity|].
  rewrite insert_perm. now constructor.
Qed.

Lemma in_insert (x y : A) (l : list A) :
  In y (insert comparefn x l) <-> x = y \/ In y l.
Proof.
  split; intros H.
  - apply (Permutation_in _ (insert_perm x l)) in H. exact H.
  - apply (Permutation_in _ (Permutation_sym (insert_perm x l))). exact H.
Qed.

Lemma in_sort (y : A) (l : list A) : In y (sort comparefn l) <-> In y l.
Proof.
  split; intros H.
  - apply (Permutation_in _ (sort_perm l)) in H. exact H.
  - apply (Permutation_in _ (Permutation_sym (sort_perm l))). exact H.
Qed.

Variable R : A -> A -> Prop.

Lemma insert_sorted (x : A) (l : list A) :
  (forall y, In y l -> (sortCompare comparefn x y <= 0)%Z -> R x y) ->
  (forall y, In y l -> ~ (sortCompare comparefn x y <= 0)%Z -> R y x) ->
  (forall y z, In y l -> In z l -> R x y -> R y z -> R x z) ->
  StronglySorted R l ->
  StronglySorted R (insert comparefn x l).
Proof.
  induction l as [|y l IH]; intros Hle Hgt Htr Hs; simpl.
  - repeat constructor.
  - apply StronglySorted_inv in Hs. destruct Hs as [Hs Hy].
    destruct (Z.leb_spec (sortCompare comparefn x y) 0) as [Hc | Hc].
    + assert (Rxy : R x y) by (apply Hle; [now left | exact Hc]).
      constructor; [now constructor|].
      constructor; [exact Rxy|].
      rewrite Forall_forall in *. intros z Hz.
      apply (Htr y z); [now left | right; exact Hz | exact Rxy | apply Hy; exact Hz].
    + constructor.
      * apply IH; auto.
        -- intros z Hz. apply Hle. now right.
        -- intros z Hz. apply Hgt. now right.
        -- intros z w Hz Hw. apply Htr; now right.
      * rewrite Forall_forall in *. intros z Hz.
        apply (proj1 (in_insert _ _ _)) in Hz. destruct Hz as [<- | Hz].
        -- apply Hgt; [now left | lia].
        -- now apply Hy.
Qed.

(** On a list where the comparator decides a total, transitive order [R],
    the sort returns the list in that order. *)
Lemma sort_sorted (l : list A) :
  (forall x y, In x l -> In y l -> (sortCompare comparefn x y <= 0)%Z -> R x y) ->
  (forall x y, In x l -> In y l -> ~ (sortCompare comparefn x y <= 0)%Z -> R y x) ->
  (forall x y z, In x l -> In y l -> In z l -> R x y -> R y z -> R x z) ->
  StronglySorted R (sort comparefn l).
Proof.
  induction l as [|x l IH]; intros Hle Hgt Htr; simpl.
  - constructor.
  - apply insert_sorted.
    + intros y Hy Hc. apply (proj1 (in_sort _ _)) in Hy. apply Hle; [now left | now right | exact Hc].
    + intros y Hy Hc. apply (proj1 (in_sort _ _)) in Hy. apply Hgt; [now left | now right | exact Hc].
    + intros y z Hy Hz. apply (proj1 (in_sort _ _)) in Hy. apply (proj1 (in_sort _ _)) in Hz.
      apply Htr; [now left | now right | now right].
    + apply IH.
      * intros a b Ha Hb. apply Hle; now right.
      * intros a b Ha Hb. apply Hgt; now right.
      * intros a b c Ha Hb Hc. apply Htr; now right.
Qed.

End SortFacts.

(* ------------------------------------------------------------------ *)
(** ** Browse page: sorting after filtering *)

Section BrowseSort.
Import JSString JSArray Spec Browse.
Variable localeCompare : string -> string -> Z.
Variable Date_getTime : string -> option Z.

Lemma validDates_time (l : list Profile.t) (p : Profile.t) :
  validDates Date_getTime l -> In p l ->
  exists t, Date_getTime (Profile.created_at p) = Some t.
Proof.
  intros Hv Hin. unfold validDates in Hv. rewrite Forall_forall in Hv.
  specialize (Hv p Hin). destruct (Date_getTime (Profile.created_at p)) as [t|].
  - now exists t.
  - now contradiction Hv.
Qed.

Lemma sort_newest (l : list Profile.t) :
  validDates Date_getTime l ->
  StronglySorted (fun a b => createdNoLaterThan Date_getTime b a)
    (sort (compareFn localeCompare Date_getTime "newest") l).
Proof.
  intros Hv. apply sort_sorted.
  - intros x y Hx Hy.
    destruct (validDates_time l x Hv Hx) as [tx Ex].
    destruct (validDates_time l y Hv Hy) as [ty Ey].
    unfold sortCompare, compareFn; cbn [String.eqb Ascii.eqb Bool.eqb].
    rewrite Ex, Ey; simpl. intros H. exists ty, tx. repeat split; auto. lia.
  - intros x y Hx Hy.
    destruct (validDates_time l x Hv Hx) as [tx Ex].
    destruct (validDates_time l y Hv Hy) as [ty Ey].
    unfold sortCompare, compareFn; cbn [String.eqb Ascii.eqb Bool.eqb].
    rewrite Ex, Ey; simpl. intros H. exists tx, ty. repeat split; auto. lia.
  - intros x y z _ _ _ [ty [tx [Ey [Ex H1]]]] [tz [ty' [Ez [Ey' H2]]]].
    rewrite Ey in Ey'. injection Ey' as <-.
    exists tz, tx. repeat split; auto. lia.
Qed.

Lemma sort_oldest (l : list Profile.t) :
  validDates Date_getTime l ->
  StronglySorted (createdNoLaterThan Date_getTime)
    (sort (compareFn localeCompare Date_getTime "oldest") l).
Proof.
  intros Hv. apply sort_sorted.
  - intros x y Hx Hy.
    destruct (validDates_time l x Hv Hx) as [tx Ex].
    destruct (validDates_time l y Hv Hy) as [ty Ey].
    unfold sortCompare, compareFn; cbn [String.eqb Ascii.eqb Bool.eqb].
    rewrite Ex, Ey; simpl. intros H. exists tx, ty. repeat split; auto. lia.
  - intros x y Hx Hy.
    destruct (validDates_time l x Hv Hx) as [tx Ex].
    destruct (validDates_time l y Hv Hy) as [ty Ey].
    unfold sortCompare, compareFn; cbn [String.eqb Ascii.eqb Bool.eqb].
    rewrite Ex, Ey; simpl. intros H. exists ty, tx. repeat split; auto. lia.
  - intros x y z _ _ _ [tx [ty [Ex [Ey H1]]]] [ty' [tz [Ey' [Ez H2]]]].
    rewrite Ey in Ey'. injection Ey' as <-.
    exists tx, tz. repeat split; auto. lia.
Qed.

Lemma sort_name (l : list Profile.t) :
  consistentCollation localeCompare ->
  StronglySorted (nameNoLaterThan localeCompare)
    (sort (compareFn localeCompare Date_getTime "name") l).
Proof.
  intros [Htot Htr]. unfold nameNoLaterThan. apply sort_sorted.
  - intros x y _ _. unfold sortCompare, compareFn; simpl. auto.
  - intros x y _ _. unfold sortCompare, compareFn; simpl. intros H.
    destruct (Htot (Profile.name x) (Profile.name y)); [contradiction | assumption].
  - intros x y z _ _ _. apply Htr.
Qed.

Lemma optLength_entries (l : option (list string)) :
  optLength l = Z.of_nat (List.length (entries l)).
Proof. now destruct l. Qed.

Lemma sort_skills (l : list Profile.t) :
  StronglySorted offersNoFewerThan
    (sort (compareFn localeCompare Date_getTime "skills") l).
Proof.
  unfold offersNoFewerThan. apply sort_sorted.
  - intros x y _ _. unfold sortCompare, compareFn; simpl.
    rewrite !optLength_entries. lia.
  - intros x y _ _. unfold sortCompare, compareFn; simpl.
    rewrite !optLength_entries. lia.
  - intros x y z _ _ _. lia.
Qed.

(** C7.  [applyFilters] returns the profiles that pass the search, the
    location and the availability predicate together, each exactly as often
    as it was loaded, and it sorts after filtering: by [created_at]
    descending for "newest" and ascending for "oldest" (the dates being
    valid), by name in collation order for "name" (the collation being
    consistent) and by the number of offered skills descending for "skills";
    a profile with three skills comes before one with a single skill. *)
Theorem sort_after_filter
    (searchTerm locationFilter availabilityFilter sortBy : string)
    (profiles : list Profile.t) :
  Permutation
    (applyFilters localeCompare Date_getTime searchTerm locationFilter
       availabilityFilter sortBy profiles)
    (filter (passes searchTerm locationFilter availabilityFilter) profiles)
  /\ (forall p,
        In p (applyFilters localeCompare Date_getTime searchTerm locationFilter
                availabilityFilter sortBy profiles)
        <-> In p profiles
            /\ matchesSearch searchTerm p = true
            /\ matchesLocation locationFilter p = true
            /\ matchesAvailability availabilityFilter p = true)
  /\ (validDates Date_getTime
        (filter (passes searchTerm locationFilter availabilityFilter) profiles) ->
      StronglySorted (fun a b => createdNoLaterThan Date_getTime b a)
        (applyFilters localeCompare Date_getTime searchTerm locationFilter
           availabilityFilter "newest" profiles)
      /\ StronglySorted (createdNoLaterThan Date_getTime)
           (applyFilters localeCompare Date_getTime searchTerm locationFilter
              availabilityFilter "oldest" profiles))
  /\ (consistentCollation localeCompare ->
      StronglySorted (nameNoLaterThan localeCompare)
        (applyFilters localeCompare Date_getTime searchTerm locationFilter
           availabilityFilter "name" profiles))
  /\ StronglySorted offersNoFewerThan
       (applyFilters localeCompare Date_getTime searchTerm locationFilter
          availabilityFilter "skills" profiles)
  /\ applyFilters localeCompare Date_getTime "" "" "all" "skills"
       [oneSkill; threeSkills] = [threeSkills; oneSkill]
  /\ applyFilters localeCompare Date_getTime "" "" "all" "skills"
       [threeSkills; oneSkill] = [threeSkills; oneSkill].
Proof.
  unfold applyFilters.
  change (fun profile : Profile.t =>
            matchesSearch searchTerm profile
            && matchesLocation locationFilter profile
            && matchesAvailability availabilityFilter profile)
    with (passes searchTerm locationFilter availabilityFilter).
  split; [|split; [|split; [|split; [|split; [|split]]]]].
  - apply sort_perm.
  - intros p. rewrite in_sort, filter_In. unfold passes.
    rewrite !andb_true_iff. tauto.
  - intros Hv. split; [now apply sort_newest | now apply sort_oldest].
  - apply sort_name.
  - apply sort_skills.
  - reflexivity.
  - reflexivity.
Qed.

End BrowseSort.

(** The theorem at a collation that compares lengths and a clock that reads
    the length of a date, on Alice and Bob. *)
Lemma sort_after_filter_witness :
  Spec.validDates (fun s => Some (Z.of_nat (String.length s)))
    (filter (Spec.passes "" "" "all") [Spec.alice; Spec.bob])
  /\ Spec.consistentCollation
       (fun x y => Z.of_nat (String.length x) - Z.of_nat (String.length y))%Z
  /\ StronglySorted
       (fun a b =>
          Spec.createdNoLaterThan (fun s => Some (Z.of_nat (String.length s))) b a)
       (Browse.applyFilters
          (fun x y => Z.of_nat (String.length x) - Z.of_nat (String.length y))%Z
          (fun s => Some (Z.of_nat (String.length s))) "" "" "all" "newest"
          [Spec.alice; Spec.bob])
  /\ StronglySorted
       (Spec.nameNoLaterThan
          (fun x y => Z.of_nat (String.length x) - Z.of_nat (String.length y))%Z)
       (Browse.applyFilters
          (fun x y => Z.of_nat (String.length x) - Z.of_nat (String.length y))%Z
          (fun s => Some (Z.of_nat (String.length s))) "" "" "all" "name"
          [Spec.alice; Spec.bob]).
Proof.
  assert (Hv : Spec.validDates (fun s => Some (Z.of_nat (String.length s)))
                 (filter (Spec.passes "" "" "all") [Spec.alice; Spec.bob]))
    by (repeat constructor; discriminate).
  assert (Hc : Spec.consistentCollation
                 (fun x y => Z.of_nat (String.length x) - Z.of_nat (String.length y))%Z)
    by (split; intros; lia).
  split; [exact Hv | split; [exact Hc | split]].
  - apply (sort_after_filter
             (fun x y => Z.of_nat (String.length x) - Z.of_nat (String.length y))%Z
             (fun s => Some (Z.of_nat (String.length s))) "" "" "all" "newest"
             [Spec.alice; Spec.bob]).
    exact Hv.
  - apply (sort_after_filter
             (fun x y => Z.of_nat (String.length x) - Z.of_nat (String.length y))%Z
             (fun s => Some (Z.of_nat (String.length s))) "" "" "all" "name"
             [Spec.alice; Spec.bob]).
    exact Hc.
Defined.

(* ------------------------------------------------------------------ *)
(** ** Profile forms: [addSkill] *)

Section TrimFacts.
Import JSString Spec.

Lemma blank_nil : blank "".
Proof. intros c []. Qed.

Lemma blank_cons (c : ascii) (s : string) :
  blank (String c s) <-> isWhiteSpace c = true /\ blank s.
Proof.
  unfold blank; simpl. split.
  - intros H. split; [apply H; now left | intros d Hd; apply H; now right].
  - intros [Hc Hs] d [<- | Hd]; [exact Hc | now apply Hs].
Qed.

Lemma trimStart_empty_iff (s : string) : trimStart s = "" <-> blank s.
Proof.
  induction s as [|c s IH]; simpl.
  - split; [intros _; apply blank_nil | reflexivity].
  - rewrite blank_cons. destruct (isWhiteSpace c).
    + rewrite IH. tauto.
    + split; [discriminate | intros [H _]; discriminate].
Qed.

Lemma trimStart_head (s : string) (c : ascii) (r : string) :
  trimStart s = String c r -> isWhiteSpace c = false.
Proof.
  induction s as [|d s IH]; simpl; [discriminate|].
  destruct (isWhiteSpace d) eqn:E; [exact IH|].
  intros H. injection H as <- _. exact E.
Qed.

Lemma trimEnd_head (c : ascii) (r : string) :
  isWhiteSpace c = false -> trimEnd (String c r) <> "".
Proof.
  intros E. simpl. destruct (trimEnd r); [rewrite E|]; discriminate.
Qed.

(** [!skill.trim()] holds exactly for blank input. *)
Lemma trim_empty_iff (s : string) : trim s = "" <-> blank s.
Proof.
  rewrite <- trimStart_empty_iff. unfold trim.
  destruct (trimStart s) as [|c r] eqn:E; [tauto|].
  apply trimStart_head in E. split; [|discriminate].
  intros H. now apply trimEnd_head in H.
Qed.

Lemma truthy_trim (s : string) : truthy (trim s) = false <-> blank s.
Proof.
  rewrite <- trim_empty_iff. unfold truthy.
  rewrite negb_false_iff. apply String.eqb_eq.
Qed.

Lemma array_includes_In (l : list string) (x : string) :
  JSArray.includes l x = true <-> In x l.
Proof.
  unfold JSArray.includes. rewrite existsb_exists. split.
  - intros [y [Hy E]]. apply String.eqb_eq in E. now subst.
  - intros H. exists x. split; [exact H | apply String.eqb_refl].
Qed.

Lemma array_includes_snoc (l : list string) (x : string) :
  JSArray.includes (l ++ [x]) x = true.
Proof. apply array_includes_In, in_or_app. right. now left. Qed.

Lemma get_set (type : SkillType) (v : list string) (f : FormData.t) :
  FormData.get type (FormData.set type v f) = v.
Proof. now destruct type. Qed.

End TrimFacts.

Section AddSkill.
Import JSString Spec.

Lemma get_set_other (type : SkillType) (v : list string) (f : FormData.t) :
  FormData.get (other type) (FormData.set type v f) = FormData.get (other type) f.
Proof. now destruct type. Qed.

(** The two pages carry the same [addSkill]; one script proves both: split
    on the blank test and on the membership test, then compute. *)
Ltac prove_addSkillSpec unfold_addSkill formData :=
  intros skill type s;
  assert (Hb : truthy (trim skill) = false <-> blank skill) by apply truthy_trim;
  unfold_addSkill;
  destruct (truthy (trim skill)) eqn:Et; cbn [negb];
  [ assert (Hnb : ~ blank skill) by (intros H; apply Hb in H; discriminate);
    destruct (JSArray.includes (FormData.get type (formData s)) (trim skill))
      eqn:Ei; cbn [negb];
    [ assert (Hin := proj1 (array_includes_In _ _) Ei);
      repeat split;
      [ intros H; contradiction
      | intros _; now destruct type
      | intros _ H; contradiction
      | now destruct type
      | destruct type; simpl in *; rewrite Ei; reflexivity ]
    | assert (Hnin : ~ In (trim skill) (FormData.get type (formData s)))
        by (intros H; apply array_includes_In in H; congruence);
      repeat split;
      [ intros H; contradiction
      | intros H; contradiction
      | intros _ _; destruct type; simpl; now rewrite ?get_set
      | destruct type; reflexivity
      | destruct type; simpl; rewrite array_includes_snoc; reflexivity ] ]
  | assert (Hbl : blank skill) by (now apply Hb);
    repeat split; try reflexivity;
    intros H _; contradiction ].

Lemma create_addSkill_spec :
  addSkillSpec CreateProfile.formData CreateProfile.addSkill.
Proof.
  prove_addSkillSpec ltac:(unfold CreateProfile.addSkill) CreateProfile.formData.
Qed.

Lemma edit_addSkill_spec :
  addSkillSpec EditProfile.formData EditProfile.addSkill.
Proof.
  prove_addSkillSpec ltac:(unfold EditProfile.addSkill) EditProfile.formData.
Qed.

(** C10.  On the creation page and in the editor, [addSkill] is idempotent
    on the trimmed label: a label whose trimmed form is already listed leaves
    the list unchanged, blank or white-space-only input leaves the page
    unchanged, and any other input is appended, trimmed, after the existing
    entries, whose order is kept. *)
Theorem addSkill_idempotent :
  addSkillSpec CreateProfile.formData CreateProfile.addSkill
  /\ addSkillSpec EditProfile.formData EditProfile.addSkill
  /\ FormData.skills_offered
       (CreateProfile.formData
          (CreateProfile.addSkill "  React " offered
             (CreateProfile.mkState false "" "  React " "" sampleForm)))
     = ["Vue"; "React"]
  /\ FormData.skills_offered
       (EditProfile.formData
          (EditProfile.addSkill " Vue" offered
             (EditProfile.mkState None false false true "" " Vue" "" sampleForm)))
     = ["Vue"]
  /\ CreateProfile.addSkill "   " wanted
       (CreateProfile.mkState false "" "" "   " sampleForm)
     = CreateProfile.mkState false "" "" "   " sampleForm.
Proof.
  split; [exact create_addSkill_spec | split; [exact edit_addSkill_spec |]].
  repeat split.
Qed.

End AddSkill.

(* ------------------------------------------------------------------ *)
(** ** Request lifecycle *)

Section RequestLifecycle.
Import JSString Spec Postgrest.

Lemma uid_is_refl (u : string) : Policy.uid_is (Some u) u = true.
Proof. apply String.eqb_refl. Qed.

Lemma uid_is_true (uid : option string) (x : string) :
  Policy.uid_is uid x = true <-> uid = Some x.
Proof.
  destruct uid as [u|]; simpl.
  - rewrite String.eqb_eq. split; [now intros -> | now intros [= ->]].
  - split; discriminate.
Qed.

(** The update policy is the only way to a changed row: whatever the filter
    and the new values, a row whose [to_user_id] is not the caller comes
    back as it was. *)
Lemma update_keeps_foreign_rows (uid : option string) (now : string)
    (set : SkillRequest.t -> SkillRequest.t) (flt : SkillRequest.t -> bool)
    (db : Database) :
  Forall2 (fun r r' => uid <> Some (SkillRequest.to_user_id r) -> r' = r)
    (skill_requests db)
    (skill_requests (snd (Table.skill_requests_update uid now set flt db))).
Proof.
  simpl. induction (skill_requests db) as [|r l IH]; simpl; constructor; [|exact IH].
  intros Hne. unfold Policy.skill_requests_update.
  destruct (Policy.uid_is uid (SkillRequest.to_user_id r)) eqn:E.
  - apply uid_is_true in E. contradiction.
  - now rewrite andb_false_r.
Qed.



Lemma validation_fails (s : ProfileView.State) :
  blank (ProfileView.requestMessage s)
  \/ ProfileView.selectedSkillOffered s = ""
  \/ ProfileView.selectedSkillWanted s = "" ->
  negb (truthy (trim (ProfileView.requestMessage s)))
  || negb (truthy (ProfileView.selectedSkillOffered s))
  || negb (truthy (ProfileView.selectedSkillWanted s)) = true.
Proof.
  intros [H | [H | H]].
  - apply truthy_trim in H. now rewrite H.
  - rewrite H. simpl. now rewrite orb_true_r.
  - rewrite H. simpl. now rewrite orb_true_r.
Qed.

(** An insert either fails and leaves the store as it was, or appends the
    one new row. *)
Lemma insert_appends (uid : option string) (uuid now : string)
    (v : Table.RequestInsert) (db : Database) :
  snd (Table.skill_requests_insert uid uuid now v db) = db
  \/ (Postgrest.error (fst (Table.skill_requests_insert uid uuid now v db)) = None
      /\ snd (Table.skill_requests_insert uid uuid now v db)
         = Table.set_skill_requests db
             (skill_requests db ++ [Table.new_request uuid now v])).
Proof.
  unfold Table.skill_requests_insert.
  destruct (negb (Policy.skill_requests_insert uid (Table.new_request uuid now v)));
    [now left|].
  destruct (Table.has_request_id uuid (skill_requests db)); [now left|].
  destruct (negb (Table.has_user_id (Table.ri_from_user_id v) (profiles db)
                  && Table.has_user_id (Table.ri_to_user_id v) (profiles db)));
    [now left | now right].
Qed.

Lemma handleSendRequest_store (user : option User.t) (uuid now : string)
    (db : Database) (s : ProfileView.State) :
  ProfileView.store (ProfileView.handleSendRequest user uuid now db s) = db
  \/ exists r,
       ProfileView.store (ProfileView.handleSendRequest user uuid now db s)
       = Table.set_skill_requests db (skill_requests db ++ [r])
       /\ SkillRequest.status r = pending
       /\ SkillRequest.id r = uuid
       /\ Some (SkillRequest.from_user_id r) = option_map User.id user
       /\ Some (SkillRequest.to_user_id r)
          = option_map Profile.user_id (ProfileView.profile s).
Proof.
  unfold ProfileView.handleSendRequest.
  destruct user as [u|]; [|now left].
  destruct (ProfileView.profile s) as [viewed|]; [|now left].
  destruct (ProfileView.currentUserProfile s) as [own|]; [|now left].
  match goal with |- context [if ?c then _ else _] => destruct c end; [now left|].
  match goal with |- context [Table.skill_requests_insert ?a ?b ?c ?d ?e] =>
    destruct (insert_appends a b c d e) as [H | [He H]];
    destruct (Table.skill_requests_insert a b c d e) as [resp db'] end;
    cbn [fst snd] in *; subst db'.
  - left. now destruct (Postgrest.error resp).
  - right. rewrite He. eexists. split; [reflexivity|]. now repeat split.
Qed.

(** C4.  A request created by [handleSendRequest] starts as pending: the
    handler either leaves the store as it was or appends one row, from the
    sender to the owner of the viewed profile, whose status is pending.
    Afterwards the update policy lets only the receiver through: a statement
    of any other principal, whatever its filter and values, and with it
    [handleRequestAction], returns every row not addressed to the caller
    unchanged; the profile forms never write to the table. *)
Theorem pending_then_receiver_only
    (user : option User.t) (uuid now toISOString requestId error0 : string)
    (db : Database) (s : ProfileView.State) (c : CreateProfile.State)
    (uid : option string) (set : SkillRequest.t -> SkillRequest.t)
    (flt : SkillRequest.t -> bool) (action : Dashboard.Action) :
  (ProfileView.store (ProfileView.handleSendRequest user uuid now db s) = db
   \/ exists r,
        ProfileView.store (ProfileView.handleSendRequest user uuid now db s)
        = Table.set_skill_requests db (skill_requests db ++ [r])
        /\ SkillRequest.status r = pending
        /\ SkillRequest.id r = uuid
        /\ Some (SkillRequest.from_user_id r) = option_map User.id user
        /\ Some (SkillRequest.to_user_id r)
           = option_map Profile.user_id (ProfileView.profile s))
  /\ Forall2 (fun r r' => uid <> Some (SkillRequest.to_user_id r) -> r' = r)
       (skill_requests db)
       (skill_requests (snd (Table.skill_requests_update uid now set flt db)))
  /\ Forall2
       (fun r r' => option_map User.id user <> Some (SkillRequest.to_user_id r) -> r' = r)
       (skill_requests db)
       (skill_requests
          (Dashboard.store
             (Dashboard.handleRequestAction user toISOString now requestId
                action db error0)))
  /\ skill_requests (CreateProfile.store (CreateProfile.handleSubmit user uuid now db c))
     = skill_requests db
  /\ map SkillRequest.status
       (skill_requests
          (ProfileView.store
             (ProfileView.handleSendRequest (Some userBob) "r-2"
                "2024-03-01T00:00:00Z" sampleDb bobViewsAlice)))
     = [declined; pending]
  /\ Dashboard.store
       (Dashboard.handleRequestAction (Some userBob) "2024-03-01T00:00:00.000Z"
          "2024-03-01T00:00:01Z" "r-1" Dashboard.action_accepted sampleDb "")
     = sampleDb.
Proof.
  split; [apply handleSendRequest_store|].
  split; [apply update_keeps_foreign_rows|].
  split; [apply (update_keeps_foreign_rows (option_map User.id user))|].
  split; [|split; reflexivity].
  unfold CreateProfile.handleSubmit. destruct user as [u|]; [|reflexivity].
  unfold Table.profiles_upsert.
  repeat match goal with
         | |- context [if ?b then _ else _] => destruct b
         end; reflexivity.
Qed.

(** C5.  A request whose message is blank, or whose offered or wanted skill
    is not selected, is never inserted: [handleSendRequest] leaves the store
    as it was; for a signed-in sender with a profile of their own, looking
    at a loaded profile, the run ends at the validation with the error
    "Please fill in all fields" and nothing else changed. *)
Theorem invalid_request_rejected (user : option User.t) (uuid now : string)
    (db : Database) (s : ProfileView.State) :
  blank (ProfileView.requestMessage s)
  \/ ProfileView.selectedSkillOffered s = ""
  \/ ProfileView.selectedSkillWanted s = "" ->
  ProfileView.store (ProfileView.handleSendRequest user uuid now db s) = db
  /\ (user <> None -> ProfileView.profile s <> None ->
      ProfileView.currentUserProfile s <> None ->
      ProfileView.handleSendRequest user uuid now db s
      = ProfileView.mkOutcome
          (ProfileView.setError "Please fill in all fields" s) db None).
Proof.
  intros Hbad. apply validation_fails in Hbad.
  unfold ProfileView.handleSendRequest.
  destruct user as [u|]; [|split; [reflexivity | intros H; contradiction]].
  destruct (ProfileView.profile s) as [viewed|];
    [|split; [reflexivity | intros _ H; contradiction]].
  destruct (ProfileView.currentUserProfile s) as [own|];
    [|split; [reflexivity | intros _ _ H; contradiction]].
  rewrite Hbad. split; [reflexivity | intros _ _ _; reflexivity].
Qed.

Lemma invalid_request_rejected_witness :
  blank (ProfileView.requestMessage bobViewsAliceBlank)
  /\ ProfileView.handleSendRequest (Some userBob) "r-2" "2024-03-01T00:00:00Z"
       sampleDb bobViewsAliceBlank
     = ProfileView.mkOutcome
         (ProfileView.setError "Please fill in all fields" bobViewsAliceBlank)
         sampleDb None.
Proof.
  assert (Hb : blank (ProfileView.requestMessage bobViewsAliceBlank)).
  { apply trim_empty_iff. reflexivity. }
  split; [exact Hb|].
  apply (invalid_request_rejected (Some userBob) "r-2" "2024-03-01T00:00:00Z"
           sampleDb bobViewsAliceBlank (or_introl Hb)); discriminate.
Defined.

End RequestLifecycle.

(* ------------------------------------------------------------------ *)
(** ** Profile directory *)

Section KeyFacts.
Context {A : Type}.
Variable key : A -> string.

Lemma filter_none (f : A -> bool) (l : list A) :
  (forall x, In x l -> f x = false) -> filter f l = [].
Proof.
  induction l as [|x l IH]; intros H; simpl; [reflexivity|].
  rewrite (H x (or_introl eq_refl)). apply IH. intros y Hy. apply H. now right.
Qed.

Lemma filter_and (f g : A -> bool) (l : list A) :
  filter (fun x => f x && g x) l = filter g (filter f l).
Proof.
  induction l as [|x l IH]; simpl; [reflexivity|].
  destruct (f x); simpl; [destruct (g x); now rewrite IH | exact IH].
Qed.

Lemma filter_subsumed (f g : A -> bool) (l : list A) :
  (forall x, In x l -> f x = true -> g x = true) ->
  filter f (filter g l) = filter f l.
Proof.
  induction l as [|x l IH]; intros H; simpl; [reflexivity|].
  assert (IH' : filter f (filter g l) = filter f l)
    by (apply IH; intros y Hy; apply H; now right).
  destruct (f x) eqn:Ef.
  - rewrite (H x (or_introl eq_refl) Ef). simpl. now rewrite Ef, IH'.
  - destruct (g x); simpl; [now rewrite Ef|]; exact IH'.
Qed.

Lemma filter_key_absent (k : string) (l : list A) :
  ~ In k (map key l) -> filter (fun q => key q =? k) l = [].
Proof.
  intros H. apply filter_none. intros x Hx. apply String.eqb_neq.
  intros E. apply H. rewrite <- E. now apply in_map.
Qed.

(** Under a unique key the rows with a given key are the one row. *)
Lemma filter_key_unique (l : list A) (p : A) :
  NoDup (map key l) -> In p l -> filter (fun q => key q =? key p) l = [p].
Proof.
  induction l as [|x l IH]; intros Hnd Hin; [contradiction|].
  simpl in Hnd. apply NoDup_cons_iff in Hnd. destruct Hnd as [Hx Hnd].
  simpl. destruct Hin as [-> | Hin].
  - rewrite String.eqb_refl. f_equal. now apply filter_key_absent.
  - assert (E : (key x =? key p) = false).
    { apply String.eqb_neq. intros E. apply Hx. rewrite E. now apply in_map. }
    rewrite E. now apply IH.
Qed.

Lemma filter_key_le_1 (k : string) (l : list A) :
  NoDup (map key l) -> List.length (filter (fun q => key q =? k) l) <= 1.
Proof.
  intros Hnd.
  destruct (in_dec string_dec k (map key l)) as [Hin | Hout].
  - apply in_map_iff in Hin. destruct Hin as [p [<- Hp]].
    now rewrite filter_key_unique.
  - rewrite filter_key_absent by assumption. simpl. lia.
Qed.

Lemma existsb_key (k : string) (l : list A) :
  existsb (fun q => key q =? k) l = true <-> In k (map key l).
Proof.
  rewrite existsb_exists, in_map_iff. split.
  - intros [q [Hq E]]. apply String.eqb_eq in E. now exists q.
  - intros [q [E Hq]]. exists q. split; [exact Hq | now apply String.eqb_eq].
Qed.

End KeyFacts.

Section ProfileDirectory.
Import JSString Spec Postgrest.

Lemma existsb_false_In {A} (f : A -> bool) (l : list A) (x : A) :
  existsb f l = false -> In x l -> f x = false.
Proof.
  intros H Hin. destruct (f x) eqn:E; [|reflexivity].
  rewrite <- H. symmetry. apply existsb_exists. now exists x.
Qed.

(** The conflict branch of the upsert rewrites only rows the caller owns,
    so the owner column comes back as it was. *)
Lemma merge_keeps_owners (uid : option string) (uuid now : string)
    (v : Table.ProfileUpsert) (ps : list Profile.t) :
  Policy.uid_is uid (Table.pu_user_id v) = true ->
  existsb (fun q => (Profile.id q =? uuid) && negb (Policy.profiles_update uid q)) ps
  = false ->
  map Profile.user_id
    (map (fun q => if Profile.id q =? uuid then Table.merge_profile now v q else q) ps)
  = map Profile.user_id ps.
Proof.
  intros Hv Hex. rewrite map_map. apply map_ext_in. intros q Hq.
  destruct (Profile.id q =? uuid) eqn:E; [|reflexivity].
  apply (existsb_false_In _ _ q) in Hex; [|exact Hq].
  cbv beta in Hex. rewrite E in Hex. simpl in Hex. apply negb_false_iff in Hex.
  unfold Policy.profiles_update in Hex.
  apply uid_is_true in Hv, Hex. rewrite Hv in Hex. injection Hex as Hex.
  simpl. exact Hex.
Qed.

Lemma upsert_keeps_unique (uid : option string) (uuid now : string)
    (v : Table.ProfileUpsert) (db : Database) :
  one_profile_per_user db ->
  one_profile_per_user (snd (Table.profiles_upsert uid uuid now v db)).
Proof.
  unfold one_profile_per_user, Table.profiles_upsert. intros Hnd.
  destruct (negb (Policy.profiles_insert uid (Table.new_profile uuid now v))) eqn:Ep;
    [exact Hnd|].
  apply negb_false_iff in Ep. unfold Policy.profiles_insert in Ep. simpl in Ep.
  destruct (Table.has_profile_id uuid (profiles db)).
  - match goal with
    | |- context [if existsb ?f ?l then (fail E42501, _) else _] =>
        destruct (existsb f l) eqn:Eu; [exact Hnd|]
    end.
    match goal with
    | |- context [if existsb ?f ?l then _ else _] =>
        destruct (existsb f l); [exact Hnd|]
    end.
    simpl. now rewrite (merge_keeps_owners uid uuid now v (profiles db) Ep Eu).
  - destruct (Table.has_user_id (Table.pu_user_id v) (profiles db)) eqn:Eh; [exact Hnd|].
    simpl. rewrite map_app. apply NoDup_app; [exact Hnd | repeat constructor; intros [] |].
    intros a Ha [<- | []]. simpl in Ha.
    apply (existsb_key Profile.user_id) in Ha.
    unfold Table.has_user_id in Eh. congruence.
Qed.

(** With a row for the submitted [user_id] already there, the upsert adds
    none: the owner column of the table is the same afterwards. *)
Lemma upsert_existing_user (uid : option string) (uuid now : string)
    (v : Table.ProfileUpsert) (db : Database) :
  Table.has_user_id (Table.pu_user_id v) (profiles db) = true ->
  map Profile.user_id (profiles (snd (Table.profiles_upsert uid uuid now v db)))
  = map Profile.user_id (profiles db).
Proof.
  unfold Table.profiles_upsert. intros Hh.
  destruct (negb (Policy.profiles_insert uid (Table.new_profile uuid now v))) eqn:Ep;
    [reflexivity|].
  apply negb_false_iff in Ep. unfold Policy.profiles_insert in Ep. simpl in Ep.
  destruct (Table.has_profile_id uuid (profiles db)).
  - match goal with
    | |- context [if existsb ?f ?l then (fail E42501, _) else _] =>
        destruct (existsb f l) eqn:Eu; [reflexivity|]
    end.
    match goal with
    | |- context [if existsb ?f ?l then _ else _] =>
        destruct (existsb f l); [reflexivity|]
    end.
    simpl. exact (merge_keeps_owners uid uuid now v (profiles db) Ep Eu).
  - now rewrite Hh.
Qed.

Lemma update_keeps_owners (uid : option string) (now : string)
    (v : Table.ProfileUpdate) (flt : Profile.t -> bool) (db : Database) :
  map Profile.user_id (profiles (snd (Table.profiles_update uid now v flt db)))
  = map Profile.user_id (profiles db).
Proof.
  simpl. rewrite map_map. apply map_ext. intros p.
  now destruct (Policy.profiles_select uid p && Policy.profiles_update uid p && flt p).
Qed.

(** The lookup of the signed-in user's own profile, as the creation page,
    the dashboard and the editor issue it. *)
Lemma own_profile_found (u : string) (db : Database) (p : Profile.t) :
  one_profile_per_user db -> In p (profiles db) -> Profile.user_id p = u ->
  Table.profiles_select (Some u) (fun q => Profile.user_id q =? u) db = [p].
Proof.
  intros Hnd Hin <-. unfold Table.profiles_select.
  rewrite filter_subsumed.
  - now apply (filter_key_unique Profile.user_id).
  - intros q _ E. unfold Policy.profiles_select, Policy.uid_is.
    rewrite String.eqb_sym, E. apply orb_true_r.
Qed.

Lemma handleSubmit_store (u : User.t) (uuid now : string) (db : Database)
    (c : CreateProfile.State) :
  exists v,
    Table.pu_user_id v = User.id u
    /\ CreateProfile.store (CreateProfile.handleSubmit (Some u) uuid now db c)
       = snd (Table.profiles_upsert (Some (User.id u)) uuid now v db).
Proof.
  unfold CreateProfile.handleSubmit.
  match goal with |- context [Table.profiles_upsert ?a ?b ?c ?v ?d] =>
    exists v; split; [reflexivity|];
    destruct (Table.profiles_upsert a b c v d) as [resp db'] end.
  now destruct (Postgrest.error resp).
Qed.

(** C2.  At most one profile row per principal: [handleSubmit] (and the
    editor's save) keep [user_id] unique, so every principal owns at most
    one row afterwards.  When the signed-in user already has a profile, the
    creation page redirects to the dashboard without writing, and a
    submitted form adds no row: the owner column of the table is the same
    afterwards, and with a fresh [id] the upsert is refused as a duplicate
    and the table is untouched. *)
Theorem one_profile_per_principal (user : option User.t) (u : User.t)
    (P uuid now : string) (db : Database)
    (c : CreateProfile.State) (e : EditProfile.State) :
  one_profile_per_user db ->
  one_profile_per_user
    (CreateProfile.store (CreateProfile.handleSubmit user uuid now db c))
  /\ List.length
       (profiles_of P
          (CreateProfile.store (CreateProfile.handleSubmit user uuid now db c))) <= 1
  /\ one_profile_per_user (snd (EditProfile.handleSave_write u now e db))
  /\ (Table.has_user_id (User.id u) (profiles db) = true ->
      CreateProfile.pushed (CreateProfile.checkExistingProfile u db c)
      = Some "/dashboard"
      /\ CreateProfile.store (CreateProfile.checkExistingProfile u db c) = db
      /\ map Profile.user_id
           (profiles
              (CreateProfile.store
                 (CreateProfile.handleSubmit (Some u) uuid now db c)))
         = map Profile.user_id (profiles db)
      /\ (Table.has_profile_id uuid (profiles db) = false ->
          CreateProfile.handleSubmit (Some u) uuid now db c
          = CreateProfile.mkOutcome
              (CreateProfile.setLoading false
                 (CreateProfile.setError
                    (orElse (message E23505)
                       "An error occurred while creating your profile. Please try again.")
                    (CreateProfile.setError "" (CreateProfile.setLoading true c))))
              db None)).
Proof.
  intros Hnd.
  assert (Hsub : one_profile_per_user
                   (CreateProfile.store (CreateProfile.handleSubmit user uuid now db c))).
  { destruct user as [w|]; [|exact Hnd].
    destruct (handleSubmit_store w uuid now db c) as [v [_ ->]].
    now apply upsert_keeps_unique. }
  split; [exact Hsub|].
  split; [now apply (filter_key_le_1 Profile.user_id)|].
  split.
  { unfold one_profile_per_user, EditProfile.handleSave_write.
    now rewrite update_keeps_owners. }
  intros Hhas.
  split; [|split; [|split]].
  - apply (existsb_key Profile.user_id), in_map_iff in Hhas.
    destruct Hhas as [p [Hp Hin]].
    unfold CreateProfile.checkExistingProfile.
    now rewrite (own_profile_found (User.id u) db p Hnd Hin Hp).
  - unfold CreateProfile.checkExistingProfile.
    now destruct (data (single _)).
  - destruct (handleSubmit_store u uuid now db c) as [v [Hv ->]].
    apply upsert_existing_user. now rewrite Hv.
  - intros Hfresh. unfold CreateProfile.handleSubmit, Table.profiles_upsert.
    unfold Policy.profiles_insert. simpl.
    rewrite String.eqb_refl, Hfresh, Hhas. reflexivity.
Qed.

Lemma one_profile_per_principal_witness :
  one_profile_per_user sampleDb
  /\ Table.has_user_id (User.id userAlice) (profiles sampleDb) = true
  /\ CreateProfile.pushed (CreateProfile.checkExistingProfile userAlice sampleDb emptyForm)
     = Some "/dashboard"
  /\ map Profile.user_id
       (profiles
          (CreateProfile.store
             (CreateProfile.handleSubmit (Some userAlice) "p-new"
                "2024-03-01T00:00:00Z" sampleDb emptyForm)))
     = map Profile.user_id (profiles sampleDb).
Proof.
  assert (Hnd : one_profile_per_user sampleDb).
  { unfold one_profile_per_user. simpl.
    repeat constructor; simpl; intuition discriminate. }
  split; [exact Hnd | split; [reflexivity|]].
  destruct (one_profile_per_principal (Some userAlice) userAlice "u-alice" "p-new"
              "2024-03-01T00:00:00Z" sampleDb emptyForm
              (EditProfile.mkState None false false false "" "" "" sampleForm) Hnd)
    as [_ [_ [_ H]]].
  destruct (H eq_refl) as [H1 [_ [H3 _]]].
  split; [exact H1 | exact H3].
Defined.

(** The page state [fetchProfiles] leaves when the viewed profile is not
    returned: only [loading] and [error] are written. *)
Lemma fetchProfiles_not_found (user : option User.t) (id : string)
    (db : Database) (s : ProfileView.State) :
  (forall p, In p (profiles db) -> Profile.id p = id -> Profile.is_public p = false) ->
  ProfileView.fetchProfiles user id db s
  = ProfileView.setLoading false
      (ProfileView.setError
         (orElse (message PGRST116) "Profile not found or an error occurred.")
         (ProfileView.setError "" (ProfileView.setLoading true s))).
Proof.
  intros H. unfold ProfileView.fetchProfiles, Table.profiles_select.
  rewrite (filter_none _ (filter _ (profiles db))); [reflexivity|].
  intros p Hp. apply filter_In in Hp. destruct Hp as [Hp _].
  destruct (Profile.id p =? id) eqn:E; [|reflexivity].
  apply String.eqb_eq in E. now rewrite (H p Hp E).
Qed.

Lemma fetchProfiles_public (user : option User.t) (db : Database)
    (s : ProfileView.State) (p : Profile.t) :
  profile_ids_unique db -> In p (profiles db) -> Profile.is_public p = true ->
  ProfileView.profile (ProfileView.fetchProfiles user (Profile.id p) db s) = Some p.
Proof.
  intros Hnd Hin Hpub. unfold ProfileView.fetchProfiles, Table.profiles_select.
  rewrite filter_subsumed.
  - rewrite filter_and, (filter_key_unique Profile.id _ p Hnd Hin). simpl.
    rewrite Hpub. simpl.
    destruct user as [u|]; [|reflexivity].
    now destruct (Postgrest.error (single _)) as [e|]; [destruct (negb _)|].
  - intros q _ E. apply andb_true_iff in E. destruct E as [_ E].
    unfold Policy.profiles_select. destruct (Profile.is_public q); [reflexivity | discriminate].
Qed.

(** C3, as the code has it.  [fetchProfiles] returns the profile with the
    requested id exactly when that profile is public, whoever asks, its
    owner included.  In every other case, a private profile or an id that
    does not exist, the page is left in one and the same "not found" state,
    which depends neither on the store nor on the requester: the cases
    cannot be told apart. *)
Theorem profile_returned_iff_public (user : option User.t) (id : string)
    (db : Database) (s : ProfileView.State) :
  profile_ids_unique db ->
  (forall p, In p (profiles db) -> Profile.id p = id ->
             Profile.is_public p = true ->
             ProfileView.profile (ProfileView.fetchProfiles user id db s) = Some p)
  /\ ((forall p, In p (profiles db) -> Profile.id p = id ->
                 Profile.is_public p = false) ->
      ProfileView.fetchProfiles user id db s
      = ProfileView.setLoading false
          (ProfileView.setError
             (orElse (message PGRST116) "Profile not found or an error occurred.")
             (ProfileView.setError "" (ProfileView.setLoading true s)))).
Proof.
  intros Hnd. split.
  - intros p Hin <- Hpub. now apply fetchProfiles_public.
  - apply fetchProfiles_not_found.
Qed.

Lemma profile_returned_iff_public_witness :
  profile_ids_unique sampleDb
  /\ ProfileView.profile
       (ProfileView.fetchProfiles (Some userBob) "p-alice" sampleDb ProfileView.initial)
     = Some alice
  /\ ProfileView.fetchProfiles (Some userBob) "p-carol" sampleDb ProfileView.initial
     = ProfileView.fetchProfiles (Some userBob) "p-nobody" sampleDb ProfileView.initial.
Proof.
  assert (Hnd : profile_ids_unique sampleDb).
  { unfold profile_ids_unique. simpl.
    repeat constructor; simpl; intuition discriminate. }
  split; [exact Hnd|].
  split.
  - apply (proj1 (profile_returned_iff_public (Some userBob) "p-alice" sampleDb
                    ProfileView.initial Hnd) alice);
      [now left | reflexivity | reflexivity].
  - rewrite (proj2 (profile_returned_iff_public (Some userBob) "p-carol" sampleDb
                      ProfileView.initial Hnd)).
    + rewrite (proj2 (profile_returned_iff_public (Some userBob) "p-nobody" sampleDb
                        ProfileView.initial Hnd)); [reflexivity|].
      intros p [<- | [<- | [<- | []]]]; discriminate.
    + intros p [<- | [<- | [<- | []]]]; try discriminate. reflexivity.
Defined.

(** The owner of a private profile asks for it by id: the policies would
    let the row through, the page's own [is_public] filter does not, and the
    owner is told "not found" like anybody else. *)
Lemma owner_private_profile_not_found :
  profile_ids_unique sampleDb
  /\ In carol (profiles sampleDb)
  /\ Profile.is_public carol = false
  /\ Profile.user_id carol = User.id userCarol
  /\ Policy.profiles_select (Some (User.id userCarol)) carol = true
  /\ ProfileView.profile
       (ProfileView.fetchProfiles (Some userCarol) (Profile.id carol) sampleDb
          ProfileView.initial) = None
  /\ ProfileView.error
       (ProfileView.fetchProfiles (Some userCarol) (Profile.id carol) sampleDb
          ProfileView.initial) = message PGRST116.
Proof.
  split.
  { unfold profile_ids_unique. simpl.
    repeat constructor; simpl; intuition discriminate. }
  split; [right; right; now left | repeat split].
Qed.

End ProfileDirectory.

(* ------------------------------------------------------------------ *)
(** * Further properties of the pages *)

(** ** Skill lists of the profile forms *)

Section SkillLists.
Import JSString Spec SpecExtra.

Lemma trimEnd_idempotent (s : string) : trimEnd (trimEnd s) = trimEnd s.
Proof.
  induction s as [|c s IH]; simpl; [reflexivity|].
  destruct (trimEnd s) as [|d t] eqn:E.
  - destruct (isWhiteSpace c) eqn:Ec; simpl; [reflexivity | now rewrite Ec].
  - cbn [trimEnd]. fold trimEnd. simpl in IH. simpl. now rewrite IH.
Qed.

Lemma trimEnd_keeps_head (c : ascii) (r : string) :
  isWhiteSpace c = false -> exists r', trimEnd (String c r) = String c r'.
Proof.
  intros Ec. simpl. destruct (trimEnd r) as [|d t].
  - rewrite Ec. now exists "".
  - now exists (String d t).
Qed.

(** [trim] is idempotent: what the forms store is stable under trimming. *)
Lemma trim_idempotent (s : string) : trim (trim s) = trim s.
Proof.
  unfold trim. destruct (trimStart s) as [|c r] eqn:E; [reflexivity|].
  apply trimStart_head in E.
  destruct (trimEnd_keeps_head c r E) as [r' Hr]. rewrite Hr.
  cbn [trimStart]. rewrite E, <- Hr. apply trimEnd_idempotent.
Qed.

Lemma filter_neq_absent (x : string) (l : list string) :
  ~ In x l -> filter (fun y => negb (y =? x)) l = l.
Proof.
  induction l as [|y l IH]; intros H; simpl; [reflexivity|].
  destruct (String.eqb_spec y x) as [-> | Hne]; simpl.
  - exfalso. apply H. now left.
  - f_equal. apply IH. intros Hin. apply H. now right.
Qed.

Lemma filter_neq_snoc (x : string) (l : list string) :
  ~ In x l -> filter (fun y => negb (y =? x)) (l ++ [x]) = l.
Proof.
  intros H. rewrite filter_app, filter_neq_absent by assumption.
  simpl. rewrite String.eqb_refl. simpl. apply app_nil_r.
Qed.

Lemma cleanLabels_snoc (x : string) (l : list string) :
  cleanLabels l -> ~ In x l -> trim x = x -> x <> "" -> cleanLabels (l ++ [x]).
Proof.
  intros [Hnd Hall] Hin Ht Hne. split.
  - apply NoDup_app; [exact Hnd | repeat constructor; intros [] |].
    intros a Ha [<- | []]. contradiction.
  - apply Forall_app. split; [exact Hall | now repeat constructor].
Qed.

Lemma cleanLabels_filter (f : string -> bool) (l : list string) :
  cleanLabels l -> cleanLabels (filter f l).
Proof.
  intros [Hnd Hall]. split; [now apply NoDup_filter|].
  rewrite Forall_forall in *. intros x Hx. apply filter_In in Hx. now apply Hall.
Qed.

Lemma set_get (type : SkillType) (f : FormData.t) :
  FormData.set type (FormData.get type f) f = f.
Proof. now destruct type, f. Qed.

End SkillLists.

Section SkillListTheorems.
Import JSString Spec SpecExtra.

Lemma create_add_remove (skill : string) (type : SkillType) (c : CreateProfile.State) :
  ~ blank skill ->
  ~ In (trim skill) (FormData.get type (CreateProfile.formData c)) ->
  CreateProfile.formData
    (CreateProfile.removeSkill (trim skill) type (CreateProfile.addSkill skill type c))
  = CreateProfile.formData c.
Proof.
  intros Hb Hin. unfold CreateProfile.addSkill.
  destruct (truthy (trim skill)) eqn:Et;
    [|exfalso; apply Hb; now apply truthy_trim].
  destruct (JSArray.includes _ (trim skill)) eqn:Ei;
    [exfalso; apply Hin; now apply array_includes_In|].
  cbn [negb]. unfold CreateProfile.removeSkill.
  destruct c as [l0 e0 si wi f]; destruct f; destruct type; simpl in *;
    now rewrite filter_neq_snoc.
Qed.

Lemma edit_add_remove (skill : string) (type : SkillType) (e : EditProfile.State) :
  ~ blank skill ->
  ~ In (trim skill) (FormData.get type (EditProfile.formData e)) ->
  EditProfile.formData
    (ProfileEditor.removeSkill (trim skill) type (EditProfile.addSkill skill type e))
  = EditProfile.formData e.
Proof.
  intros Hb Hin. unfold EditProfile.addSkill.
  destruct (truthy (trim skill)) eqn:Et;
    [|exfalso; apply Hb; now apply truthy_trim].
  destruct (JSArray.includes _ (trim skill)) eqn:Ei;
    [exfalso; apply Hin; now apply array_includes_In|].
  cbn [negb]. unfold ProfileEditor.removeSkill.
  destruct e as [p0 l0 s0 e0 er si wi f]; destruct f; destruct type; simpl in *;
    now rewrite filter_neq_snoc.
Qed.

(** X1.  Adding a label that is not blank and not yet listed, then removing
    its trimmed form, gives back the form as it was: same lists in the same
    order, every other field untouched.  Holds on the creation page and in
    the editor. *)
Theorem add_then_remove_restores (skill : string) (type : SkillType)
    (c : CreateProfile.State) (e : EditProfile.State) :
  ~ blank skill ->
  ~ In (trim skill) (FormData.get type (CreateProfile.formData c)) ->
  ~ In (trim skill) (FormData.get type (EditProfile.formData e)) ->
  CreateProfile.formData
    (CreateProfile.removeSkill (trim skill) type (CreateProfile.addSkill skill type c))
  = CreateProfile.formData c
  /\ EditProfile.formData
       (ProfileEditor.removeSkill (trim skill) type (EditProfile.addSkill skill type e))
     = EditProfile.formData e.
Proof.
  intros Hb Hc He. split; [now apply create_add_remove | now apply edit_add_remove].
Qed.

Lemma not_blank_React : ~ blank "  React ".
Proof. intros H. apply trim_empty_iff in H. discriminate. Qed.

Lemma add_then_remove_restores_witness :
  CreateProfile.formData
    (CreateProfile.removeSkill (trim "  React ") offered
       (CreateProfile.addSkill "  React " offered
          (CreateProfile.mkState false "" "  React " "" sampleForm)))
  = sampleForm
  /\ EditProfile.formData
       (ProfileEditor.removeSkill (trim "  React ") offered
          (EditProfile.addSkill "  React " offered
             (EditProfile.mkState None false false true "" "  React " "" sampleForm)))
     = sampleForm.
Proof.
  apply (add_then_remove_restores "  React " offered
           (CreateProfile.mkState false "" "  React " "" sampleForm)
           (EditProfile.mkState None false false true "" "  React " "" sampleForm)
           not_blank_React);
    simpl; intros [H | []]; discriminate.
Defined.

Lemma addSkill_clean {State : Type} (formData : State -> FormData.t)
    (addSkill : string -> SkillType -> State -> State) :
  addSkillSpec formData addSkill ->
  forall skill type t' s,
    cleanLabels (FormData.get t' (formData s)) ->
    cleanLabels (FormData.get t' (formData (addSkill skill type s))).
Proof.
  intros Hspec skill type t' s Hclean.
  destruct (Hspec skill type s) as [Hblank [Hin [Hnew [Hother _]]]].
  assert (Hcase : t' = type \/ t' = other type) by (destruct t', type; auto).
  destruct Hcase as [-> | ->]; [|now rewrite Hother].
  destruct (truthy (trim skill)) eqn:Et.
  - assert (Hnb : ~ blank skill).
    { intros H. apply truthy_trim in H. congruence. }
    destruct (in_dec string_dec (trim skill) (FormData.get type (formData s)))
      as [Hi | Hi].
    + now rewrite Hin.
    + rewrite Hnew by assumption. apply cleanLabels_snoc; auto.
      * apply trim_idempotent.
      * intros E. apply Hnb. now apply trim_empty_iff.
  - rewrite Hblank; [exact Hclean | now apply truthy_trim].
Qed.

(** X2.  The forms keep their skill lists clean: if every label of a list
    is trimmed, non-empty and listed once, that still holds after
    [addSkill] and after [removeSkill], whatever is typed, for either list,
    on the creation page and in the editor. *)
Theorem skill_lists_stay_clean (skill : string) (type t' : SkillType)
    (c : CreateProfile.State) (e : EditProfile.State) :
  cleanLabels (FormData.get t' (CreateProfile.formData c)) ->
  cleanLabels (FormData.get t' (EditProfile.formData e)) ->
  cleanLabels (FormData.get t' (CreateProfile.formData (CreateProfile.addSkill skill type c)))
  /\ cleanLabels
       (FormData.get t' (CreateProfile.formData (CreateProfile.removeSkill skill type c)))
  /\ cleanLabels (FormData.get t' (EditProfile.formData (EditProfile.addSkill skill type e)))
  /\ cleanLabels
       (FormData.get t' (EditProfile.formData (ProfileEditor.removeSkill skill type e))).
Proof.
  intros Hc He. split; [|split; [|split]].
  - now apply (addSkill_clean _ _ create_addSkill_spec).
  - destruct c as [l0 e0 si wi f]; destruct f, type, t'; simpl in *;
      try apply cleanLabels_filter; apply Hc.
  - now apply (addSkill_clean _ _ edit_addSkill_spec).
  - destruct e as [p0 l0 s0 e0 er si wi f]; destruct f, type, t'; simpl in *;
      try apply cleanLabels_filter; apply He.
Qed.

Lemma skill_lists_stay_clean_witness :
  cleanLabels
    (FormData.get offered
       (CreateProfile.formData
          (CreateProfile.addSkill " Vue " offered
             (CreateProfile.mkState false "" " Vue " "" sampleForm))))
  /\ cleanLabels
       (FormData.get offered
          (CreateProfile.formData
             (CreateProfile.removeSkill " Vue " offered
                (CreateProfile.mkState false "" " Vue " "" sampleForm))))
  /\ cleanLabels
       (FormData.get offered
          (EditProfile.formData
             (EditProfile.addSkill " Vue " offered
                (EditProfile.mkState None false false true "" "" "" sampleForm))))
  /\ cleanLabels
       (FormData.get offered
          (EditProfile.formData
             (ProfileEditor.removeSkill " Vue " offered
                (EditProfile.mkState None false false true "" "" "" sampleForm)))).
Proof.
  assert (H : cleanLabels ["Vue"]).
  { split; repeat constructor; try discriminate. intros []. }
  apply (skill_lists_stay_clean " Vue " offered offered
           (CreateProfile.mkState false "" " Vue " "" sampleForm)
           (EditProfile.mkState None false false true "" "" "" sampleForm) H H).
Defined.

End SkillListTheorems.

(* ------------------------------------------------------------------ *)
(** ** Browse page: how the filters and the sort behave together *)

Section SubstringFacts.
Import JSString Spec.

Lemma string_app_assoc (a b c : string) :
  ((a ++ b) ++ c)%string = (a ++ (b ++ c))%string.
Proof. induction a; simpl; [reflexivity | now rewrite IHa]. Qed.

Lemma isSubstring_trans (a b c : string) :
  isSubstring a b -> isSubstring b c -> isSubstring a c.
Proof.
  intros [u [v ->]] [x [y ->]].
  exists (x ++ u)%string, (v ++ y)%string.
  now rewrite !string_app_assoc.
Qed.

Lemma ciSubstring_trans (a b c : string) :
  ciSubstring a b -> ciSubstring b c -> ciSubstring a c.
Proof. unfold ciSubstring. apply isSubstring_trans. Qed.

Lemma ciSubstring_of_empty (t : string) : ciSubstring t "" -> t = "".
Proof.
  intros H. destruct (String.eqb_spec t "") as [E | E]; [exact E|].
  now destruct (ciSubstring_nonempty t "" H E).
Qed.

Lemma equalIgnoringCase_empty (t t' : string) :
  equalIgnoringCase t t' -> (t =? "") = (t' =? "").
Proof.
  unfold equalIgnoringCase. destruct t, t'; simpl; try reflexivity; discriminate.
Qed.

End SubstringFacts.

Section BrowseTogether.
Import JSString JSArray Spec Browse.
Variable localeCompare : string -> string -> Z.
Variable Date_getTime : string -> option Z.

Lemma applyFilters_In (searchTerm locationFilter availabilityFilter sortBy : string)
    (profiles : list Profile.t) (p : Profile.t) :
  In p (applyFilters localeCompare Date_getTime searchTerm locationFilter
          availabilityFilter sortBy profiles)
  <-> In p profiles
      /\ matchesSearch searchTerm p = true
      /\ matchesLocation locationFilter p = true
      /\ matchesAvailability availabilityFilter p = true.
Proof.
  unfold applyFilters. rewrite in_sort, filter_In, !andb_true_iff. tauto.
Qed.

Lemma matchesSearch_narrow (t t' : string) (p : Profile.t) :
  ciSubstring t' t -> matchesSearch t p = true -> matchesSearch t' p = true.
Proof.
  intros Hsub. unfold matchesSearch.
  rewrite !orb_true_iff, !String.eqb_eq, !optSome_spec, !includes_toLowerCase.
  intros [[[H | [s [Hin H]]] | [s [Hin H]]] | H].
  - subst t. left; left; left. now apply ciSubstring_of_empty.
  - left; left; right. exists s. split; [exact Hin|].
    apply includes_toLowerCase. apply includes_toLowerCase in H.
    now apply (ciSubstring_trans t' t s).
  - left; right. exists s. split; [exact Hin|].
    apply includes_toLowerCase. apply includes_toLowerCase in H.
    now apply (ciSubstring_trans t' t s).
  - right. now apply (ciSubstring_trans t' t _).
Qed.

Lemma matchesLocation_narrow (t t' : string) (p : Profile.t) :
  ciSubstring t' t -> matchesLocation t p = true -> matchesLocation t' p = true.
Proof.
  intros Hsub. unfold matchesLocation.
  rewrite !orb_true_iff, !String.eqb_eq.
  intros [H | H].
  - subst t. left. now apply ciSubstring_of_empty.
  - right. destruct (Profile.location p) as [l|]; [|discriminate].
    apply andb_true_iff in H. destruct H as [Ht H].
    rewrite Ht. simpl. apply includes_toLowerCase. apply includes_toLowerCase in H.
    now apply (ciSubstring_trans t' t l).
Qed.

(** X3.  Narrowing never adds results: a profile listed for a search term
    and a location filter is also listed for any term and any filter whose
    lower-case forms occur in the lower-case forms of the first two,
    whatever the sort keys of the two runs.  The condition is on the
    lower-case forms of the whole strings, as the code compares them; of
    [toLowerCase] the proof uses only that the empty string, and no other,
    has an empty lower-case form. *)
Theorem narrowing_never_adds
    (searchTerm searchTerm' locationFilter locationFilter' availabilityFilter : string)
    (sortBy sortBy' : string) (profiles : list Profile.t) (p : Profile.t) :
  ciSubstring searchTerm' searchTerm ->
  ciSubstring locationFilter' locationFilter ->
  In p (applyFilters localeCompare Date_getTime searchTerm locationFilter
          availabilityFilter sortBy profiles) ->
  In p (applyFilters localeCompare Date_getTime searchTerm' locationFilter'
          availabilityFilter sortBy' profiles).
Proof.
  intros Hs Hl. rewrite !applyFilters_In. intros [Hin [H1 [H2 H3]]].
  repeat split; auto.
  - now apply (matchesSearch_narrow searchTerm).
  - now apply (matchesLocation_narrow locationFilter).
Qed.

(** X4.  The letter case of what is typed does not matter: two search terms
    that are equal up to case, with two location filters that are equal up
    to case, give the same list in the same order. *)
Theorem typed_case_is_irrelevant
    (searchTerm searchTerm' locationFilter locationFilter' availabilityFilter : string)
    (sortBy : string) (profiles : list Profile.t) :
  equalIgnoringCase searchTerm searchTerm' ->
  equalIgnoringCase locationFilter locationFilter' ->
  applyFilters localeCompare Date_getTime searchTerm locationFilter
    availabilityFilter sortBy profiles
  = applyFilters localeCompare Date_getTime searchTerm' locationFilter'
      availabilityFilter sortBy profiles.
Proof.
  intros Hs Hl. unfold applyFilters. f_equal. apply filter_ext. intros p.
  unfold matchesSearch, matchesLocation.
  rewrite (equalIgnoringCase_empty _ _ Hs), (equalIgnoringCase_empty _ _ Hl).
  unfold equalIgnoringCase in Hs, Hl. now rewrite Hs, Hl.
Qed.

End BrowseTogether.

Lemma narrowing_never_adds_witness :
  In Spec.alice
    (Browse.applyFilters (fun _ _ => 0%Z) (fun _ => Some 0%Z) "ALI" "" "all" "name"
       [Spec.alice; Spec.bob]).
Proof.
  apply (narrowing_never_adds (fun _ _ => 0%Z) (fun _ => Some 0%Z)
           "alice" "ALI" "" "" "all" "newest" "name" [Spec.alice; Spec.bob] Spec.alice).
  - exists "", "ce". reflexivity.
  - exists "", "". reflexivity.
  - left. reflexivity.
Defined.

Lemma typed_case_is_irrelevant_witness :
  Browse.applyFilters (fun _ _ => 0%Z) (fun _ => Some 0%Z) "REACT" "" "all" "newest"
    [Spec.alice; Spec.bob]
  = Browse.applyFilters (fun _ _ => 0%Z) (fun _ => Some 0%Z) "react" "" "all" "newest"
      [Spec.alice; Spec.bob].
Proof.
  apply (typed_case_is_irrelevant (fun _ _ => 0%Z) (fun _ => Some 0%Z)
           "REACT" "react" "" "" "all" "newest" [Spec.alice; Spec.bob]);
    reflexivity.
Defined.

Section StableSort.
Import JSArray.
Context {A : Type}.
Variable comparefn : A -> A -> option Z.

(** Where nothing compares greater, the sort returns the list as it is. *)
Lemma sort_unordered (l : list A) :
  (forall a b, In a l -> In b l -> (sortCompare comparefn a b <= 0)%Z) ->
  sort comparefn l = l.
Proof.
  induction l as [|x l IH]; intros H; simpl; [reflexivity|].
  rewrite IH by (intros a b Ha Hb; apply H; now right).
  destruct l as [|y l]; simpl; [reflexivity|].
  destruct (Z.leb_spec (sortCompare comparefn x y) 0) as [Hc | Hc]; [reflexivity|].
  specialize (H x y (or_introl eq_refl) (or_intror (or_introl eq_refl))). lia.
Qed.

Variable P : A -> bool.

Lemma insert_stable (x : A) (l : list A) :
  (forall y, In y l -> P x = true -> P y = true ->
             (sortCompare comparefn x y <= 0)%Z) ->
  filter P (insert comparefn x l) = filter P (x :: l).
Proof.
  induction l as [|y l IH]; intros H; [reflexivity|].
  cbn [insert].
  destruct (Z.leb_spec (sortCompare comparefn x y) 0) as [Hc | Hc]; [reflexivity|].
  cbn [filter]. rewrite IH by (intros z Hz; apply H; now right).
  cbn [filter].
  destruct (P x) eqn:Px, (P y) eqn:Py; try reflexivity.
  specialize (H y (or_introl eq_refl) eq_refl Py). lia.
Qed.

(** The sort is stable on every class of elements that do not compare
    greater than one another: they come out in the order they went in. *)
Lemma sort_stable (l : list A) :
  (forall a b, In a l -> In b l -> P a = true -> P b = true ->
               (sortCompare comparefn a b <= 0)%Z) ->
  filter P (sort comparefn l) = filter P l.
Proof.
  induction l as [|x l IH]; intros H; [reflexivity|].
  cbn [sort]. rewrite insert_stable.
  - cbn [filter]. rewrite IH by (intros a b Ha Hb; apply H; now right).
    reflexivity.
  - intros y Hy. apply (proj1 (in_sort comparefn y l)) in Hy.
    apply H; [now left | now right].
Qed.

End StableSort.

Section BrowseOrder.
Import JSString JSArray Spec Browse.
Variable localeCompare : string -> string -> Z.
Variable Date_getTime : string -> option Z.

(** X5.  Ties keep the loaded order, and an unknown sort key sorts nothing.
    With a [sortBy] that is none of the four keys the result is the filtered
    list in loaded order.  Under "skills" the profiles with any one number of
    offered skills stand in the order in which they were loaded; so do, under
    "newest" and "oldest", the profiles with any one [created_at], provided
    every [created_at] of the filtered list parses to a time value (with an
    invalid date the comparator is not consistent and the order is the
    engine's). *)
Theorem ties_keep_loaded_order
    (searchTerm locationFilter availabilityFilter sortBy : string)
    (profiles : list Profile.t) (k : Z) (ts : string) :
  sortBy <> "newest" -> sortBy <> "oldest" -> sortBy <> "name" -> sortBy <> "skills" ->
  applyFilters localeCompare Date_getTime searchTerm locationFilter
    availabilityFilter sortBy profiles
  = filter (passes searchTerm locationFilter availabilityFilter) profiles
  /\ filter (fun p => (optLength (Profile.skills_offered p) =? k)%Z)
       (applyFilters localeCompare Date_getTime searchTerm locationFilter
          availabilityFilter "skills" profiles)
     = filter (fun p => (optLength (Profile.skills_offered p) =? k)%Z)
         (filter (passes searchTerm locationFilter availabilityFilter) profiles)
  /\ (validDates Date_getTime
        (filter (passes searchTerm locationFilter availabilityFilter) profiles) ->
      filter (fun p => Profile.created_at p =? ts)
        (applyFilters localeCompare Date_getTime searchTerm locationFilter
           availabilityFilter "newest" profiles)
      = filter (fun p => Profile.created_at p =? ts)
          (filter (passes searchTerm locationFilter availabilityFilter) profiles)
      /\ filter (fun p => Profile.created_at p =? ts)
           (applyFilters localeCompare Date_getTime searchTerm locationFilter
              availabilityFilter "oldest" profiles)
         = filter (fun p => Profile.created_at p =? ts)
             (filter (passes searchTerm locationFilter availabilityFilter) profiles)).
Proof.
  intros N1 N2 N3 N4. unfold applyFilters.
  change (fun profile : Profile.t =>
            matchesSearch searchTerm profile
            && matchesLocation locationFilter profile
            && matchesAvailability availabilityFilter profile)
    with (passes searchTerm locationFilter availabilityFilter).
  split; [|split; [|intros Hvalid; split]].
  - apply sort_unordered. intros a b _ _. unfold sortCompare, compareFn.
    apply String.eqb_neq in N1, N2, N3, N4. rewrite N1, N2, N3, N4. lia.
  - apply sort_stable. intros a b _ _ Ha Hb. unfold sortCompare, compareFn. simpl.
    apply Z.eqb_eq in Ha, Hb. lia.
  - apply sort_stable. intros a b Hina _ Ha Hb. unfold sortCompare, compareFn. simpl.
    apply String.eqb_eq in Ha, Hb. rewrite Ha, Hb.
    destruct (validDates_time _ _ a Hvalid Hina) as [t Et].
    rewrite Ha in Et. rewrite Et. simpl. lia.
  - apply sort_stable. intros a b Hina _ Ha Hb. unfold sortCompare, compareFn. simpl.
    apply String.eqb_eq in Ha, Hb. rewrite Ha, Hb.
    destruct (validDates_time _ _ a Hvalid Hina) as [t Et].
    rewrite Ha in Et. rewrite Et. simpl. lia.
Qed.

End BrowseOrder.

Lemma ties_keep_loaded_order_witness :
  Spec.validDates (fun s => Some (Z.of_nat (String.length s)))
    (filter (Spec.passes "" "" "all") [Spec.bob; Spec.alice])
  /\ Browse.applyFilters (fun _ _ => 0%Z) (fun s => Some (Z.of_nat (String.length s)))
       "" "" "all" "rating" [Spec.bob; Spec.alice]
     = [Spec.bob; Spec.alice]
  /\ Browse.applyFilters (fun _ _ => 0%Z) (fun s => Some (Z.of_nat (String.length s)))
       "" "" "all" "skills" [Spec.bob; Spec.alice]
     = [Spec.bob; Spec.alice]
  /\ filter (fun p => Profile.created_at p =? "2024-01-01T00:00:00Z")
       (Browse.applyFilters (fun _ _ => 0%Z)
          (fun s => Some (Z.of_nat (String.length s)))
          "" "" "all" "newest" [Spec.bob; Spec.alice])
     = [Spec.alice].
Proof.
  assert (Hv : Spec.validDates (fun s => Some (Z.of_nat (String.length s)))
                 (filter (Spec.passes "" "" "all") [Spec.bob; Spec.alice]))
    by (repeat constructor; discriminate).
  destruct (ties_keep_loaded_order (fun _ _ => 0%Z)
              (fun s => Some (Z.of_nat (String.length s))) "" "" "all" "rating"
              [Spec.bob; Spec.alice] 1%Z "2024-01-01T00:00:00Z")
    as [H1 [H2 H3]]; try discriminate.
  destruct (H3 Hv) as [H4 _].
  split; [exact Hv | split; [exact H1 | split; [exact H2 | exact H4]]].
Defined.

(* ------------------------------------------------------------------ *)
(** ** What the listing pages load *)

Section Listings.
Import JSString JSArray Spec.

Lemma filter_all {A} (f : A -> bool) (l : list A) :
  (forall x, In x l -> f x = true) -> filter f l = l.
Proof.
  induction l as [|x l IH]; intros H; simpl; [reflexivity|].
  rewrite (H x (or_introl eq_refl)). f_equal. apply IH. intros y Hy. apply H. now right.
Qed.

(** The [is_public] filter of a listing query makes the policies moot:
    whoever asks gets the public rows. *)
Lemma public_rows (uid : option string) (db : Database) :
  Table.profiles_select uid (fun p => Bool.eqb (Profile.is_public p) true) db
  = filter Profile.is_public (profiles db).
Proof.
  unfold Table.profiles_select. rewrite filter_subsumed.
  - apply filter_ext. intros p. now destruct (Profile.is_public p).
  - intros p _ E. unfold Policy.profiles_select.
    destruct (Profile.is_public p); [reflexivity | discriminate].
Qed.

(** X6.  The browse page lists public profiles only, and the same ones to
    every visitor: whatever the filters, every listed profile is a public
    row of the store; after [clearFilters] the list holds exactly the public
    rows, each once per row, and the count line reads "N of N". *)
Theorem browse_lists_public_rows
    (localeCompare : string -> string -> Z) (Date_getTime : string -> option Z)
    (timestamptz_cmp : string -> string -> Z)
    (user : option User.t) (db : Database) (s : BrowsePage.State) :
  Forall (fun p => In p (profiles db) /\ Profile.is_public p = true)
    (BrowsePage.filteredProfiles
       (BrowsePage.applyFilters localeCompare Date_getTime
          (BrowsePage.fetchProfiles timestamptz_cmp user db s)))
  /\ Permutation
       (BrowsePage.filteredProfiles
          (BrowsePage.clearFilters localeCompare Date_getTime
             (BrowsePage.fetchProfiles timestamptz_cmp user db s)))
       (filter Profile.is_public (profiles db))
  /\ List.length
       (BrowsePage.filteredProfiles
          (BrowsePage.clearFilters localeCompare Date_getTime
             (BrowsePage.fetchProfiles timestamptz_cmp user db s)))
     = List.length
         (BrowsePage.profiles
            (BrowsePage.clearFilters localeCompare Date_getTime
               (BrowsePage.fetchProfiles timestamptz_cmp user db s))).
Proof.
  assert (Hall : Permutation
       (BrowsePage.filteredProfiles
          (BrowsePage.clearFilters localeCompare Date_getTime
             (BrowsePage.fetchProfiles timestamptz_cmp user db s)))
       (BrowsePage.profiles
            (BrowsePage.clearFilters localeCompare Date_getTime
               (BrowsePage.fetchProfiles timestamptz_cmp user db s)))).
  { unfold BrowsePage.clearFilters, BrowsePage.applyFilters, Browse.applyFilters.
    cbn [BrowsePage.filteredProfiles BrowsePage.setFilteredProfiles
         BrowsePage.profiles BrowsePage.searchTerm BrowsePage.locationFilter
         BrowsePage.availabilityFilter BrowsePage.sortBy].
    rewrite sort_perm. rewrite filter_all; [reflexivity|]. intros p _. reflexivity. }
  split; [|split].
  - apply Forall_forall. intros p Hp.
    unfold BrowsePage.applyFilters, Browse.applyFilters in Hp.
    cbn [BrowsePage.filteredProfiles BrowsePage.setFilteredProfiles] in Hp.
    apply (proj1 (in_sort _ _ _)) in Hp. apply filter_In in Hp. destruct Hp as [Hp _].
    unfold BrowsePage.fetchProfiles, Query.order_created_at_desc in Hp.
    cbn [BrowsePage.profiles BrowsePage.setLoading BrowsePage.setProfiles] in Hp.
    apply (proj1 (in_sort _ _ _)) in Hp. rewrite public_rows in Hp.
    now apply filter_In in Hp.
  - rewrite Hall.
    unfold BrowsePage.clearFilters, BrowsePage.applyFilters, BrowsePage.fetchProfiles,
      Query.order_created_at_desc.
    cbn [BrowsePage.profiles BrowsePage.setLoading BrowsePage.setProfiles
         BrowsePage.setFilteredProfiles].
    rewrite sort_perm, public_rows. reflexivity.
  - now apply Permutation_length.
Qed.

(** X7.  The home page search and the browse search agree on every term
    that is not blank, and part on the blank ones: for a term of white space
    only the home page shows every loaded profile, while the browse
    predicate looks for that white space.  The loaded profiles are never
    changed by a search. *)
Theorem home_search_agrees_with_browse (term : string) (s : Home.State) :
  (blank term -> Home.filteredProfiles (Home.handleSearch term s) = Home.profiles s)
  /\ (~ blank term ->
      Home.filteredProfiles (Home.handleSearch term s)
      = filter (Browse.matchesSearch term) (Home.profiles s))
  /\ Home.profiles (Home.handleSearch term s) = Home.profiles s
  /\ Home.searchTerm (Home.handleSearch term s) = term
  /\ Home.filteredProfiles
       (Home.handleSearch "  " (Home.mkState "" [alice; bob] [] false))
     = [alice; bob]
  /\ filter (Browse.matchesSearch "  ") [alice; bob] = [].
Proof.
  unfold Home.handleSearch.
  destruct (String.eqb_spec (trim term) "") as [E | E].
  - apply trim_empty_iff in E. repeat split; try reflexivity. intros H. contradiction.
  - assert (Hnb : ~ blank term) by (intros H; apply E; now apply trim_empty_iff).
    repeat split; try reflexivity; [intros H; contradiction|].
    intros _. cbn [Home.filteredProfiles Home.setFilteredProfiles Home.profiles
                   Home.setSearchTerm].
    apply filter_ext. intros p. unfold Browse.matchesSearch.
    destruct (String.eqb_spec term "") as [-> | _]; [|reflexivity].
    exfalso. apply Hnb. apply blank_nil.
Qed.

(** X8.  The home page loads at most eight profiles, all of them public
    rows of the store, and the same ones whoever is signed in; they are
    shown unfiltered until a search is typed. *)
Theorem home_loads_eight_public (user : option User.t) (db : Database) (s : Home.State) :
  List.length (Home.profiles (Home.fetchProfiles user db s)) <= 8
  /\ Forall (fun p => In p (profiles db) /\ Profile.is_public p = true)
       (Home.profiles (Home.fetchProfiles user db s))
  /\ Home.filteredProfiles (Home.fetchProfiles user db s)
     = Home.profiles (Home.fetchProfiles user db s)
  /\ Home.profiles (Home.fetchProfiles user db s)
     = Home.profiles (Home.fetchProfiles None db s)
  /\ (List.length (filter Profile.is_public (profiles db)) <= 8 ->
      Home.profiles (Home.fetchProfiles user db s)
      = filter Profile.is_public (profiles db)).
Proof.
  unfold Home.fetchProfiles.
  cbn [Home.profiles Home.filteredProfiles Home.setLoading Home.setFilteredProfiles
       Home.setProfiles].
  rewrite !public_rows. split; [|split; [|split; [|split]]].
  - apply firstn_le_length.
  - apply Forall_forall. intros p Hp.
    assert (Hin : In p (filter Profile.is_public (profiles db))).
    { rewrite <- (firstn_skipn 8). apply in_or_app. now left. }
    now apply filter_In in Hin.
  - reflexivity.
  - reflexivity.
  - intros H. now apply firstn_all2.
Qed.

End Listings.

(* ------------------------------------------------------------------ *)
(** ** More on the request lifecycle *)

Section RequestActions.
Import JSString Spec SpecExtra Postgrest.

Lemma db_eta (db : Database) : mkDatabase (profiles db) (skill_requests db) = db.
Proof. now destruct db. Qed.

(** X9.  The two dashboards answer a request in the same way, and the
    client clock is never stored: [handleRequestAction], which sends its own
    [updated_at], leaves the same store and the same outcome as
    [updateRequestStatus], which sends none, because the trigger writes
    [updated_at] either way. *)
Theorem client_clock_is_ignored (user : option User.t)
    (toISOString toISOString' now requestId error0 : string)
    (action : Dashboard.Action) (db : Database) :
  Dashboard.handleRequestAction user toISOString now requestId action db error0
  = DashboardPage.updateRequestStatus user now requestId action db error0
  /\ Dashboard.handleRequestAction user toISOString now requestId action db error0
     = Dashboard.handleRequestAction user toISOString' now requestId action db error0.
Proof.
  unfold Dashboard.handleRequestAction, DashboardPage.updateRequestStatus,
    Table.skill_requests_update.
  cbn [Postgrest.error done].
  split; f_equal; f_equal; apply map_ext; intros r;
    now destruct (Policy.skill_requests_select _ r && Policy.skill_requests_update _ r
                  && (SkillRequest.id r =? requestId)).
Qed.

(** X10.  An action on a request that is not addressed to the caller is
    silently dropped: when no row with the given id has the signed-in user
    as receiver (the id does not exist, the request belongs to somebody
    else, or nobody is signed in), the store is left as it was, no error is
    shown, and the lists are refreshed as after a success. *)
Theorem foreign_action_is_silent (user : option User.t)
    (toISOString now requestId error0 : string)
    (action : Dashboard.Action) (db : Database) :
  (forall r, In r (skill_requests db) -> SkillRequest.id r = requestId ->
             option_map User.id user <> Some (SkillRequest.to_user_id r)) ->
  Dashboard.handleRequestAction user toISOString now requestId action db error0
  = Dashboard.mkOutcome error0 db true.
Proof.
  intros H. unfold Dashboard.handleRequestAction, Table.skill_requests_update.
  cbn [Postgrest.error done]. f_equal.
  destruct db as [ps rs]. unfold Table.set_skill_requests.
  cbn [profiles skill_requests] in *. f_equal.
  transitivity (map (fun r => r) rs); [|apply map_id].
  apply map_ext_in. intros r Hr.
  destruct (SkillRequest.id r =? requestId) eqn:E; [|now rewrite andb_false_r].
  apply String.eqb_eq in E. specialize (H r Hr E).
  unfold Policy.skill_requests_update.
  destruct (Policy.uid_is (option_map User.id user) (SkillRequest.to_user_id r)) eqn:Eu.
  - apply uid_is_true in Eu. contradiction.
  - now rewrite andb_false_r.
Qed.

Lemma foreign_action_is_silent_witness :
  Dashboard.handleRequestAction (Some userCarol) "2024-03-01T00:00:00.000Z"
    "2024-03-01T00:00:01Z" "r-1" Dashboard.action_accepted sampleDb ""
  = Dashboard.mkOutcome "" sampleDb true.
Proof.
  apply (foreign_action_is_silent (Some userCarol) "2024-03-01T00:00:00.000Z"
           "2024-03-01T00:00:01Z" "r-1" "" Dashboard.action_accepted sampleDb).
  intros r [<- | []] _. discriminate.
Defined.

(** X11.  The last decision wins: answering a request twice leaves the
    store exactly as the second answer alone would, so accepting after
    declining ends accepted with the second [updated_at], and repeating an
    answer changes nothing but that timestamp. *)
Theorem last_decision_wins (user : option User.t)
    (iso1 iso2 now1 now2 requestId e1 e2 : string)
    (a1 a2 : Dashboard.Action) (db : Database) :
  Dashboard.store
    (Dashboard.handleRequestAction user iso2 now2 requestId a2
       (Dashboard.store
          (Dashboard.handleRequestAction user iso1 now1 requestId a1 db e1)) e2)
  = Dashboard.store
      (Dashboard.handleRequestAction user iso2 now2 requestId a2 db e2).
Proof.
  unfold Dashboard.handleRequestAction, Table.skill_requests_update.
  cbn [Postgrest.error done Dashboard.store].
  unfold Table.set_skill_requests. cbn [profiles skill_requests]. f_equal.
  rewrite map_map. apply map_ext. intros r.
  destruct (Policy.skill_requests_select (option_map User.id user) r
            && Policy.skill_requests_update (option_map User.id user) r
            && (SkillRequest.id r =? requestId)) eqn:E.
  - unfold Policy.skill_requests_select, Policy.skill_requests_update in *.
    cbn [Table.touch_request Dashboard.set_status SkillRequest.id
         SkillRequest.from_user_id SkillRequest.to_user_id].
    now rewrite E.
  - now rewrite E.
Qed.

(** X12.  An answer changes the status and [updated_at] and nothing else:
    row by row the id, the two parties, the message, the two skills and
    [created_at] are kept, no row is added or removed, a row is either left
    as it was or carries the new decision with the new [updated_at], and the
    profiles are not touched. *)
Theorem action_changes_status_only (user : option User.t)
    (toISOString now requestId error0 : string)
    (action : Dashboard.Action) (db : Database) :
  Forall2
    (fun r r' =>
       SkillRequest.id r' = SkillRequest.id r
       /\ SkillRequest.from_user_id r' = SkillRequest.from_user_id r
       /\ SkillRequest.to_user_id r' = SkillRequest.to_user_id r
       /\ SkillRequest.message r' = SkillRequest.message r
       /\ SkillRequest.skill_offered r' = SkillRequest.skill_offered r
       /\ SkillRequest.skill_wanted r' = SkillRequest.skill_wanted r
       /\ SkillRequest.created_at r' = SkillRequest.created_at r
       /\ (r' = r
           \/ (SkillRequest.id r = requestId
               /\ SkillRequest.status r' = Dashboard.status_of action
               /\ SkillRequest.updated_at r' = now)))
    (skill_requests db)
    (skill_requests
       (Dashboard.store
          (Dashboard.handleRequestAction user toISOString now requestId action
             db error0)))
  /\ profiles
       (Dashboard.store
          (Dashboard.handleRequestAction user toISOString now requestId action
             db error0))
     = profiles db.
Proof.
  unfold Dashboard.handleRequestAction, Table.skill_requests_update.
  cbn [Postgrest.error done Dashboard.store].
  split; [|reflexivity]. cbn [Table.set_skill_requests skill_requests].
  induction (skill_requests db) as [|r l IH]; simpl; constructor; [|exact IH].
  destruct (SkillRequest.id r =? requestId) eqn:E.
  - apply String.eqb_eq in E.
    destruct (Policy.skill_requests_select _ r && Policy.skill_requests_update _ r);
      simpl; repeat split; auto.
  - rewrite andb_false_r. repeat split; auto.
Qed.

End RequestActions.

Section Sending.
Import JSString Spec SpecExtra Postgrest.

Lemma truthy_true (s : string) : truthy s = true <-> s <> "".
Proof. unfold truthy. rewrite negb_true_iff. apply String.eqb_neq. Qed.

Lemma truthy_trim_true (s : string) : truthy (trim s) = true <-> ~ blank s.
Proof.
  rewrite <- truthy_trim. destruct (truthy (trim s)); split; congruence.
Qed.

Lemma handleSendRequest_valid (u : User.t) (viewed own : Profile.t)
    (uuid now : string) (db : Database) (s : ProfileView.State) :
  ProfileView.profile s = Some viewed ->
  ProfileView.currentUserProfile s = Some own ->
  ~ blank (ProfileView.requestMessage s) ->
  ProfileView.selectedSkillOffered s <> "" ->
  ProfileView.selectedSkillWanted s <> "" ->
  Table.has_user_id (User.id u) (profiles db) = true ->
  Table.has_user_id (Profile.user_id viewed) (profiles db) = true ->
  Table.has_request_id uuid (skill_requests db) = false ->
  ProfileView.handleSendRequest (Some u) uuid now db s
  = ProfileView.mkOutcome
      (ProfileView.mkState (Some viewed) (Some own) "" "" "" false
         (ProfileView.loading s) false "" "Request sent successfully!")
      (mkDatabase (profiles db)
         (skill_requests db
          ++ [SkillRequest.mk uuid (User.id u) (Profile.user_id viewed)
                (trim (ProfileView.requestMessage s))
                (ProfileView.selectedSkillOffered s)
                (ProfileView.selectedSkillWanted s) pending now now]))
      None.
Proof.
  intros Hp Hc Hm Ho Hw Hfrom Hto Hid.
  apply truthy_trim_true in Hm. apply truthy_true in Ho, Hw.
  destruct s as [p c m so sw d l sd er su].
  cbn [ProfileView.profile ProfileView.currentUserProfile ProfileView.requestMessage
       ProfileView.selectedSkillOffered ProfileView.selectedSkillWanted
       ProfileView.loading] in *.
  subst p c. unfold ProfileView.handleSendRequest.
  cbn [ProfileView.profile ProfileView.currentUserProfile ProfileView.requestMessage
       ProfileView.selectedSkillOffered ProfileView.selectedSkillWanted].
  rewrite Hm, Ho, Hw. cbn [negb orb].
  unfold Table.skill_requests_insert, Policy.skill_requests_insert.
  simpl. rewrite String.eqb_refl, Hid, Hfrom, Hto. reflexivity.
Qed.

(** X13.  A complete request is stored and acknowledged: for a signed-in
    sender with a profile, a loaded profile whose owner has a row, a message
    that is not blank and two selected skills, [handleSendRequest] appends
    one pending row from the sender to the owner of the viewed profile, with
    the message trimmed, closes the dialog, clears the three fields and
    shows "Request sent successfully!".  Nothing compares the sender with
    the receiver: the viewed profile may be the sender's own. *)
Theorem valid_request_is_stored (u : User.t) (viewed own : Profile.t)
    (uuid now : string) (db : Database) (s : ProfileView.State) :
  ProfileView.profile s = Some viewed ->
  ProfileView.currentUserProfile s = Some own ->
  ~ blank (ProfileView.requestMessage s) ->
  ProfileView.selectedSkillOffered s <> "" ->
  ProfileView.selectedSkillWanted s <> "" ->
  Table.has_user_id (User.id u) (profiles db) = true ->
  Table.has_user_id (Profile.user_id viewed) (profiles db) = true ->
  Table.has_request_id uuid (skill_requests db) = false ->
  ProfileView.handleSendRequest (Some u) uuid now db s
  = ProfileView.mkOutcome
      (ProfileView.mkState (Some viewed) (Some own) "" "" "" false
         (ProfileView.loading s) false "" "Request sent successfully!")
      (mkDatabase (profiles db)
         (skill_requests db
          ++ [SkillRequest.mk uuid (User.id u) (Profile.user_id viewed)
                (trim (ProfileView.requestMessage s))
                (ProfileView.selectedSkillOffered s)
                (ProfileView.selectedSkillWanted s) pending now now]))
      None.
Proof. apply handleSendRequest_valid. Qed.

Lemma valid_request_is_stored_witness :
  map (fun r => (SkillRequest.from_user_id r, SkillRequest.to_user_id r,
                 SkillRequest.message r, SkillRequest.status r))
    (skill_requests
       (ProfileView.store
          (ProfileView.handleSendRequest (Some userBob) "r-2" "2024-03-01T00:00:00Z"
             sampleDb
             (ProfileView.mkState (Some bob) (Some bob) " To myself " "Cooking"
                "Cooking" true false false "" ""))))
  = [("u-bob", "u-alice", "Shall we trade?", declined);
     ("u-bob", "u-bob", "To myself", pending)].
Proof.
  rewrite (valid_request_is_stored userBob bob bob "r-2" "2024-03-01T00:00:00Z" sampleDb
             (ProfileView.mkState (Some bob) (Some bob) " To myself " "Cooking"
                "Cooking" true false false "" ""));
    try reflexivity; try discriminate.
  intros H. apply trim_empty_iff in H. discriminate.
Defined.

(** X14.  The two request dialogs differ in one thing only, the trimming
    of the message.  On the same input [handleSendRequest] and [sendRequest]
    push the same route and either both leave the store as it was or both
    append one row, equal in every column but the message, which the first
    stores trimmed and the second as typed. *)
Theorem send_handlers_differ_in_trim_only (user : option User.t)
    (uuid now : string) (db : Database)
    (profile userProfile : option Profile.t) (message skill_offered skill_wanted : string)
    (dialogOpen loading sending : bool) (error success : string) :
  let first :=
    ProfileView.handleSendRequest user uuid now db
      (ProfileView.mkState profile userProfile message skill_offered skill_wanted
         dialogOpen loading sending error success) in
  let second :=
    ProfileViewPage.sendRequest user uuid now db
      (ProfileViewPage.mkState profile userProfile loading sending error success
         dialogOpen (ProfileViewPage.mkRequestData message skill_offered skill_wanted)) in
  ProfileView.pushed first = ProfileViewPage.pushed second
  /\ ProfileView.error (ProfileView.state first)
     = ProfileViewPage.error (ProfileViewPage.state second)
  /\ ((ProfileView.store first = db /\ ProfileViewPage.store second = db)
      \/ exists from_user_id to_user_id,
           ProfileView.store first
           = Table.set_skill_requests db
               (skill_requests db
                ++ [SkillRequest.mk uuid from_user_id to_user_id (trim message)
                      skill_offered skill_wanted pending now now])
           /\ ProfileViewPage.store second
              = Table.set_skill_requests db
                  (skill_requests db
                   ++ [SkillRequest.mk uuid from_user_id to_user_id message
                         skill_offered skill_wanted pending now now])).
Proof.
  cbv zeta. unfold ProfileView.handleSendRequest, ProfileViewPage.sendRequest.
  cbn [ProfileView.profile ProfileView.currentUserProfile ProfileViewPage.profile
       ProfileViewPage.userProfile].
  destruct user as [u|];
    [|split; [reflexivity | split; [reflexivity | left; split; reflexivity]]].
  destruct profile as [viewed|];
    [|split; [reflexivity | split; [reflexivity | left; split; reflexivity]]].
  destruct userProfile as [own|];
    [|split; [reflexivity | split; [reflexivity | left; split; reflexivity]]].
  unfold Table.skill_requests_insert, Policy.skill_requests_insert. simpl.
  repeat match goal with
         | |- context [if ?b then _ else _] =>
             destruct b;
             [try (split; [reflexivity | split; [reflexivity | left; split; reflexivity]])|]
         end.
  all: try (split; [reflexivity | split; [reflexivity | left; split; reflexivity]]).
  split; [reflexivity | split; [reflexivity | right]].
  exists (User.id u), (Profile.user_id viewed). split; reflexivity.
Qed.

End Sending.

(* ------------------------------------------------------------------ *)
(** ** Dashboard: what [fetchUserData] shows *)

Section DashboardFacts.
Import JSString JSArray Spec SpecExtra Postgrest.
Variable timestamptz_cmp : string -> string -> Z.

Lemma filter_length_perm {A} (f : A -> bool) (l l' : list A) :
  Permutation l l' -> List.length (filter f l) = List.length (filter f l').
Proof.
  induction 1 as [|x l l' _ IH|x y l|l l' l'' _ IH1 _ IH2]; simpl.
  - reflexivity.
  - destruct (f x); simpl; now rewrite IH.
  - destruct (f x), (f y); reflexivity.
  - now rewrite IH1.
Qed.

(** The requests a principal may read and that are addressed to it are the
    requests addressed to it; likewise for the ones it sent. *)
Lemma requests_to (u : string) (db : Database) :
  Query.skill_requests_select (Some u) (fun r => SkillRequest.to_user_id r =? u) db
  = filter (fun r => SkillRequest.to_user_id r =? u) (skill_requests db).
Proof.
  unfold Query.skill_requests_select. apply filter_subsumed. intros r _ E.
  unfold Policy.skill_requests_select, Policy.uid_is.
  rewrite (String.eqb_sym u (SkillRequest.to_user_id r)), E. apply orb_true_r.
Qed.

Lemma requests_from (u : string) (db : Database) :
  Query.skill_requests_select (Some u) (fun r => SkillRequest.from_user_id r =? u) db
  = filter (fun r => SkillRequest.from_user_id r =? u) (skill_requests db).
Proof.
  unfold Query.skill_requests_select. apply filter_subsumed. intros r _ E.
  unfold Policy.skill_requests_select, Policy.uid_is.
  now rewrite (String.eqb_sym u (SkillRequest.from_user_id r)), E.
Qed.

Lemma incoming_requests (u : string) (db : Database) :
  Permutation
    (map JoinedRequest.request (DashboardLoad.incoming timestamptz_cmp u db))
    (filter (fun r => SkillRequest.to_user_id r =? u) (skill_requests db)).
Proof.
  unfold DashboardLoad.incoming, Query.order_created_at_desc.
  rewrite map_map. cbn [JoinedRequest.request]. rewrite map_id, requests_to.
  apply sort_perm.
Qed.

Lemma sent_requests (u : string) (db : Database) :
  Permutation
    (map JoinedRequest.request (DashboardLoad.sent timestamptz_cmp u db))
    (filter (fun r => SkillRequest.from_user_id r =? u) (skill_requests db)).
Proof.
  unfold DashboardLoad.sent, Query.order_created_at_desc.
  rewrite map_map. cbn [JoinedRequest.request]. rewrite map_id, requests_from.
  apply sort_perm.
Qed.

Lemma fetchUserData_loaded (u : User.t) (db : Database) (s : DashboardLoad.State)
    (p : Profile.t) :
  one_profile_per_user db -> In p (profiles db) -> Profile.user_id p = User.id u ->
  DashboardLoad.fetchUserData timestamptz_cmp (Some u) db s
  = (DashboardLoad.mkState (Some p)
       (DashboardLoad.incoming timestamptz_cmp (User.id u) db)
       (DashboardLoad.sent timestamptz_cmp (User.id u) db)
       false (DashboardLoad.error s) (DashboardLoad.activeTab s),
     None).
Proof.
  intros Hnd Hin Hp. unfold DashboardLoad.fetchUserData.
  now rewrite (own_profile_found (User.id u) db p Hnd Hin Hp).
Qed.

(** X15.  The dashboard of a user with a profile shows exactly that user's
    requests: the incoming list holds the requests addressed to the user and
    the sent list the requests the user sent, each row of the store once and
    no request between other people; the profile shown is the user's own,
    private or not, and no error is raised. *)
Theorem dashboard_shows_own_requests (u : User.t) (db : Database)
    (s : DashboardLoad.State) (p : Profile.t) :
  one_profile_per_user db -> In p (profiles db) -> Profile.user_id p = User.id u ->
  DashboardLoad.profile
    (fst (DashboardLoad.fetchUserData timestamptz_cmp (Some u) db s)) = Some p
  /\ Permutation
       (map JoinedRequest.request
          (DashboardLoad.incomingRequests
             (fst (DashboardLoad.fetchUserData timestamptz_cmp (Some u) db s))))
       (filter (fun r => SkillRequest.to_user_id r =? User.id u) (skill_requests db))
  /\ Permutation
       (map JoinedRequest.request
          (DashboardLoad.sentRequests
             (fst (DashboardLoad.fetchUserData timestamptz_cmp (Some u) db s))))
       (filter (fun r => SkillRequest.from_user_id r =? User.id u) (skill_requests db))
  /\ DashboardLoad.error
       (fst (DashboardLoad.fetchUserData timestamptz_cmp (Some u) db s))
     = DashboardLoad.error s
  /\ snd (DashboardLoad.fetchUserData timestamptz_cmp (Some u) db s) = None.
Proof.
  intros Hnd Hin Hp. rewrite (fetchUserData_loaded u db s p Hnd Hin Hp).
  cbn [fst snd DashboardLoad.profile DashboardLoad.incomingRequests
       DashboardLoad.sentRequests DashboardLoad.error].
  repeat split; [apply incoming_requests | apply sent_requests].
Qed.

(** X16.  A signed-in user without a profile is sent to the creation page:
    [fetchUserData] pushes "/profile/create", shows no error and leaves the
    profile and both request lists as they were; without a signed-in user it
    does nothing at all. *)
Theorem dashboard_without_profile (u : User.t) (db : Database)
    (s : DashboardLoad.State) :
  (forall p, In p (profiles db) -> Profile.user_id p <> User.id u) ->
  DashboardLoad.fetchUserData timestamptz_cmp (Some u) db s
  = (DashboardLoad.setLoading false s, Some "/profile/create")
  /\ DashboardLoad.fetchUserData timestamptz_cmp None db s = (s, None).
Proof.
  intros H. split; [|reflexivity]. unfold DashboardLoad.fetchUserData.
  unfold Table.profiles_select.
  rewrite (filter_none _ (filter _ (profiles db))); [reflexivity|].
  intros p Hp. apply filter_In in Hp. destruct Hp as [Hp _].
  apply String.eqb_neq. now apply H.
Qed.

End DashboardFacts.

Lemma sampleDb_one_profile_per_user : Spec.one_profile_per_user Spec.sampleDb.
Proof.
  unfold Spec.one_profile_per_user. simpl.
  repeat constructor; simpl; intuition discriminate.
Qed.

Lemma dashboard_shows_own_requests_witness :
  map JoinedRequest.request
    (DashboardLoad.incomingRequests
       (fst (DashboardLoad.fetchUserData (fun _ _ => 0%Z) (Some Spec.userAlice)
               Spec.sampleDb DashboardLoad.initial)))
  = [Spec.declinedRequest]
  /\ Permutation
       (map JoinedRequest.request
          (DashboardLoad.sentRequests
             (fst (DashboardLoad.fetchUserData (fun _ _ => 0%Z) (Some Spec.userAlice)
                     Spec.sampleDb DashboardLoad.initial))))
       [].
Proof.
  split; [reflexivity|].
  apply (dashboard_shows_own_requests (fun _ _ => 0%Z) Spec.userAlice Spec.sampleDb
           DashboardLoad.initial Spec.alice sampleDb_one_profile_per_user
           (or_introl eq_refl) eq_refl).
Defined.

Lemma dashboard_without_profile_witness :
  DashboardLoad.fetchUserData (fun _ _ => 0%Z)
    (Some (User.mk "u-erin" "erin@example.org" None)) Spec.sampleDb DashboardLoad.initial
  = (DashboardLoad.setLoading false DashboardLoad.initial, Some "/profile/create").
Proof.
  apply (dashboard_without_profile (fun _ _ => 0%Z)
           (User.mk "u-erin" "erin@example.org" None) Spec.sampleDb DashboardLoad.initial).
  intros p [<- | [<- | [<- | []]]]; discriminate.
Defined.

Section DashboardAfterAction.
Import JSString JSArray Spec SpecExtra Postgrest.
Variable timestamptz_cmp : string -> string -> Z.

(** Rewriting the one row with a given key, from inside a counted class to
    outside of it, lowers the count by one. *)
Lemma count_after_rewrite {A} (key : A -> string) (Q : A -> bool) (g : A -> A)
    (l : list A) (r : A) :
  NoDup (map key l) -> In r l ->
  Q r = true -> Q (g r) = false ->
  (forall x, In x l -> key x <> key r -> g x = x) ->
  List.length (filter Q (map g l)) + 1 = List.length (filter Q l).
Proof.
  induction l as [|x l IH]; intros Hnd Hin Hq Hg Hid; [contradiction|].
  simpl in Hnd. apply NoDup_cons_iff in Hnd. destruct Hnd as [Hx Hnd].
  destruct Hin as [-> | Hin].
  - simpl. rewrite Hg, Hq. simpl.
    assert (E : map g l = l).
    { transitivity (map (fun y => y) l); [|apply map_id].
      apply map_ext_in. intros y Hy. apply Hid; [now right|].
      intros E. apply Hx. rewrite <- E. now apply in_map. }
    rewrite E. lia.
  - assert (Hne : key x <> key r).
    { intros E. apply Hx. rewrite E. now apply in_map. }
    simpl. rewrite (Hid x (or_introl eq_refl) Hne).
    assert (IH' := IH Hnd Hin Hq Hg (fun y Hy => Hid y (or_intror Hy))).
    destruct (Q x); simpl; lia.
Qed.

Lemma pendingCount_incoming (u : string) (db : Database) :
  List.length (filter DashboardLoad.isPending (DashboardLoad.incoming timestamptz_cmp u db))
  = List.length
      (filter (fun r => (SkillRequest.to_user_id r =? u)
                        && match SkillRequest.status r with
                           | pending => true
                           | _ => false
                           end)
         (skill_requests db)).
Proof.
  unfold DashboardLoad.incoming, Query.order_created_at_desc.
  rewrite filter_map_swap, length_map.
  unfold DashboardLoad.isPending. cbn [JoinedRequest.request].
  rewrite (filter_length_perm _ _ _ (sort_perm _ _)), requests_to.
  now rewrite <- filter_and.
Qed.

Lemma length_incoming (u : string) (db : Database) :
  List.length (DashboardLoad.incoming timestamptz_cmp u db)
  = List.length (filter (fun r => SkillRequest.to_user_id r =? u) (skill_requests db)).
Proof.
  rewrite <- (length_map JoinedRequest.request).
  apply Permutation_length, incoming_requests.
Qed.

Lemma length_sent (u : string) (db : Database) :
  List.length (DashboardLoad.sent timestamptz_cmp u db)
  = List.length (filter (fun r => SkillRequest.from_user_id r =? u) (skill_requests db)).
Proof.
  rewrite <- (length_map JoinedRequest.request).
  apply Permutation_length, sent_requests.
Qed.

(** X17.  Answering a pending request takes one off the badge: for a user
    with a profile and a pending request addressed to that user, the
    refreshed dashboard after [handleRequestAction] counts one pending
    request less than a dashboard loaded before, shows as many requests in
    total, and raises no error. *)
Theorem answer_lowers_pending_count (u : User.t) (toISOString now : string)
    (action : Dashboard.Action) (db : Database) (s : DashboardLoad.State)
    (p : Profile.t) (r : SkillRequest.t) :
  one_profile_per_user db -> In p (profiles db) -> Profile.user_id p = User.id u ->
  request_ids_unique db -> In r (skill_requests db) ->
  SkillRequest.to_user_id r = User.id u -> SkillRequest.status r = pending ->
  DashboardLoad.pendingCount
    (DashboardLoad.state
       (DashboardLoad.handleRequestAction timestamptz_cmp (Some u) toISOString now
          (SkillRequest.id r) action db s)) + 1
  = DashboardLoad.pendingCount
      (fst (DashboardLoad.fetchUserData timestamptz_cmp (Some u) db s))
  /\ DashboardLoad.totalRequests
       (DashboardLoad.state
          (DashboardLoad.handleRequestAction timestamptz_cmp (Some u) toISOString now
             (SkillRequest.id r) action db s))
     = DashboardLoad.totalRequests
         (fst (DashboardLoad.fetchUserData timestamptz_cmp (Some u) db s))
  /\ DashboardLoad.error
       (DashboardLoad.state
          (DashboardLoad.handleRequestAction timestamptz_cmp (Some u) toISOString now
             (SkillRequest.id r) action db s))
     = DashboardLoad.error s.
Proof.
  intros Hnd Hin Hp Hids Hr Hto Hst.
  unfold DashboardLoad.handleRequestAction, Dashboard.handleRequestAction,
    Table.skill_requests_update.
  cbn [Postgrest.error done Dashboard.refreshed Dashboard.store option_map].
  set (g := fun r0 : SkillRequest.t =>
              if Policy.skill_requests_select (Some (User.id u)) r0
                 && Policy.skill_requests_update (Some (User.id u)) r0
                 && (SkillRequest.id r0 =? SkillRequest.id r)
              then Table.touch_request now
                     (Dashboard.set_status (Dashboard.status_of action) toISOString r0)
              else r0).
  set (db' := Table.set_skill_requests db (map g (skill_requests db))).
  assert (Hnd' : one_profile_per_user db') by exact Hnd.
  assert (Hin' : In p (profiles db')) by exact Hin.
  rewrite (fetchUserData_loaded timestamptz_cmp u db' s p Hnd' Hin' Hp).
  rewrite (fetchUserData_loaded timestamptz_cmp u db s p Hnd Hin Hp).
  unfold DashboardLoad.pendingCount, DashboardLoad.totalRequests.
  cbn [fst DashboardLoad.state DashboardLoad.incomingRequests
       DashboardLoad.sentRequests DashboardLoad.error].
  assert (Hkeep : forall x, SkillRequest.to_user_id (g x) = SkillRequest.to_user_id x
                            /\ SkillRequest.from_user_id (g x) = SkillRequest.from_user_id x).
  { intros x. unfold g. now destruct (_ && _ && _). }
  split; [|split; [|reflexivity]].
  - rewrite !pendingCount_incoming. subst db'. cbn [skill_requests Table.set_skill_requests].
    apply (count_after_rewrite SkillRequest.id _ g _ r Hids Hr).
    + now rewrite Hto, String.eqb_refl, Hst.
    + unfold g, Policy.skill_requests_select, Policy.skill_requests_update.
      rewrite Hto. simpl. rewrite !String.eqb_refl, orb_true_r. simpl.
      rewrite andb_false_iff. right. now destruct action.
    + intros x _ Hne. unfold g. apply String.eqb_neq in Hne. rewrite Hne.
      now rewrite andb_false_r.
  - rewrite !length_incoming, !length_sent. subst db'.
    cbn [skill_requests Table.set_skill_requests].
    rewrite !filter_map_swap, !length_map. f_equal; f_equal; apply filter_ext;
      intros x; destruct (Hkeep x) as [E1 E2]; now rewrite ?E1, ?E2.
Qed.

End DashboardAfterAction.

Lemma answer_lowers_pending_count_witness :
  DashboardLoad.pendingCount
    (fst (DashboardLoad.fetchUserData (fun _ _ => 0%Z) (Some Spec.userAlice)
            SpecExtra.pendingDb DashboardLoad.initial)) = 1
  /\ DashboardLoad.pendingCount
       (DashboardLoad.state
          (DashboardLoad.handleRequestAction (fun _ _ => 0%Z) (Some Spec.userAlice)
             "2024-03-01T00:00:00.000Z" "2024-03-01T00:00:01Z"
             (SkillRequest.id SpecExtra.pendingRequest) Dashboard.action_declined
             SpecExtra.pendingDb DashboardLoad.initial)) + 1
     = DashboardLoad.pendingCount
         (fst (DashboardLoad.fetchUserData (fun _ _ => 0%Z) (Some Spec.userAlice)
                 SpecExtra.pendingDb DashboardLoad.initial)).
Proof.
  split; [reflexivity|].
  apply (answer_lowers_pending_count (fun _ _ => 0%Z) Spec.userAlice
           "2024-03-01T00:00:00.000Z" "2024-03-01T00:00:01Z" Dashboard.action_declined
           SpecExtra.pendingDb DashboardLoad.initial Spec.alice SpecExtra.pendingRequest).
  - exact sampleDb_one_profile_per_user.
  - now left.
  - reflexivity.
  - unfold SpecExtra.request_ids_unique. simpl.
    repeat constructor; simpl; intuition discriminate.
  - right. now left.
  - reflexivity.
  - reflexivity.
Defined.

Section DashboardDelivery.
Import JSString JSArray Spec SpecExtra Postgrest.
Variable timestamptz_cmp : string -> string -> Z.

Lemma unique_key_inj {A} (key : A -> string) (l : list A) (a b : A) :
  NoDup (map key l) -> In a l -> In b l -> key a = key b -> a = b.
Proof.
  intros Hnd Ha Hb E.
  assert (Hf : In b (filter (fun q => key q =? key a) l)).
  { apply filter_In. split; [exact Hb | apply String.eqb_eq; now symmetry]. }
  rewrite (filter_key_unique key l a Hnd Ha) in Hf.
  destruct Hf as [-> | []]. reflexivity.
Qed.

(** X18.  What a receiver learns about the sender: the profile embedded in
    an incoming request is a row of the store owned by the sender and
    readable by the receiver, that is, public or the receiver's own; when
    the sender's profile is private (and the sender is somebody else) the
    request arrives without it.  No [to_profile] is embedded in incoming
    requests. *)
Theorem incoming_embeds_readable_sender (u : string) (db : Database) :
  one_profile_per_user db ->
  Forall
    (fun j =>
       JoinedRequest.to_profile j = None
       /\ (forall p, JoinedRequest.from_profile j = Some p ->
                     In p (profiles db)
                     /\ Profile.user_id p = SkillRequest.from_user_id (JoinedRequest.request j)
                     /\ (Profile.is_public p = true \/ Profile.user_id p = u))
       /\ (forall q, In q (profiles db) ->
                     Profile.user_id q = SkillRequest.from_user_id (JoinedRequest.request j) ->
                     Profile.is_public q = false -> Profile.user_id q <> u ->
                     JoinedRequest.from_profile j = None))
    (DashboardLoad.incoming timestamptz_cmp u db).
Proof.
  intros Hnd. apply Forall_forall. intros j Hj.
  unfold DashboardLoad.incoming in Hj. apply in_map_iff in Hj.
  destruct Hj as [r [<- _]]. cbn [JoinedRequest.to_profile JoinedRequest.from_profile
                                  JoinedRequest.request].
  split; [reflexivity|]. unfold Query.embed_profile. split.
  - intros p Hf. apply find_some in Hf. destruct Hf as [Hin E].
    apply filter_In in Hin. destruct Hin as [Hin Hpol]. apply String.eqb_eq in E.
    repeat split; auto.
    unfold Policy.profiles_select in Hpol. apply orb_true_iff in Hpol.
    destruct Hpol as [H | H]; [now left | right].
    apply uid_is_true in H. now injection H.
  - intros q Hq Hown Hpriv Hne.
    destruct (find _ _) as [p|] eqn:Hf; [|reflexivity]. exfalso.
    apply find_some in Hf. destruct Hf as [Hin E].
    apply filter_In in Hin. destruct Hin as [Hin Hpol]. apply String.eqb_eq in E.
    assert (p = q)
      by (apply (unique_key_inj Profile.user_id (profiles db) p q Hnd Hin Hq); congruence).
    subst p. unfold Policy.profiles_select in Hpol. rewrite Hpriv in Hpol.
    simpl in Hpol. apply String.eqb_eq in Hpol. congruence.
Qed.

End DashboardDelivery.

Lemma incoming_embeds_readable_sender_witness :
  map JoinedRequest.from_profile
    (DashboardLoad.incoming (fun _ _ => 0%Z) "u-alice" Spec.sampleDb)
  = [Some Spec.bob]
  /\ Forall (fun j => JoinedRequest.to_profile j = None)
       (DashboardLoad.incoming (fun _ _ => 0%Z) "u-alice" Spec.sampleDb).
Proof.
  split; [reflexivity|].
  eapply Forall_impl;
    [|exact (incoming_embeds_readable_sender (fun _ _ => 0%Z) "u-alice" Spec.sampleDb
               sampleDb_one_profile_per_user)].
  intros j H. exact (proj1 H).
Defined.

Section RequestDelivery.
Import JSString JSArray Spec SpecExtra Postgrest.
Variable timestamptz_cmp : string -> string -> Z.

Lemma has_user_id_In (u : string) (ps : list Profile.t) (p : Profile.t) :
  In p ps -> Profile.user_id p = u -> Table.has_user_id u ps = true.
Proof.
  intros Hin <-. apply (existsb_key Profile.user_id). now apply in_map.
Qed.

(** A request between two other people changes nothing of what a third
    principal's dashboard loads. *)
Lemma third_party_sees_nothing (w : User.t) (db : Database) (row : SkillRequest.t)
    (d : DashboardLoad.State) :
  SkillRequest.from_user_id row <> User.id w ->
  SkillRequest.to_user_id row <> User.id w ->
  DashboardLoad.fetchUserData timestamptz_cmp (Some w)
    (mkDatabase (profiles db) (skill_requests db ++ [row])) d
  = DashboardLoad.fetchUserData timestamptz_cmp (Some w) db d.
Proof.
  intros Hf Ht.
  assert (Hpol : Policy.skill_requests_select (Some (User.id w)) row = false).
  { unfold Policy.skill_requests_select, Policy.uid_is.
    apply orb_false_iff. split; apply String.eqb_neq; congruence. }
  unfold DashboardLoad.fetchUserData, DashboardLoad.incoming, DashboardLoad.sent,
    Query.skill_requests_select, Query.embed_profile, Table.profiles_select.
  cbn [profiles skill_requests].
  rewrite !filter_app. cbn [filter]. rewrite Hpol. cbn [filter].
  now rewrite !app_nil_r.
Qed.

(** X19.  A stored request reaches both parties and nobody else.  After a
    complete request from a sender to the owner of the viewed profile, the
    receiver's dashboard lists the new pending row among the incoming
    requests and the sender's dashboard lists it among the sent ones; the
    dashboard of any third principal loads exactly what it loaded before. *)
Theorem request_reaches_both_parties (u v w : User.t) (viewed own pu pv : Profile.t)
    (uuid now : string) (db : Database) (s : ProfileView.State)
    (d : DashboardLoad.State) :
  ProfileView.profile s = Some viewed ->
  ProfileView.currentUserProfile s = Some own ->
  ~ blank (ProfileView.requestMessage s) ->
  ProfileView.selectedSkillOffered s <> "" ->
  ProfileView.selectedSkillWanted s <> "" ->
  one_profile_per_user db ->
  In pu (profiles db) -> Profile.user_id pu = User.id u ->
  In pv (profiles db) -> Profile.user_id pv = User.id v ->
  Profile.user_id viewed = User.id v ->
  Table.has_request_id uuid (skill_requests db) = false ->
  In (SkillRequest.mk uuid (User.id u) (User.id v)
        (trim (ProfileView.requestMessage s)) (ProfileView.selectedSkillOffered s)
        (ProfileView.selectedSkillWanted s) pending now now)
     (map JoinedRequest.request
        (DashboardLoad.incomingRequests
           (fst (DashboardLoad.fetchUserData timestamptz_cmp (Some v)
                   (ProfileView.store
                      (ProfileView.handleSendRequest (Some u) uuid now db s)) d))))
  /\ In (SkillRequest.mk uuid (User.id u) (User.id v)
           (trim (ProfileView.requestMessage s)) (ProfileView.selectedSkillOffered s)
           (ProfileView.selectedSkillWanted s) pending now now)
        (map JoinedRequest.request
           (DashboardLoad.sentRequests
              (fst (DashboardLoad.fetchUserData timestamptz_cmp (Some u)
                      (ProfileView.store
                         (ProfileView.handleSendRequest (Some u) uuid now db s)) d))))
  /\ (User.id w <> User.id u -> User.id w <> User.id v ->
      DashboardLoad.fetchUserData timestamptz_cmp (Some w)
        (ProfileView.store (ProfileView.handleSendRequest (Some u) uuid now db s)) d
      = DashboardLoad.fetchUserData timestamptz_cmp (Some w) db d).
Proof.
  intros Hp Hc Hm Ho Hw Hnd Hpu Hu Hpv Hv Hview Hid.
  rewrite (handleSendRequest_valid u viewed own uuid now db s Hp Hc Hm Ho Hw
             (has_user_id_In _ _ pu Hpu Hu)
             (has_user_id_In _ _ pv Hpv (eq_trans Hv (eq_sym Hview))) Hid).
  cbn [ProfileView.store]. rewrite Hview.
  set (row := SkillRequest.mk uuid (User.id u) (User.id v) _ _ _ pending now now).
  set (db' := mkDatabase (profiles db) (skill_requests db ++ [row])).
  assert (Hnd' : one_profile_per_user db') by exact Hnd.
  split; [|split].
  - rewrite (fetchUserData_loaded timestamptz_cmp v db' d pv Hnd' Hpv Hv).
    cbn [fst DashboardLoad.incomingRequests].
    apply (Permutation_in _ (Permutation_sym (incoming_requests timestamptz_cmp _ db'))).
    apply filter_In. split; [apply in_or_app; right; now left|].
    apply String.eqb_refl.
  - rewrite (fetchUserData_loaded timestamptz_cmp u db' d pu Hnd' Hpu Hu).
    cbn [fst DashboardLoad.sentRequests].
    apply (Permutation_in _ (Permutation_sym (sent_requests timestamptz_cmp _ db'))).
    apply filter_In. split; [apply in_or_app; right; now left|].
    apply String.eqb_refl.
  - intros N1 N2. apply third_party_sees_nothing; cbn; congruence.
Qed.

End RequestDelivery.

Lemma request_reaches_both_parties_witness :
  In (SkillRequest.mk "r-2" "u-bob" "u-alice" "Shall we trade?" "Cooking" "React"
        pending "2024-03-01T00:00:00Z" "2024-03-01T00:00:00Z")
     (map JoinedRequest.request
        (DashboardLoad.incomingRequests
           (fst (DashboardLoad.fetchUserData (fun _ _ => 0%Z) (Some Spec.userAlice)
                   (ProfileView.store
                      (ProfileView.handleSendRequest (Some Spec.userBob) "r-2"
                         "2024-03-01T00:00:00Z" Spec.sampleDb Spec.bobViewsAlice))
                   DashboardLoad.initial)))).
Proof.
  apply (request_reaches_both_parties (fun _ _ => 0%Z) Spec.userBob Spec.userAlice
           Spec.userCarol Spec.alice Spec.bob Spec.bob Spec.alice "r-2"
           "2024-03-01T00:00:00Z" Spec.sampleDb Spec.bobViewsAlice DashboardLoad.initial);
    try reflexivity; try discriminate.
  - intros H. apply trim_empty_iff in H. discriminate.
  - exact sampleDb_one_profile_per_user.
  - right. now left.
  - now left.
Defined.

(* ------------------------------------------------------------------ *)
(** ** Profile editor and creation page: what is saved and loaded back *)

Section Editor.
Import JSString Spec SpecExtra Postgrest.

Lemma orEmpty_orNull (x : string) : ProfileEditor.orEmpty (FormData.orNull x) = x.
Proof.
  unfold FormData.orNull, truthy.
  destruct (String.eqb_spec x "") as [-> | _]; reflexivity.
Qed.

(** The row the editor writes over [p] from the form [f]. *)
Lemma saved_row_form (f : FormData.t) (p : Profile.t) (now : string) :
  ProfileEditor.formOf
    (Table.touch_profile now
       (Table.apply_update
          (Table.mkProfileUpdate (FormData.name f)
             (FormData.orNull (FormData.location f)) (FormData.orNull (FormData.bio f))
             (FormData.skills_offered f) (FormData.skills_wanted f)
             (FormData.availability f) (FormData.is_public f)) p))
  = f.
Proof.
  unfold ProfileEditor.formOf. simpl. rewrite !orEmpty_orNull. now destruct f.
Qed.

Lemma own_row_is_written (u : string) (p : Profile.t) :
  Profile.user_id p = u ->
  Policy.profiles_select (Some u) p && Policy.profiles_update (Some u) p
  && (Profile.user_id p =? u) = true.
Proof.
  intros <-. unfold Policy.profiles_select, Policy.profiles_update, Policy.uid_is.
  now rewrite String.eqb_refl, orb_true_r.
Qed.

Lemma fetchProfile_loaded (u : User.t) (db : Database) (s : EditProfile.State)
    (p : Profile.t) :
  one_profile_per_user db -> In p (profiles db) -> Profile.user_id p = User.id u ->
  ProfileEditor.fetchProfile (Some u) db s
  = (ProfileEditor.setLoading false
       (EditProfile.setFormData (ProfileEditor.formOf p)
          (ProfileEditor.setProfile (Some p) s)), None).
Proof.
  intros Hnd Hin Hp. unfold ProfileEditor.fetchProfile.
  now rewrite (own_profile_found (User.id u) db p Hnd Hin Hp).
Qed.

(** X20.  Saving in the editor and loading back is a round trip: for a
    signed-in user whose profile is loaded and stored once, [handleSave]
    writes the form over the user's row (an empty location or bio as NULL),
    reloads it, and ends with the very form that was saved, the reloaded row
    as profile, edit mode left, no error and no redirect. *)
Theorem save_then_load_round_trip (u : User.t) (now : string) (db : Database)
    (s : EditProfile.State) (loaded p : Profile.t) :
  EditProfile.profile s = Some loaded ->
  one_profile_per_user db -> In p (profiles db) -> Profile.user_id p = User.id u ->
  EditProfile.formData (ProfileEditor.state (ProfileEditor.handleSave (Some u) now db s))
  = EditProfile.formData s
  /\ EditProfile.profile (ProfileEditor.state (ProfileEditor.handleSave (Some u) now db s))
     = Some (Profile.mk (Profile.id p) (Profile.user_id p)
               (FormData.name (EditProfile.formData s)) (Profile.email p)
               (FormData.orNull (FormData.location (EditProfile.formData s)))
               (FormData.orNull (FormData.bio (EditProfile.formData s)))
               (Profile.avatar_url p)
               (Some (FormData.skills_offered (EditProfile.formData s)))
               (Some (FormData.skills_wanted (EditProfile.formData s)))
               (FormData.availability (EditProfile.formData s))
               (FormData.is_public (EditProfile.formData s))
               (Profile.created_at p) now)
  /\ In (Profile.mk (Profile.id p) (Profile.user_id p)
           (FormData.name (EditProfile.formData s)) (Profile.email p)
           (FormData.orNull (FormData.location (EditProfile.formData s)))
           (FormData.orNull (FormData.bio (EditProfile.formData s)))
           (Profile.avatar_url p)
           (Some (FormData.skills_offered (EditProfile.formData s)))
           (Some (FormData.skills_wanted (EditProfile.formData s)))
           (FormData.availability (EditProfile.formData s))
           (FormData.is_public (EditProfile.formData s))
           (Profile.created_at p) now)
        (profiles (ProfileEditor.store (ProfileEditor.handleSave (Some u) now db s)))
  /\ EditProfile.editing (ProfileEditor.state (ProfileEditor.handleSave (Some u) now db s))
     = false
  /\ EditProfile.saving (ProfileEditor.state (ProfileEditor.handleSave (Some u) now db s))
     = false
  /\ EditProfile.error (ProfileEditor.state (ProfileEditor.handleSave (Some u) now db s))
     = ""
  /\ ProfileEditor.pushed (ProfileEditor.handleSave (Some u) now db s) = None.
Proof.
  intros Hl Hnd Hin Hp. unfold ProfileEditor.handleSave. rewrite Hl.
  unfold EditProfile.handleSave_write, Table.profiles_update.
  cbn [Postgrest.error done].
  set (v := Table.mkProfileUpdate _ _ _ _ _ _ _).
  set (g := fun q : Profile.t =>
              if Policy.profiles_select (Some (User.id u)) q
                 && Policy.profiles_update (Some (User.id u)) q
                 && (Profile.user_id q =? User.id u)
              then Table.touch_profile now (Table.apply_update v q) else q).
  set (db' := Table.set_profiles db (map g (profiles db))).
  assert (Hg : g p = Table.touch_profile now (Table.apply_update v p)).
  { unfold g. now rewrite (own_row_is_written (User.id u) p Hp). }
  assert (Hnd' : one_profile_per_user db').
  { unfold one_profile_per_user, db'. cbn [profiles Table.set_profiles].
    rewrite map_map.
    replace (map (fun x => Profile.user_id (g x)) (profiles db))
      with (map Profile.user_id (profiles db)); [exact Hnd|].
    apply map_ext. intros q. unfold g. now destruct (_ && _ && _). }
  assert (Hin' : In (g p) (profiles db')) by (apply in_map; exact Hin).
  assert (Hp' : Profile.user_id (g p) = User.id u) by (rewrite Hg; exact Hp).
  rewrite (fetchProfile_loaded u db' _ (g p) Hnd' Hin' Hp').
  cbn [ProfileEditor.state ProfileEditor.store ProfileEditor.pushed].
  rewrite Hg.
  split; [|split; [|split; [|repeat split]]].
  - subst v.
    cbn [EditProfile.formData EditProfile.setFormData ProfileEditor.setSaving
         ProfileEditor.setEditing ProfileEditor.setLoading ProfileEditor.setProfile
         ProfileEditor.setError].
    apply saved_row_form.
  - reflexivity.
  - rewrite Hg in Hin'. exact Hin'.
Qed.

(** X21.  Saving touches the caller's row only: row by row, a profile of
    another principal comes back as it was, and every row keeps its [id],
    [user_id], [email], [avatar_url] and [created_at]; no row is added or
    removed and no request is changed.  This holds for every state of the
    editor, signed in or not. *)
Theorem save_touches_own_row_only (user : option User.t) (now : string)
    (db : Database) (s : EditProfile.State) :
  Forall2
    (fun p p' =>
       (option_map User.id user <> Some (Profile.user_id p) -> p' = p)
       /\ Profile.id p' = Profile.id p
       /\ Profile.user_id p' = Profile.user_id p
       /\ Profile.email p' = Profile.email p
       /\ Profile.avatar_url p' = Profile.avatar_url p
       /\ Profile.created_at p' = Profile.created_at p)
    (profiles db)
    (profiles (ProfileEditor.store (ProfileEditor.handleSave user now db s)))
  /\ skill_requests (ProfileEditor.store (ProfileEditor.handleSave user now db s))
     = skill_requests db.
Proof.
  assert (Hsame : Forall2
    (fun p p' =>
       (option_map User.id user <> Some (Profile.user_id p) -> p' = p)
       /\ Profile.id p' = Profile.id p
       /\ Profile.user_id p' = Profile.user_id p
       /\ Profile.email p' = Profile.email p
       /\ Profile.avatar_url p' = Profile.avatar_url p
       /\ Profile.created_at p' = Profile.created_at p)
    (profiles db) (profiles db)).
  { induction (profiles db); constructor; auto. repeat split; auto. }
  unfold ProfileEditor.handleSave.
  destruct user as [u|]; [|split; [exact Hsame | reflexivity]].
  destruct (EditProfile.profile s); [|split; [exact Hsame | reflexivity]].
  unfold EditProfile.handleSave_write, Table.profiles_update.
  cbn [Postgrest.error done].
  match goal with
  | |- context [ProfileEditor.fetchProfile ?a ?b ?c] =>
      destruct (ProfileEditor.fetchProfile a b c) as [s' route]
  end.
  cbn [ProfileEditor.store Table.set_profiles profiles skill_requests option_map].
  split; [|reflexivity]. clear Hsame.
  induction (profiles db) as [|p l IH]; cbn [map]; constructor; [|exact IH].
  unfold Policy.profiles_update.
  destruct (Policy.uid_is (Some (User.id u)) (Profile.user_id p)) eqn:E.
  - apply uid_is_true in E.
    destruct (_ && _ && _); repeat split; auto; intros H; contradiction.
  - rewrite andb_false_r. repeat split; auto.
Qed.

End Editor.

Lemma save_then_load_round_trip_witness :
  EditProfile.formData
    (ProfileEditor.state
       (ProfileEditor.handleSave (Some Spec.userAlice) "2024-03-01T00:00:00Z" Spec.sampleDb
          (EditProfile.mkState (Some Spec.alice) false false true "" "" "" Spec.sampleForm)))
  = Spec.sampleForm.
Proof.
  apply (save_then_load_round_trip Spec.userAlice "2024-03-01T00:00:00Z" Spec.sampleDb
           (EditProfile.mkState (Some Spec.alice) false false true "" "" "" Spec.sampleForm)
           Spec.alice Spec.alice eq_refl sampleDb_one_profile_per_user
           (or_introl eq_refl) eq_refl).
Defined.

Section CreateAndView.
Import JSString Spec SpecExtra Postgrest.

Lemma upsert_new_user (u : string) (uuid now : string) (v : Table.ProfileUpsert)
    (db : Database) :
  Table.pu_user_id v = u ->
  Table.has_user_id u (profiles db) = false ->
  Table.has_profile_id uuid (profiles db) = false ->
  Table.profiles_upsert (Some u) uuid now v db
  = (done, Table.set_profiles db (profiles db ++ [Table.new_profile uuid now v])).
Proof.
  intros Hv Hu Hid. unfold Table.profiles_upsert, Policy.profiles_insert.
  cbn [Table.new_profile Profile.user_id]. rewrite Hv, uid_is_refl, Hid, Hu.
  reflexivity.
Qed.

(** X22.  Creating a profile and opening the editor is a round trip: for a
    signed-in user without a profile, [handleSubmit] appends one row owned by
    the user, holding the form (an empty location or bio as NULL, no avatar),
    and pushes the dashboard; the editor then loads the very form that was
    submitted, and the creation page, opened again, redirects to the
    dashboard. *)
Theorem create_then_load_round_trip (u : User.t) (uuid now : string) (db : Database)
    (c c' : CreateProfile.State) (e : EditProfile.State) :
  one_profile_per_user db ->
  Table.has_user_id (User.id u) (profiles db) = false ->
  Table.has_profile_id uuid (profiles db) = false ->
  CreateProfile.pushed (CreateProfile.handleSubmit (Some u) uuid now db c)
  = Some "/dashboard"
  /\ CreateProfile.error
       (CreateProfile.state (CreateProfile.handleSubmit (Some u) uuid now db c)) = ""
  /\ profiles (CreateProfile.store (CreateProfile.handleSubmit (Some u) uuid now db c))
     = profiles db
       ++ [Profile.mk uuid (User.id u)
             (FormData.name (CreateProfile.formData c)) (User.email u)
             (FormData.orNull (FormData.location (CreateProfile.formData c)))
             (FormData.orNull (FormData.bio (CreateProfile.formData c)))
             None
             (Some (FormData.skills_offered (CreateProfile.formData c)))
             (Some (FormData.skills_wanted (CreateProfile.formData c)))
             (FormData.availability (CreateProfile.formData c))
             (FormData.is_public (CreateProfile.formData c)) now now]
  /\ EditProfile.formData
       (fst (ProfileEditor.fetchProfile (Some u)
               (CreateProfile.store (CreateProfile.handleSubmit (Some u) uuid now db c))
               e))
     = CreateProfile.formData c
  /\ CreateProfile.pushed
       (CreateProfile.checkExistingProfile u
          (CreateProfile.store (CreateProfile.handleSubmit (Some u) uuid now db c)) c')
     = Some "/dashboard".
Proof.
  intros Hnd Hu Hid. unfold CreateProfile.handleSubmit.
  match goal with
  | |- context [Table.profiles_upsert _ _ _ ?v _] =>
      rewrite (upsert_new_user (User.id u) uuid now v db eq_refl Hu Hid)
  end.
  cbn [Postgrest.error done CreateProfile.pushed CreateProfile.store
       CreateProfile.state CreateProfile.error CreateProfile.setLoading
       CreateProfile.setError CreateProfile.formData].
  set (row := Table.new_profile uuid now _).
  set (db' := Table.set_profiles db (profiles db ++ [row])).
  assert (Hnd' : one_profile_per_user db').
  { unfold one_profile_per_user, db'. cbn [profiles Table.set_profiles].
    rewrite map_app. apply NoDup_app; [exact Hnd | repeat constructor; intros [] |].
    intros a Ha [<- | []]. apply (existsb_key Profile.user_id) in Ha.
    unfold Table.has_user_id in Hu. cbn in Ha. congruence. }
  assert (Hin' : In row (profiles db')).
  { unfold db'. cbn [profiles Table.set_profiles]. apply in_or_app. right. now left. }
  split; [reflexivity | split; [reflexivity | split; [reflexivity | split]]].
  - rewrite (fetchProfile_loaded u db' e row Hnd' Hin' eq_refl).
    cbn [fst EditProfile.formData ProfileEditor.setLoading EditProfile.setFormData].
    unfold ProfileEditor.formOf, row. cbn. rewrite !orEmpty_orNull.
    now destruct (CreateProfile.formData c).
  - unfold CreateProfile.checkExistingProfile.
    now rewrite (own_profile_found (User.id u) db' row Hnd' Hin' eq_refl).
Qed.

Lemma viewed_query (uid : option string) (db : Database) (p : Profile.t) :
  profile_ids_unique db -> In p (profiles db) -> Profile.is_public p = true ->
  Table.profiles_select uid
    (fun q => (Profile.id q =? Profile.id p) && Bool.eqb (Profile.is_public q) true) db
  = [p].
Proof.
  intros Hnd Hin Hpub. unfold Table.profiles_select. rewrite filter_subsumed.
  - rewrite filter_and, (filter_key_unique Profile.id _ p Hnd Hin). simpl.
    now rewrite Hpub.
  - intros q _ E. apply andb_true_iff in E. destruct E as [_ E].
    unfold Policy.profiles_select. destruct (Profile.is_public q); [reflexivity | discriminate].
Qed.

Lemma no_own_profile (u : string) (db : Database) :
  (forall q, In q (profiles db) -> Profile.user_id q <> u) ->
  Table.profiles_select (Some u) (fun q => Profile.user_id q =? u) db = [].
Proof.
  intros H. unfold Table.profiles_select. apply filter_none. intros q Hq.
  apply filter_In in Hq. destruct Hq as [Hq _]. apply String.eqb_neq. now apply H.
Qed.

(** X23.  The public profile page loads the viewer's own profile beside the
    viewed one: for a public profile and a signed-in viewer who owns a row,
    [fetchProfiles] ends with the viewed profile, the viewer's own profile,
    private or not, and no error; for a visitor who is not signed in the
    own-profile cell is left as it was. *)
Theorem view_page_loads_both_profiles (u : User.t) (db : Database)
    (s : ProfileView.State) (p q : Profile.t) :
  profile_ids_unique db -> one_profile_per_user db ->
  In p (profiles db) -> Profile.is_public p = true ->
  In q (profiles db) -> Profile.user_id q = User.id u ->
  ProfileView.fetchProfiles (Some u) (Profile.id p) db s
  = ProfileView.mkState (Some p) (Some q) (ProfileView.requestMessage s)
      (ProfileView.selectedSkillOffered s) (ProfileView.selectedSkillWanted s)
      (ProfileView.isRequestDialogOpen s) false (ProfileView.sending s) ""
      (ProfileView.success s)
  /\ ProfileView.fetchProfiles None (Profile.id p) db s
     = ProfileView.mkState (Some p) (ProfileView.currentUserProfile s)
         (ProfileView.requestMessage s) (ProfileView.selectedSkillOffered s)
         (ProfileView.selectedSkillWanted s) (ProfileView.isRequestDialogOpen s)
         false (ProfileView.sending s) "" (ProfileView.success s).
Proof.
  intros Hids Hnd Hp Hpub Hq Hu. unfold ProfileView.fetchProfiles.
  rewrite !(viewed_query _ db p Hids Hp Hpub).
  cbn [single Postgrest.error ok data ProfileView.auth_uid option_map].
  rewrite (own_profile_found (User.id u) db q Hnd Hq Hu).
  split; reflexivity.
Qed.

(** X24.  A signed-in visitor who has no profile yet gets no error on the
    public profile page, and is sent to the login page on sending: after
    [fetchProfiles] the own-profile cell is empty and the error cell too, and
    [handleSendRequest], whatever was typed, pushes "/auth/login", stores
    nothing and leaves the page as it is. *)
Theorem visitor_without_profile_sent_to_login (u : User.t) (uuid now : string)
    (db : Database) (s : ProfileView.State) (p : Profile.t) :
  profile_ids_unique db -> In p (profiles db) -> Profile.is_public p = true ->
  (forall q, In q (profiles db) -> Profile.user_id q <> User.id u) ->
  ProfileView.fetchProfiles (Some u) (Profile.id p) db s
  = ProfileView.mkState (Some p) None (ProfileView.requestMessage s)
      (ProfileView.selectedSkillOffered s) (ProfileView.selectedSkillWanted s)
      (ProfileView.isRequestDialogOpen s) false (ProfileView.sending s) ""
      (ProfileView.success s)
  /\ ProfileView.handleSendRequest (Some u) uuid now db
       (ProfileView.fetchProfiles (Some u) (Profile.id p) db s)
     = ProfileView.mkOutcome (ProfileView.fetchProfiles (Some u) (Profile.id p) db s)
         db (Some "/auth/login").
Proof.
  intros Hids Hp Hpub Hnone.
  assert (E : ProfileView.fetchProfiles (Some u) (Profile.id p) db s
              = ProfileView.mkState (Some p) None (ProfileView.requestMessage s)
                  (ProfileView.selectedSkillOffered s) (ProfileView.selectedSkillWanted s)
                  (ProfileView.isRequestDialogOpen s) false (ProfileView.sending s) ""
                  (ProfileView.success s)).
  { unfold ProfileView.fetchProfiles.
    rewrite (viewed_query _ db p Hids Hp Hpub).
    cbn [single Postgrest.error ok data ProfileView.auth_uid option_map].
    rewrite (no_own_profile (User.id u) db Hnone). reflexivity. }
  split; [exact E|]. rewrite E. reflexivity.
Qed.

End CreateAndView.

Lemma sampleDb_profile_ids_unique : Spec.profile_ids_unique Spec.sampleDb.
Proof.
  unfold Spec.profile_ids_unique. simpl.
  repeat constructor; simpl; intuition discriminate.
Qed.

Lemma create_then_load_round_trip_witness :
  EditProfile.formData
    (fst (ProfileEditor.fetchProfile (Some (User.mk "u-erin" "erin@example.org" None))
            (CreateProfile.store
               (CreateProfile.handleSubmit (Some (User.mk "u-erin" "erin@example.org" None))
                  "p-erin" "2024-03-01T00:00:00Z" Spec.sampleDb
                  (CreateProfile.mkState false "" "" "" Spec.sampleForm)))
            (EditProfile.mkState None true false false "" "" "" (FormData.mk "" "" "" [] [] "flexible" true))))
  = Spec.sampleForm.
Proof.
  apply (create_then_load_round_trip (User.mk "u-erin" "erin@example.org" None)
           "p-erin" "2024-03-01T00:00:00Z" Spec.sampleDb
           (CreateProfile.mkState false "" "" "" Spec.sampleForm)
           (CreateProfile.mkState false "" "" "" Spec.sampleForm)
           (EditProfile.mkState None true false false "" "" ""
              (FormData.mk "" "" "" [] [] "flexible" true))
           sampleDb_one_profile_per_user eq_refl eq_refl).
Defined.

Lemma view_page_loads_both_profiles_witness :
  ProfileView.currentUserProfile
    (ProfileView.fetchProfiles (Some Spec.userCarol) (Profile.id Spec.alice)
       Spec.sampleDb ProfileView.initial)
  = Some Spec.carol.
Proof.
  rewrite (proj1 (view_page_loads_both_profiles Spec.userCarol Spec.sampleDb
                    ProfileView.initial Spec.alice Spec.carol
                    sampleDb_profile_ids_unique sampleDb_one_profile_per_user
                    (or_introl eq_refl) eq_refl
                    (or_intror (or_intror (or_introl eq_refl))) eq_refl)).
  reflexivity.
Defined.

Lemma visitor_without_profile_sent_to_login_witness :
  ProfileView.pushed
    (ProfileView.handleSendRequest (Some (User.mk "u-erin" "erin@example.org" None))
       "r-2" "2024-03-01T00:00:00Z" Spec.sampleDb
       (ProfileView.fetchProfiles (Some (User.mk "u-erin" "erin@example.org" None))
          (Profile.id Spec.alice) Spec.sampleDb ProfileView.initial))
  = Some "/auth/login".
Proof.
  assert (Hnone : forall q, In q (profiles Spec.sampleDb) ->
                            Profile.user_id q <> "u-erin").
  { intros q [<- | [<- | [<- | []]]]; discriminate. }
  rewrite (proj2 (visitor_without_profile_sent_to_login
                    (User.mk "u-erin" "erin@example.org" None) "r-2"
                    "2024-03-01T00:00:00Z" Spec.sampleDb ProfileView.initial Spec.alice
                    sampleDb_profile_ids_unique (or_introl eq_refl) eq_refl Hnone)).
  reflexivity.
Defined.

Section CreateIsolation.
Import JSString Spec SpecExtra Postgrest.

Lemma upsert_rows (uid : option string) (uuid now : string)
    (v : Table.ProfileUpsert) (db : Database) :
  exists g : Profile.t -> Profile.t,
    (forall p, g p = p \/ (uid = Some (Profile.user_id p) /\ Profile.id (g p) = Profile.id p
                           /\ uid = Some (Profile.user_id (g p))))
    /\ (profiles (snd (Table.profiles_upsert uid uuid now v db)) = map g (profiles db)
        \/ (uid = Some (Table.pu_user_id v)
            /\ profiles (snd (Table.profiles_upsert uid uuid now v db))
               = profiles db ++ [Table.new_profile uuid now v])).
Proof.
  unfold Table.profiles_upsert.
  destruct (negb (Policy.profiles_insert uid (Table.new_profile uuid now v))) eqn:Ep.
  { exists (fun p => p). split; [now left | left; now rewrite map_id]. }
  apply negb_false_iff in Ep. unfold Policy.profiles_insert in Ep. cbn in Ep.
  apply uid_is_true in Ep.
  destruct (Table.has_profile_id uuid (profiles db)).
  - match goal with
    | |- context [if existsb ?f ?l then (fail E42501, _) else _] =>
        destruct (existsb f l) eqn:Eu
    end.
    { exists (fun p => p). split; [now left | left; now rewrite map_id]. }
    match goal with
    | |- context [if existsb ?f ?l then _ else _] => destruct (existsb f l)
    end.
    { exists (fun p => p). split; [now left | left; now rewrite map_id]. }
    exists (fun q => if (Profile.id q =? uuid)
                        && Policy.profiles_update uid q
                     then Table.merge_profile now v q else q).
    split.
    + intros p. destruct (Profile.id p =? uuid); [|now left].
      unfold Policy.profiles_update.
      destruct (Policy.uid_is uid (Profile.user_id p)) eqn:E; [|now left].
      apply uid_is_true in E. right. now repeat split.
    + left. cbn [snd profiles Table.set_profiles]. apply map_ext_in. intros q Hq.
      destruct (Profile.id q =? uuid) eqn:E; [|reflexivity].
      apply (existsb_false_In _ _ q) in Eu; [|exact Hq]. cbv beta in Eu.
      rewrite E in Eu. cbn in Eu. apply negb_false_iff in Eu. now rewrite Eu.
  - destruct (Table.has_user_id (Table.pu_user_id v) (profiles db)).
    + exists (fun p => p). split; [now left | left; now rewrite map_id].
    + exists (fun p => p). split; [now left | right; now split].
Qed.

(** X25.  Submitting the creation form never touches another principal's
    profile: every row that is not owned by the signed-in user is still in
    the table afterwards, unchanged, and every row of the table afterwards
    either was there before or is owned by the signed-in user.  This holds
    for every form and every generated id, whether the upsert inserts,
    rewrites or is refused. *)
Theorem create_writes_own_rows_only (user : option User.t) (uuid now : string)
    (db : Database) (c : CreateProfile.State) :
  Forall
    (fun p => option_map User.id user <> Some (Profile.user_id p) ->
              In p (profiles
                      (CreateProfile.store
                         (CreateProfile.handleSubmit user uuid now db c))))
    (profiles db)
  /\ Forall
       (fun p' => In p' (profiles db)
                  \/ option_map User.id user = Some (Profile.user_id p'))
       (profiles (CreateProfile.store (CreateProfile.handleSubmit user uuid now db c))).
Proof.
  destruct user as [u|].
  - destruct (handleSubmit_store u uuid now db c) as [v [Hv ->]].
    destruct (upsert_rows (Some (User.id u)) uuid now v db) as [g [Hg [E | [_ E]]]];
      rewrite E; cbn [option_map]; split; apply Forall_forall.
    + intros p Hp Hne. destruct (Hg p) as [H | [H _]]; [|contradiction].
      rewrite <- H. now apply in_map.
    + intros p' Hp'. apply in_map_iff in Hp'. destruct Hp' as [p [<- Hp]].
      destruct (Hg p) as [H | [_ [_ H]]]; [left; now rewrite H | now right].
    + intros p Hp _. apply in_or_app. now left.
    + intros p' Hp'. apply in_app_or in Hp'. destruct Hp' as [Hp' | [<- | []]];
        [now left | right]. cbn. now rewrite Hv.
  - cbn. split; apply Forall_forall; intros p Hp; [intros _; exact Hp | now left].
Qed.

End CreateIsolation.
